(** * CodePal: the vector store, its persistence and the repository scanner

    A shallow embedding of [vector_store.py], of the part of [agent.py]
    that drives it ([CodePalManager.initialize_repository],
    [get_repository_info], the tool list of an agent), of the search tool
    of [tools.py] and of the constants of [config.py] they read.

    Conventions.
    - A Python [str] is a Rocq [string] holding its UTF-8 bytes, so that
      [text.encode()] is the identity on the bytes.
    - [float32] values are idealised as real numbers: rounding, overflow
      and NaN are outside the model.
    - A file is named by the path string the program uses for it: the
      file system maps path strings to contents, and two spellings of
      one path are two names.
    - Libraries the code calls are modelled from their documented
      behaviour: [hashlib.md5] (RFC 1321, implemented below),
      [faiss.IndexFlatL2] (exact search, squared L2 distances, results
      padded with label -1), [pathlib] and [os.path].  What cannot be
      computed from the program text (whether a model download succeeds,
      what a SentenceTransformer encodes, how langchain splits) is a
      Variable of the section. *)

From Stdlib Require Import ZArith List String Ascii Reals Lra Lia Bool Sorted Permutation.
From stdpp Require Import base option list gmap strings.

Import ListNotations.
Local Open Scope string_scope.
Local Open Scope list_scope.
Local Open Scope Z_scope.

(* ===================================================================== *)
(** ** Python built-ins used by the code *)
(* ===================================================================== *)

Module Py.

(** [ord(c)] of a one-byte character. *)
Definition ord (c : ascii) : Z := Z.of_nat (nat_of_ascii c).

(** [s[:n]] for [n >= 0]: at most the first [n] characters. *)
Fixpoint slice_to (n : nat) (s : string) : string :=
  match n, s with
  | O, _ => EmptyString
  | S _, EmptyString => EmptyString
  | S n', String c s' => String c (slice_to n' s')
  end.

(** [l[i]] on a list: negative indices count from the end, anything
    outside [-len, len) raises IndexError (here [None]). *)
Definition getitem {A : Type} (l : list A) (i : Z) : option A :=
  let n := Z.of_nat (length l) in
  if (0 <=? i) && (i <? n) then nth_error l (Z.to_nat i)
  else if (- n <=? i) && (i <? 0) then nth_error l (Z.to_nat (n + i))
  else None.

(** The characters [str.strip()] removes are those [str.isspace()]
    accepts.  In the ASCII range: the codes 9 to 13 and 28 to 32. *)
Definition isspace (c : ascii) : bool :=
  let n := nat_of_ascii c in
  ((9 <=? n) && (n <=? 13) || (28 <=? n) && (n <=? 32))%nat.

(** Beyond ASCII, as UTF-8 bytes: U+0085 and U+00A0 (two bytes). *)
Definition isspace2 (b1 b2 : ascii) : bool :=
  let n1 := nat_of_ascii b1 in
  let n2 := nat_of_ascii b2 in
  ((n1 =? 194) && ((n2 =? 133) || (n2 =? 160)))%nat.

(** U+1680, U+2000 to U+200A, U+2028, U+2029, U+202F, U+205F and U+3000
    (three bytes). *)
Definition isspace3 (b1 b2 b3 : ascii) : bool :=
  let n1 := nat_of_ascii b1 in
  let n2 := nat_of_ascii b2 in
  let n3 := nat_of_ascii b3 in
  ((n1 =? 225) && (n2 =? 154) && (n3 =? 128)
   || (n1 =? 226) && (n2 =? 128)
      && ((128 <=? n3) && (n3 <=? 138)
          || (n3 =? 168) || (n3 =? 169) || (n3 =? 175))
   || (n1 =? 226) && (n2 =? 129) && (n3 =? 159)
   || (n1 =? 227) && (n2 =? 128) && (n3 =? 128))%nat.

Fixpoint lstrip (s : string) : string :=
  match s with
  | EmptyString => EmptyString
  | String b1 s1 =>
      if isspace b1 then lstrip s1
      else
        match s1 with
        | String b2 s2 =>
            if isspace2 b1 b2 then lstrip s2
            else
              match s2 with
              | String b3 s3 => if isspace3 b1 b2 b3 then lstrip s3 else s
              | EmptyString => s
              end
        | EmptyString => s
        end
  end.

(** The same from the end, over the bytes in reverse order. *)
Fixpoint rstrip_rev (l : list ascii) : list ascii :=
  match l with
  | [] => []
  | b1 :: l1 =>
      if isspace b1 then rstrip_rev l1
      else
        match l1 with
        | b2 :: l2 =>
            if isspace2 b2 b1 then rstrip_rev l2
            else
              match l2 with
              | b3 :: l3 => if isspace3 b3 b2 b1 then rstrip_rev l3 else l
              | [] => l
              end
        | [] => l
        end
  end.

Definition rstrip (s : string) : string :=
  string_of_list_ascii (rev (rstrip_rev (rev (list_ascii_of_string s)))).

Definition strip (s : string) : string := rstrip (lstrip s).

(** [s.startswith(p)]. *)
Definition startswith (p s : string) : bool := String.prefix p s.

(** [s.rfind('.')]: index of the last dot, [-1] when there is none. *)
Fixpoint rfind_dot_from (i : Z) (s : string) (last : Z) : Z :=
  match s with
  | EmptyString => last
  | String c s' =>
      rfind_dot_from (i + 1) s' (if Ascii.eqb c "."%char then i else last)
  end.

Definition rfind_dot (s : string) : Z := rfind_dot_from 0 s (-1).

(** [s[i:]] for [i >= 0]. *)
Fixpoint slice_from (i : nat) (s : string) : string :=
  match i, s with
  | O, _ => s
  | S _, EmptyString => EmptyString
  | S i', String _ s' => slice_from i' s'
  end.

End Py.

(* ===================================================================== *)
(** ** [hashlib.md5]: RFC 1321 on 32-bit words held in [Z] *)
(* ===================================================================== *)

Module MD5.

Definition wrap32 (x : Z) : Z := x mod 2 ^ 32.

Definition not32 (x : Z) : Z := Z.lxor x (2 ^ 32 - 1).

Definition rotl32 (x c : Z) : Z :=
  wrap32 (Z.lor (Z.shiftl x c) (Z.shiftr x (32 - c))).

Definition s_table : list Z :=
  [ 7; 12; 17; 22; 7; 12; 17; 22; 7; 12; 17; 22; 7; 12; 17; 22;
    5; 9; 14; 20; 5; 9; 14; 20; 5; 9; 14; 20; 5; 9; 14; 20;
    4; 11; 16; 23; 4; 11; 16; 23; 4; 11; 16; 23; 4; 11; 16; 23;
    6; 10; 15; 21; 6; 10; 15; 21; 6; 10; 15; 21; 6; 10; 15; 21 ].

(** [K_table[i] = floor (2^32 * |sin (i + 1)|)]. *)
Definition K_table : list Z :=
  [ 3614090360; 3905402710; 606105819; 3250441966;
    4118548399; 1200080426; 2821735955; 4249261313;
    1770035416; 2336552879; 4294925233; 2304563134;
    1804603682; 4254626195; 2792965006; 1236535329;
    4129170786; 3225465664; 643717713; 3921069994;
    3593408605; 38016083; 3634488961; 3889429448;
    568446438; 3275163606; 4107603335; 1163531501;
    2850285829; 4243563512; 1735328473; 2368359562;
    4294588738; 2272392833; 1839030562; 4259657740;
    2763975236; 1272893353; 4139469664; 3200236656;
    681279174; 3936430074; 3572445317; 76029189;
    3654602809; 3873151461; 530742520; 3299628645;
    4096336452; 1126891415; 2878612391; 4237533241;
    1700485571; 2399980690; 4293915773; 2240044497;
    1873313359; 4264355552; 2734768916; 1309151649;
    4149444226; 3174756917; 718787259; 3951481745 ].

Definition bytes_of_string (s : string) : list Z :=
  map Py.ord (list_ascii_of_string s).

(** [n] little-endian bytes of [x]. *)
Fixpoint le_bytes (n : nat) (x : Z) : list Z :=
  match n with
  | O => []
  | S n' => x mod 256 :: le_bytes n' (x / 256)
  end.

Fixpoint word_of_le (bs : list Z) : Z :=
  match bs with
  | [] => 0
  | b :: bs' => b + 256 * word_of_le bs'
  end.

(** Message, a single 1 bit, zeros up to 56 mod 64, the bit length on
    64 bits. *)
Definition pad (msg : list Z) : list Z :=
  let len := Z.of_nat (length msg) in
  let zeros := Z.to_nat ((55 - len) mod 64) in
  msg ++ [128] ++ repeat 0 zeros ++ le_bytes 8 ((8 * len) mod 2 ^ 64).

(** The 16 words of a 64-byte block. *)
Fixpoint words (n : nat) (block : list Z) : list Z :=
  match n with
  | O => []
  | S n' => word_of_le (firstn 4 block) :: words n' (skipn 4 block)
  end.

Fixpoint blocks (n : nat) (bs : list Z) : list (list Z) :=
  match n with
  | O => []
  | S n' => words 16 (firstn 64 bs) :: blocks n' (skipn 64 bs)
  end.

Record state : Type := State { sa : Z; sb : Z; sc : Z; sd : Z }.

Definition init_state : state :=
  State 1732584193 4023233417 2562383102 271733878.

Definition step (M : list Z) (st : state) (i : nat) : state :=
  let '(State a b c d) := st in
  let zi := Z.of_nat i in
  let '(f, g) :=
    if zi <? 16 then (Z.lor (Z.land b c) (Z.land (not32 b) d), zi)
    else if zi <? 32 then
      (Z.lor (Z.land d b) (Z.land (not32 d) c), (5 * zi + 1) mod 16)
    else if zi <? 48 then (Z.lxor (Z.lxor b c) d, (3 * zi + 5) mod 16)
    else (Z.lxor c (Z.lor b (not32 d)), (7 * zi) mod 16) in
  let f' := wrap32 (f + a + nth i K_table 0 + nth (Z.to_nat g) M 0) in
  State d (wrap32 (b + rotl32 f' (nth i s_table 0))) b c.

Definition compress (st : state) (M : list Z) : state :=
  let st' := fold_left (step M) (seq 0 64) st in
  State (wrap32 (sa st + sa st')) (wrap32 (sb st + sb st'))
        (wrap32 (sc st + sc st')) (wrap32 (sd st + sd st')).

(** [hashlib.md5(data).digest()]: 16 bytes. *)
Definition digest (data : list Z) : list Z :=
  let p := pad data in
  let st := fold_left compress (blocks (length p / 64) p) init_state in
  le_bytes 4 (sa st) ++ le_bytes 4 (sb st) ++
  le_bytes 4 (sc st) ++ le_bytes 4 (sd st).

Definition hex_digit (n : Z) : ascii :=
  nth (Z.to_nat n)
      (list_ascii_of_string "0123456789abcdef") "0"%char.

Fixpoint hex_of_bytes (bs : list Z) : string :=
  match bs with
  | [] => EmptyString
  | b :: bs' =>
      String (hex_digit (b / 16)) (String (hex_digit (b mod 16))
             (hex_of_bytes bs'))
  end.

(** [hashlib.md5(data).hexdigest()]. *)
Definition hexdigest (data : list Z) : string := hex_of_bytes (digest data).

End MD5.

(* ===================================================================== *)
(** ** numpy: the array operations the code uses *)
(* ===================================================================== *)

Module Np.

(** A 2-D [float32] array, as the list of its rows. *)
Definition array2 : Type := list (list R).

(** [np.linalg.norm(v)]: the L2 norm. *)
Definition linalg_norm (v : list R) : R :=
  sqrt (fold_right (fun x acc => x * x + acc) 0 v)%R.

(** [x > 0]. *)
Definition gt0 (x : R) : bool := if Rlt_dec 0 x then true else false.

(** [v / c], elementwise. *)
Definition divide (v : list R) (c : R) : list R := map (fun x => x / c)%R v.

(** [a.shape[1]]: [None] (IndexError) when the array has no second axis. *)
Definition shape1 (a : array2) : option nat :=
  match a with
  | [] => None
  | row :: _ => Some (length row)
  end.

End Np.

(* ===================================================================== *)
(** ** Exceptions, results and the state monad of the methods *)
(* ===================================================================== *)

Inductive Exception : Type :=
| ModelLoadError | AttributeError | IndexError | AssertionError
| FileExistsError | IsADirectoryError | FaissReadError | UnpicklingError
| UnicodeDecodeError | ValueError.

Inductive result (A : Type) : Type :=
| Ok (a : A)
| Raise (e : Exception).

Arguments Ok {A} a.
Arguments Raise {A} e.

(** A computation over a mutable state [S] that returns or raises; the
    state it leaves behind is kept in both cases, as a Python method
    that raises half-way leaves its object half-updated. *)
Definition M (S A : Type) : Type := S -> result A * S.

Definition ret {S A : Type} (a : A) : M S A := fun s => (Ok a, s).

Definition raise {S A : Type} (e : Exception) : M S A := fun s => (Raise e, s).

Definition bind {S A B : Type} (m : M S A) (k : A -> M S B) : M S B :=
  fun s =>
    match m s with
    | (Ok a, s') => k a s'
    | (Raise e, s') => (Raise e, s')
    end.

Definition try_except {S A : Type} (m : M S A) (handler : Exception -> M S A)
  : M S A :=
  fun s =>
    match m s with
    | (Ok a, s') => (Ok a, s')
    | (Raise e, s') => handler e s'
    end.

Definition of_result {S A : Type} (r : result A) : M S A := fun s => (r, s).

Definition of_option {S A : Type} (e : Exception) (o : option A) : M S A :=
  match o with
  | Some a => ret a
  | None => raise e
  end.

(** Run a computation on the second component of a pair of states. *)
Definition lift_snd {S W A : Type} (m : M W A) : M (S * W) A :=
  fun '(s, w) => let '(r, w') := m w in (r, (s, w')).

Declare Scope monad_scope.
Delimit Scope monad_scope with monad.
Notation "x <- m ;; k" := (bind m (fun x => k))
  (at level 100, m at level 99, right associativity) : monad_scope.
Notation "m ;; k" := (bind m (fun _ => k))
  (at level 100, right associativity) : monad_scope.
Local Open Scope monad_scope.

(* ===================================================================== *)
(** ** faiss.IndexFlatL2 *)
(* ===================================================================== *)

Module Faiss.

Record IndexFlatL2 : Type := { d : nat; xb : list (list R) }.

(** [faiss.IndexFlatL2(dimension)]. *)
Definition new (dimension : nat) : IndexFlatL2 := {| d := dimension; xb := [] |}.

Definition ntotal (index : IndexFlatL2) : nat := length (xb index).

(** [index.add(x)]: the rows are appended; a row of another dimension
    fails the wrapper's assertion. *)
Definition add (index : IndexFlatL2) (x : Np.array2) : result IndexFlatL2 :=
  if forallb (fun row => Nat.eqb (length row) (d index)) x
  then Ok {| d := d index; xb := xb index ++ x |}
  else Raise AssertionError.

(** The squared Euclidean distance an [IndexFlatL2] reports. *)
Fixpoint fvec_L2sqr (x y : list R) : R :=
  match x, y with
  | a :: x', b :: y' => ((a - b) * (a - b) + fvec_L2sqr x' y')%R
  | _, _ => 0%R
  end.

(** The largest finite [float32]: the distance of an empty result slot. *)
Definition FLT_MAX : R := IZR 340282346638528859811704183484516925440.

Definition hit : Type := (Z * R)%type.

Definition Rleb (a b : R) : bool := if Rle_dec a b then true else false.

Definition Rltb (a b : R) : bool := if Rlt_dec a b then true else false.

Fixpoint insert_hit (h : hit) (l : list hit) : list hit :=
  match l with
  | [] => [h]
  | h' :: t => if Rleb (snd h) (snd h') then h :: l else h' :: insert_hit h t
  end.

(** Hits by ascending distance; equal distances keep ascending labels. *)
Definition sort_hits (l : list hit) : list hit := fold_right insert_hit [] l.

(** The stored vectors from label [i] on, each with its label and its
    distance to the query. *)
Fixpoint labelled (i : nat) (q : list R) (vectors : list (list R)) : list hit :=
  match vectors with
  | [] => []
  | v :: rest => (Z.of_nat i, fvec_L2sqr q v) :: labelled (S i) q rest
  end.

(** A result slot starts at distance [FLT_MAX] and is only ever filled
    by a smaller distance. *)
Definition candidates (index : IndexFlatL2) (q : list R) : list hit :=
  List.filter (fun h => Rltb (snd h) FLT_MAX) (labelled 0 q (xb index)).

(** Nearer first; at equal distance, the smaller label first. *)
Definition hit_le (a b : hit) : Prop :=
  (snd a < snd b)%R \/ (snd a = snd b /\ fst a <= fst b).

(** One row of the result: the [k] nearest hits, then empty slots
    (label -1, distance [FLT_MAX]) up to [k]. *)
Definition search_one (index : IndexFlatL2) (k : nat) (q : list R)
  : list R * list Z :=
  let hits := firstn k (sort_hits (candidates index q)) in
  let missing := (k - length hits)%nat in
  (map snd hits ++ repeat FLT_MAX missing, map fst hits ++ repeat (-1) missing).

(** [D, I = index.search(xq, k)], one row per query. *)
Definition search (index : IndexFlatL2) (xq : Np.array2) (k : Z)
  : result (list (list R) * list (list Z)) :=
  if k <=? 0 then Raise AssertionError
  else if forallb (fun q => Nat.eqb (length q) (d index)) xq
  then let rows := map (search_one index (Z.to_nat k)) xq in
       Ok (map fst rows, map snd rows)
  else Raise AssertionError.

End Faiss.

(* ===================================================================== *)
(** ** pathlib and os.path *)
(* ===================================================================== *)

Module Pathlib.

(** A [Path], as its [parts]. *)
Definition Path : Type := list string.

Fixpoint split_on (sep : ascii) (s : string) : list string :=
  match s with
  | EmptyString => [EmptyString]
  | String c s' =>
      if Ascii.eqb c sep then EmptyString :: split_on sep s'
      else match split_on sep s' with
           | [] => [String c EmptyString]
           | h :: t => String c h :: t
           end
  end.

(** [Path(s).parts]: empty and "." segments are dropped, a leading
    slash is the first part. *)
Definition of_string (s : string) : Path :=
  let segs := List.filter (fun x => negb (String.eqb x "") && negb (String.eqb x "."))
                     (split_on "/"%char s) in
  if Py.startswith "/" s then "/" :: segs else segs.

(** [p.name]. *)
Definition name (p : Path) : string :=
  match rev p with
  | [] => ""
  | n :: _ => if String.eqb n "/" then "" else n
  end.

(** [p.suffix]: from the last dot of the name, unless that dot is the
    first or the last character. *)
Definition suffix (p : Path) : string :=
  let n := name p in
  let i := Py.rfind_dot n in
  if (0 <? i) && (i <? Z.of_nat (String.length n) - 1)
  then Py.slice_from (Z.to_nat i) n else "".

Fixpoint join_parts (ps : list string) : string :=
  match ps with
  | [] => ""
  | [x] => x
  | x :: rest => x ++ "/" ++ join_parts rest
  end.

(** [str(p)]. *)
Definition to_string (p : Path) : string :=
  match p with
  | [] => "."
  | "/" :: rest => "/" ++ join_parts rest
  | _ => join_parts p
  end.

End Pathlib.

Definition ends_with_slash (s : string) : bool :=
  match rev (list_ascii_of_string s) with
  | c :: _ => Ascii.eqb c "/"%char
  | [] => false
  end.

(** [os.path.join(a, b)]. *)
Definition os_path_join (a b : string) : string :=
  if Py.startswith "/" b then b
  else if String.eqb a "" || ends_with_slash a then a ++ b
  else a ++ "/" ++ b.

(* ===================================================================== *)
(** ** config.py *)
(* ===================================================================== *)

Module Config.

Definition SUPPORTED_EXTENSIONS : gset string :=
  {[ ".py"; ".js"; ".ts"; ".java"; ".cpp"; ".c"; ".h"; ".hpp";
     ".cs"; ".php"; ".rb"; ".go"; ".rs"; ".swift"; ".kt";
     ".scala"; ".r"; ".m"; ".mm"; ".sh"; ".bash"; ".zsh";
     ".sql"; ".html"; ".css"; ".scss"; ".sass"; ".xml";
     ".json"; ".yaml"; ".yml"; ".toml"; ".ini"; ".cfg";
     ".md"; ".txt"; ".rst"; ".tex" ]}.

Definition MAX_FILE_SIZE : Z := 1024 * 1024.

End Config.

(* ===================================================================== *)
(** ** Data model *)
(* ===================================================================== *)

(** The [metadata] dict of a chunk. *)
Record Metadata : Type := {
  file_path : string;
  file_name : string;
  file_extension : string;
  chunk_index : nat;
  total_chunks : nat
}.

(** [langchain.schema.Document]. *)
Record Document : Type := {
  page_content : string;
  metadata : Metadata
}.

Record DocumentStore : Type := {
  _dict : gmap nat Document;
  _counter : nat
}.

Definition DocumentStore_init : DocumentStore :=
  {| _dict := ∅; _counter := 0 |}.

Definition add_document (document : Document) (self : DocumentStore)
  : DocumentStore :=
  {| _dict := <[_counter self := document]> (_dict self);
     _counter := S (_counter self) |}.

(** The provider held in [embedding_model]. *)
Inductive EmbeddingModel : Type :=
| SentenceTransformer (model_name : string)
| FallbackEmbeddingModel (dimension : nat).

Record CodeVectorStore : Type := {
  embedding_model_name : string;
  embedding_model : option EmbeddingModel;
  documents : list Document;
  embeddings : option Np.array2;
  faiss_index : option Faiss.IndexFlatL2;
  docstore : DocumentStore
}.

Definition set_embedding_model_name (v : string) (self : CodeVectorStore) :=
  {| embedding_model_name := v; embedding_model := embedding_model self;
     documents := documents self; embeddings := embeddings self;
     faiss_index := faiss_index self; docstore := docstore self |}.

Definition set_embedding_model (v : option EmbeddingModel)
  (self : CodeVectorStore) :=
  {| embedding_model_name := embedding_model_name self; embedding_model := v;
     documents := documents self; embeddings := embeddings self;
     faiss_index := faiss_index self; docstore := docstore self |}.

Definition set_documents (v : list Document) (self : CodeVectorStore) :=
  {| embedding_model_name := embedding_model_name self;
     embedding_model := embedding_model self;
     documents := v; embeddings := embeddings self;
     faiss_index := faiss_index self; docstore := docstore self |}.

Definition set_embeddings (v : option Np.array2) (self : CodeVectorStore) :=
  {| embedding_model_name := embedding_model_name self;
     embedding_model := embedding_model self;
     documents := documents self; embeddings := v;
     faiss_index := faiss_index self; docstore := docstore self |}.

Definition set_faiss_index (v : option Faiss.IndexFlatL2)
  (self : CodeVectorStore) :=
  {| embedding_model_name := embedding_model_name self;
     embedding_model := embedding_model self;
     documents := documents self; embeddings := embeddings self;
     faiss_index := v; docstore := docstore self |}.

Definition set_docstore (v : DocumentStore) (self : CodeVectorStore) :=
  {| embedding_model_name := embedding_model_name self;
     embedding_model := embedding_model self;
     documents := documents self; embeddings := embeddings self;
     faiss_index := faiss_index self; docstore := v |}.

(** What a path of the file system holds. *)
Inductive FileData : Type :=
| Directory
| FaissIndexFile (index : Faiss.IndexFlatL2)
| PickleFile (docs : list Document)
| TextFile (text : string)
| OtherFile.

(** A repository tree, as [rglob] walks it. *)
#[warnings="-register-all"]
Inductive Node : Type :=
| File (name : string) (st_size : Z) (content : string)
| Dir (name : string) (children : list Node).

(** What the outside world records of a run. *)
Inductive Event : Type :=
| LoadModel (model_name : string)
| Sleep (seconds : Z).

Record World : Type := {
  fs : gmap string FileData;
  repos : gmap string (list Node);
  net_clock : nat;
  events : list Event
}.

Definition set_fs (v : gmap string FileData) (w : World) : World :=
  {| fs := v; repos := repos w; net_clock := net_clock w; events := events w |}.

Definition log_event (e : Event) (w : World) : World :=
  {| fs := fs w; repos := repos w; net_clock := net_clock w;
     events := events w ++ [e] |}.

Definition tick (w : World) : World :=
  {| fs := fs w; repos := repos w; net_clock := S (net_clock w);
     events := events w |}.

(** *** File system calls *)

Definition os_path_exists (path : string) : M World bool :=
  fun w => (Ok (bool_decide (is_Some (fs w !! path))), w).

(** [os.makedirs(path, exist_ok=True)], as far as [path] itself goes.
    The directories above [path], which the call creates when they are
    missing, are not recorded in [fs]: they are taken to exist or to be
    creatable. *)
Definition os_makedirs (path : string) : M World unit :=
  fun w =>
    match fs w !! path with
    | None => (Ok tt, set_fs (<[path := Directory]> (fs w)) w)
    | Some Directory => (Ok tt, w)
    | Some _ => (Raise FileExistsError, w)
    end.

(** Opening [path] for writing and writing [data] to it. *)
Definition write_file (path : string) (data : FileData) : M World unit :=
  fun w =>
    match fs w !! path with
    | Some Directory => (Raise IsADirectoryError, w)
    | _ => (Ok tt, set_fs (<[path := data]> (fs w)) w)
    end.

Definition faiss_read_index (path : string) : M World Faiss.IndexFlatL2 :=
  fun w =>
    match fs w !! path with
    | Some (FaissIndexFile index) => (Ok index, w)
    | _ => (Raise FaissReadError, w)
    end.

Definition pickle_load (path : string) : M World (list Document) :=
  fun w =>
    match fs w !! path with
    | Some (PickleFile docs) => (Ok docs, w)
    | _ => (Raise UnpicklingError, w)
    end.

Definition read_text (path : string) : M World string :=
  fun w =>
    match fs w !! path with
    | Some (TextFile text) => (Ok text, w)
    | _ => (Raise UnicodeDecodeError, w)
    end.

Definition time_sleep (seconds : Z) : M World unit :=
  fun w => (Ok tt, log_event (Sleep seconds) w).

(** The world after [n] more loads and the events [evs]. *)
Definition world_after (w : World) (n : nat) (evs : list Event) : World :=
  {| fs := fs w; repos := repos w; net_clock := (n + net_clock w)%nat;
     events := events w ++ evs |}.

(* ===================================================================== *)
(** ** Concrete inputs used by the examples below *)
(* ===================================================================== *)

Module Sample.

(** No model can be downloaded. *)
Definition offline : nat -> string -> bool := fun _ _ => false.

(** Every model can be downloaded. *)
Definition online : nat -> string -> bool := fun _ _ => true.

(** The first load of the process fails; afterwards only
    "all-mpnet-base-v2" can be loaded. *)
Definition recovering : nat -> string -> bool :=
  fun t model_name =>
    Nat.leb 1 t && String.eqb model_name "all-mpnet-base-v2".

(** A provider that maps every text to the same one-component vector. *)
Definition constant_encode : string -> list string -> Np.array2 :=
  fun _ texts => map (fun _ => [0%R]) texts.

(** A splitter that returns the content as its only chunk. *)
Definition whole_text : string -> list string := fun content => [content].

Definition empty_world : World :=
  {| fs := ∅; repos := ∅; net_clock := 0; events := [] |}.

Definition doc (path content : string) : Document :=
  {| page_content := content;
     metadata := {| file_path := path; file_name := path;
                    file_extension := ".py"; chunk_index := 0;
                    total_chunks := 1 |} |}.

(** A persistence directory that holds a document list and nothing
    else. *)
Definition documents_only : World :=
  {| fs := {[ "store" := Directory;
              "store/documents.pkl" := PickleFile [doc "saved.py" "saved"] ]};
     repos := ∅; net_clock := 0; events := [] |}.

(** The store a caller holds before it loads: one document, no index. *)
Definition caller_store : CodeVectorStore :=
  {| embedding_model_name := "primary";
     embedding_model := Some (FallbackEmbeddingModel 128);
     documents := [doc "mine.py" "mine"];
     embeddings := None; faiss_index := None;
     docstore := {| _dict := {[ 0%nat := doc "mine.py" "mine" ]};
                    _counter := 1 |} |}.

(** Two repositories of one file each, nothing persisted yet. *)
Definition two_repos : World :=
  {| fs := ∅;
     repos := {[ "repoA" := [File "a.py" 1 "x"];
                 "repoB" := [File "b.py" 1 "y"] ]};
     net_clock := 0; events := [] |}.

(** An index of two one-component vectors. *)
Definition two_points : Faiss.IndexFlatL2 :=
  {| Faiss.d := 1; Faiss.xb := [[0%R]; [1%R]] |}.

(** A store of two documents over the index [two_points], with a
    downloaded model as provider. *)
Definition two_documents : CodeVectorStore :=
  {| embedding_model_name := "m";
     embedding_model := Some (SentenceTransformer "m");
     documents := [doc "a.py" "a"; doc "b.py" "b"];
     embeddings := Some [[0%R]; [1%R]];
     faiss_index := Some two_points;
     docstore := {| _dict := {[ 0%nat := doc "a.py" "a";
                                1%nat := doc "b.py" "b" ]};
                    _counter := 2 |} |}.

(** A directory that holds the index of an earlier save. *)
Definition older_save : World :=
  {| fs := {[ "store" := Directory;
              "store/faiss_index.bin" := FaissIndexFile two_points ]};
     repos := ∅; net_clock := 0; events := [] |}.

(** The persistence directory exists and is empty. *)
Definition empty_directory : World :=
  {| fs := {[ "./vector_store/code_vectors" := Directory ]};
     repos := ∅; net_clock := 0; events := [] |}.

(** The persistence directory holds an index and a document file that
    is no document list. *)
Definition broken_documents : World :=
  {| fs := {[ "./vector_store/code_vectors" := Directory;
              "./vector_store/code_vectors/faiss_index.bin"
                := FaissIndexFile two_points;
              "./vector_store/code_vectors/documents.pkl" := OtherFile ]};
     repos := ∅; net_clock := 0; events := [] |}.

(** An index of one vector of 32 components. *)
Definition one_local_vector : Faiss.IndexFlatL2 :=
  {| Faiss.d := 32; Faiss.xb := [repeat 0%R 32] |}.

(** A store of one document whose provider is the local fallback. *)
Definition local_store : CodeVectorStore :=
  {| embedding_model_name := "m";
     embedding_model := Some (FallbackEmbeddingModel 128);
     documents := [doc "a.py" "x"];
     embeddings := Some [repeat 0%R 32];
     faiss_index := Some one_local_vector;
     docstore := {| _dict := {[ 0%nat := doc "a.py" "x" ]};
                    _counter := 1 |} |}.

(** The tree of the scanner scenario, as the repository "repo". *)
Definition scenario : World :=
  {| fs := ∅;
     repos := {[ "repo" := [File "a.py" 500 "print(1)"; File "b.png" 10 "";
                            Dir ".git" [File "c.py" 20 "x = 1"]] ]};
     net_clock := 0; events := [] |}.

(** A repository reached through the parent directory. *)
Definition through_parent : World :=
  {| fs := ∅;
     repos := {[ "../repoA" := [File "a.py" 1 "x"] ]};
     net_clock := 0; events := [] |}.

End Sample.

(* ===================================================================== *)
(** ** vector_store.py and agent.py *)
(* ===================================================================== *)

Section Codepal.

Set Default Proof Using "Type".

(** Whether [SentenceTransformer(model_name, ...)] succeeds, as a
    function of how many loads the process has attempted so far. *)
Variable st_available : nat -> string -> bool.

(** [SentenceTransformer(model_name).encode(texts)]. *)
Variable st_encode : string -> list string -> Np.array2.

(** [RecursiveCharacterTextSplitter(...).split_text(content)] with the
    configured chunk size and overlap. *)
Variable split_text : string -> list string.

(** [Config.EMBEDDING_MODEL] and [Config.VECTOR_STORE_PATH], read from the
    environment; [llm_ready]: whether [CodePalAgent(...)] finds the
    language model it is configured for. *)
Variable EMBEDDING_MODEL : string.
Variable VECTOR_STORE_PATH : string.
Variable llm_ready : bool.

(** *** The embedding provider *)

Definition max_retries : nat := 3.

Definition fallback_model_name : string := "paraphrase-MiniLM-L3-v2".

(** The constructor call of line 56: one more load attempted, which the
    network lets succeed or not. *)
Definition SentenceTransformer_load (model_name : string)
  : M World EmbeddingModel :=
  fun w =>
    let w' := tick (log_event (LoadModel model_name) w) in
    if st_available (net_clock w) model_name
    then (Ok (SentenceTransformer model_name), w')
    else (Raise ModelLoadError, w').

Definition _create_fallback_embedding_model : EmbeddingModel :=
  FallbackEmbeddingModel 128.

(** The body of [for attempt in range(max_retries)], over the attempts
    still to run; [None] is what Python returns when the loop runs out.
    (The [requests] session the source configures is never handed to the
    loader, so it has no effect.) *)
Fixpoint attempt_loop (embedding_model_name : string) (attempts : list nat)
  (retry_delay : Z) : M World (option EmbeddingModel) :=
  match attempts with
  | [] => ret None
  | attempt :: rest =>
      try_except
        (let model_name :=
           if Nat.eqb attempt 0 then embedding_model_name
           else fallback_model_name in
         embedding_model <- SentenceTransformer_load model_name ;;
         ret (Some embedding_model))
        (fun _ =>
           if Nat.ltb attempt (max_retries - 1)
           then time_sleep retry_delay ;;
                attempt_loop embedding_model_name rest (retry_delay * 2)
           else ret (Some _create_fallback_embedding_model))
  end.

Definition _initialize_embedding_model (embedding_model_name : string)
  : M World (option EmbeddingModel) :=
  attempt_loop embedding_model_name (seq 0 max_retries) 5.

(** [FallbackEmbeddingModel.encode], one text. *)
Definition fallback_embed (dimension : nat) (text : string) : list R :=
  let text_hash := MD5.hexdigest (MD5.bytes_of_string text) in
  let embedding :=
    map (fun c => IZR (Py.ord c))
        (list_ascii_of_string (Py.slice_to dimension text_hash)) in
  if Np.gt0 (Np.linalg_norm embedding)
  then Np.divide embedding (Np.linalg_norm embedding)
  else embedding.

(** [self.embedding_model.encode(texts)]. *)
Definition encode (model : option EmbeddingModel) (texts : list string)
  : result Np.array2 :=
  match model with
  | None => Raise AttributeError
  | Some (SentenceTransformer model_name) => Ok (st_encode model_name texts)
  | Some (FallbackEmbeddingModel dimension) =>
      Ok (map (fallback_embed dimension) texts)
  end.

(** *** CodeVectorStore *)

Definition Method (A : Type) : Type := M (CodeVectorStore * World) A.

Definition get_self : Method CodeVectorStore :=
  fun '(self, w) => (Ok self, (self, w)).

Definition update_self (f : CodeVectorStore -> CodeVectorStore) : Method unit :=
  fun '(self, w) => (Ok tt, (f self, w)).

(** [CodeVectorStore(embedding_model_name)]. *)
Definition CodeVectorStore_init (embedding_model_name : option string)
  : M World CodeVectorStore :=
  let name :=
    match embedding_model_name with
    | Some n => if String.eqb n "" then EMBEDDING_MODEL else n
    | None => EMBEDDING_MODEL
    end in
  model <- _initialize_embedding_model name ;;
  ret {| embedding_model_name := name; embedding_model := model;
         documents := []; embeddings := None; faiss_index := None;
         docstore := DocumentStore_init |}.

Definition add_documents (docs : list Document) : Method unit :=
  update_self (fun self => set_documents (documents self ++ docs) self).

Definition create_embeddings : Method unit :=
  self <- get_self ;;
  match documents self with
  | [] => ret tt
  | _ =>
      let texts := map page_content (documents self) in
      embeddings <- of_result (encode (embedding_model self) texts) ;;
      dimension <- of_option IndexError (Np.shape1 embeddings) ;;
      update_self (set_faiss_index (Some (Faiss.new dimension))) ;;
      index <- of_result (Faiss.add (Faiss.new dimension) embeddings) ;;
      update_self (set_faiss_index (Some index)) ;;
      update_self (set_embeddings (Some embeddings)) ;;
      update_self (fun s =>
        set_docstore (fold_left (fun ds doc => add_document doc ds)
                                (documents s) (docstore s)) s)
  end.

(** The loop of lines 141-144 over the labels of the first result row. *)
Fixpoint collect_results (docs : list Document) (labels : list Z)
  : result (list Document) :=
  match labels with
  | [] => Ok []
  | idx :: rest =>
      if idx <? Z.of_nat (length docs)
      then match Py.getitem docs idx with
           | None => Raise IndexError
           | Some doc =>
               match collect_results docs rest with
               | Ok results => Ok (doc :: results)
               | Raise e => Raise e
               end
           end
      else collect_results docs rest
  end.

Definition similarity_search (query : string) (k : Z)
  : Method (list Document) :=
  self <- get_self ;;
  match faiss_index self with
  | None => ret []
  | Some index =>
      query_embedding <- of_result (encode (embedding_model self) [query]) ;;
      DI <- of_result (Faiss.search index query_embedding k) ;;
      row <- of_option IndexError (Py.getitem (snd DI) 0) ;;
      of_result (collect_results (documents self) row)
  end.

Definition save (path : string) : Method unit :=
  lift_snd (os_makedirs path) ;;
  self <- get_self ;;
  match faiss_index self with
  | Some index =>
      lift_snd (write_file (os_path_join path "faiss_index.bin")
                           (FaissIndexFile index))
  | None => ret tt
  end ;;
  lift_snd (write_file (os_path_join path "documents.pkl")
                       (PickleFile (documents self))) ;;
  lift_snd (write_file (os_path_join path "model_info.txt")
                       (TextFile (embedding_model_name self))).

Definition load (path : string) : Method bool :=
  path_exists <- lift_snd (os_path_exists path) ;;
  if negb path_exists then ret false
  else
    let faiss_path := os_path_join path "faiss_index.bin" in
    faiss_exists <- lift_snd (os_path_exists faiss_path) ;;
    (if faiss_exists
     then index <- lift_snd (faiss_read_index faiss_path) ;;
          update_self (set_faiss_index (Some index))
     else ret tt) ;;
    let docs_path := os_path_join path "documents.pkl" in
    docs_exists <- lift_snd (os_path_exists docs_path) ;;
    (if docs_exists
     then docs <- lift_snd (pickle_load docs_path) ;;
          update_self (set_documents docs)
     else ret tt) ;;
    let model_info_path := os_path_join path "model_info.txt" in
    info_exists <- lift_snd (os_path_exists model_info_path) ;;
    (if info_exists
     then text <- lift_snd (read_text model_info_path) ;;
          update_self (set_embedding_model_name (Py.strip text)) ;;
          self <- get_self ;;
          model <- lift_snd (_initialize_embedding_model
                               (embedding_model_name self)) ;;
          update_self (set_embedding_model model)
     else ret tt) ;;
    update_self (set_docstore DocumentStore_init) ;;
    update_self (fun s =>
      set_docstore (fold_left (fun ds doc => add_document doc ds)
                              (documents s) (docstore s)) s) ;;
    ret true.

(** *** CodeProcessor *)

(** One path [rglob] yields, with what [is_file], [stat] and [read]
    report for it. *)
Record Entry : Type := {
  entry_path : Pathlib.Path;
  is_file : bool;
  entry_size : Z;
  entry_content : string
}.

(** What [rglob] reports for one entry of the directory [parent]. *)
Definition entry_of (parent : Pathlib.Path) (n : Node) : Entry :=
  match n with
  | File name st_size content =>
      {| entry_path := parent ++ [name]; is_file := true;
         entry_size := st_size; entry_content := content |}
  | Dir name _ =>
      {| entry_path := parent ++ [name]; is_file := false;
         entry_size := 0; entry_content := "" |}
  end.

(** What [rglob] reports below one entry: nothing below a file; below a
    directory, all its entries first, then what lies below each of them
    in turn. *)
Fixpoint rglob_node (parent : Pathlib.Path) (n : Node) : list Entry :=
  match n with
  | File _ _ _ => []
  | Dir name children =>
      map (entry_of (parent ++ [name])) children
      ++ (fix walk (l : list Node) : list Entry :=
            match l with
            | [] => []
            | c :: cs => rglob_node (parent ++ [name]) c ++ walk cs
            end) children
  end.

(** [root.rglob("*")]: the entries of the root, then those of each
    directory below it, every directory listed in full before the walk
    descends. *)
Definition rglob (root : Pathlib.Path) (children : list Node) : list Entry :=
  map (entry_of root) children ++ flat_map (rglob_node root) children.

Definition ignore_dirs : gset string :=
  {[ ".git"; "__pycache__"; "node_modules"; ".venv"; "venv"; "env" ]}.

Definition _should_process_file (file_path : Pathlib.Path) : bool :=
  if negb (bool_decide (Pathlib.suffix file_path ∈ Config.SUPPORTED_EXTENSIONS))
  then false
  else if existsb (Py.startswith ".") file_path then false
  else if existsb (fun part => bool_decide (part ∈ ignore_dirs)) file_path
  then false
  else true.

(** The size test of [process_file] (line 236):
    [file_path.stat().st_size > Config.MAX_FILE_SIZE]. *)
Definition too_large (e : Entry) : bool :=
  Config.MAX_FILE_SIZE <? entry_size e.

Definition process_file (e : Entry) : list Document :=
  if too_large e then []
  else
    let content := entry_content e in
    if String.eqb (Py.strip content) "" then []
    else
      let chunks := split_text content in
      imap (fun i chunk =>
              {| page_content := chunk;
                 metadata :=
                   {| file_path := Pathlib.to_string (entry_path e);
                      file_name := Pathlib.name (entry_path e);
                      file_extension := Pathlib.suffix (entry_path e);
                      chunk_index := i;
                      total_chunks := length chunks |} |})
           chunks.

(** The files [process_repository] hands to [process_file]. *)
Definition walked_files (root : Pathlib.Path) (children : list Node)
  : list Entry :=
  List.filter (fun e => is_file e && _should_process_file (entry_path e))
         (rglob root children).

Definition process_repository (repo_path : string) : M World (list Document) :=
  fun w =>
    match repos w !! repo_path with
    | None => (Ok [], w)
    | Some children =>
        (Ok (flat_map process_file
                      (walked_files (Pathlib.of_string repo_path) children)), w)
    end.

(** The scanner of the specification: the files that are read, that is
    the walked files that [process_file] does not turn away at its size
    test. *)
Definition scanned_files (root : Pathlib.Path) (children : list Node)
  : list Entry :=
  List.filter (fun e => negb (too_large e)) (walked_files root children).

(** *** CodePalManager *)

Record CodePalAgent : Type := { agent_vector_store : option CodeVectorStore }.

Inductive CodeProcessor : Type := CodeProcessor_init.

Record CodePalManager : Type := {
  vector_store : option CodeVectorStore;
  agent : option CodePalAgent;
  processor : option CodeProcessor
}.

Definition CodePalManager_init : CodePalManager :=
  {| vector_store := None; agent := None; processor := None |}.

Definition set_vector_store (v : option CodeVectorStore) (m : CodePalManager) :=
  {| vector_store := v; agent := agent m; processor := processor m |}.

Definition set_agent (v : option CodePalAgent) (m : CodePalManager) :=
  {| vector_store := vector_store m; agent := v; processor := processor m |}.

Definition set_processor (v : option CodeProcessor) (m : CodePalManager) :=
  {| vector_store := vector_store m; agent := agent m; processor := v |}.

(** The strings [initialize_repository] returns:
    "Loaded existing vector store for repository: ...",
    "No supported files found in repository: ...",
    "Successfully processed n documents from repository: ...",
    "Error initializing repository: ...". *)
Inductive InitMessage : Type :=
| LoadedExisting (repo_path : string)
| NoSupportedFiles (repo_path : string)
| SuccessfullyProcessed (n : nat) (repo_path : string)
| ErrorInitializing (e : Exception).

Definition ManagerMethod (A : Type) : Type := M (CodePalManager * World) A.

Definition get_manager : ManagerMethod CodePalManager :=
  fun '(self, w) => (Ok self, (self, w)).

Definition update_manager (f : CodePalManager -> CodePalManager)
  : ManagerMethod unit :=
  fun '(self, w) => (Ok tt, (f self, w)).

(** A method call on the object held in [self.vector_store]. *)
Definition on_vector_store {A : Type} (m : Method A) : ManagerMethod A :=
  fun '(self, w) =>
    match vector_store self with
    | None => (Raise AttributeError, (self, w))
    | Some vs =>
        let '(r, (vs', w')) := m (vs, w) in
        (r, (set_vector_store (Some vs') self, w'))
    end.

(** [CodePalAgent(vector_store)]: fails when the language model it is
    configured for cannot be set up. *)
Definition CodePalAgent_init (vs : option CodeVectorStore)
  : ManagerMethod CodePalAgent :=
  if llm_ready then ret {| agent_vector_store := vs |} else raise ValueError.

Definition vector_store_path : string :=
  os_path_join VECTOR_STORE_PATH "code_vectors".

(** Lines 180-201: process the repository, build, save. *)
Definition process_and_save (repo_path : string) : ManagerMethod InitMessage :=
  update_manager (set_processor (Some CodeProcessor_init)) ;;
  docs <- lift_snd (process_repository repo_path) ;;
  match docs with
  | [] => ret (NoSupportedFiles repo_path)
  | _ =>
      vs <- lift_snd (CodeVectorStore_init None) ;;
      update_manager (set_vector_store (Some vs)) ;;
      on_vector_store (add_documents docs) ;;
      on_vector_store create_embeddings ;;
      on_vector_store (save vector_store_path) ;;
      self <- get_manager ;;
      new_agent <- CodePalAgent_init (vector_store self) ;;
      update_manager (set_agent (Some new_agent)) ;;
      ret (SuccessfullyProcessed (length docs) repo_path)
  end.

Definition initialize_repository (repo_path : string) (force_reprocess : bool)
  : ManagerMethod InitMessage :=
  try_except
    (path_exists <- (if force_reprocess then ret false
                     else lift_snd (os_path_exists vector_store_path)) ;;
     if negb force_reprocess && path_exists
     then
       vs <- lift_snd (CodeVectorStore_init None) ;;
       update_manager (set_vector_store (Some vs)) ;;
       loaded <- on_vector_store (load vector_store_path) ;;
       if loaded
       then
         self <- get_manager ;;
         new_agent <- CodePalAgent_init (vector_store self) ;;
         update_manager (set_agent (Some new_agent)) ;;
         ret (LoadedExisting repo_path)
       else process_and_save repo_path
     else process_and_save repo_path)
    (fun e => ret (ErrorInitializing e)).

(** *** The resolution order as section 4.2 of the specification words it

    Each network tier is one model name tried up to [max_retries] times,
    the delay starting at 5 seconds and doubling; the fallback name is
    only tried once the primary tier is exhausted, the local fallback
    once both are. *)

Fixpoint spec_tier (model_name : string) (attempts : list nat)
  (retry_delay : Z) : M World (option EmbeddingModel) :=
  match attempts with
  | [] => ret None
  | attempt :: rest =>
      try_except
        (embedding_model <- SentenceTransformer_load model_name ;;
         ret (Some embedding_model))
        (fun _ =>
           if Nat.ltb attempt (max_retries - 1)
           then time_sleep retry_delay ;;
                spec_tier model_name rest (retry_delay * 2)
           else ret None)
  end.

Definition spec_initialize_embedding_model (embedding_model_name : string)
  : M World (option EmbeddingModel) :=
  primary <- spec_tier embedding_model_name (seq 0 max_retries) 5 ;;
  match primary with
  | Some m => ret (Some m)
  | None =>
      fallback <- spec_tier fallback_model_name (seq 0 max_retries) 5 ;;
      match fallback with
      | Some m => ret (Some m)
      | None => ret (Some _create_fallback_embedding_model)
      end
  end.

(** *** Notions the statements below use *)

(** The three artifacts of a persisted store. *)
Definition index_file (path : string) : string :=
  os_path_join path "faiss_index.bin".
Definition documents_file (path : string) : string :=
  os_path_join path "documents.pkl".
Definition model_info_file (path : string) : string :=
  os_path_join path "model_info.txt".

(** The [DocumentStore] filled from a list, one [add_document] each. *)
Definition docstore_of (docs : list Document) : DocumentStore :=
  fold_left (fun ds doc => add_document doc ds) docs DocumentStore_init.

(** Index, document list and document store hold the same number of
    entries, and the store mirrors the list position by position. *)
Definition aligned (s : CodeVectorStore) : Prop :=
  exists index,
    faiss_index s = Some index /\
    Faiss.ntotal index = length (documents s) /\
    _counter (docstore s) = length (documents s) /\
    forall i : nat, _dict (docstore s) !! i = documents s !! i.

(** [save] can write under [path]: the path is free or a directory, and
    none of the three file names is taken by a directory. *)
Definition save_target_ok (w : World) (path : string) : Prop :=
  (fs w !! path = None \/ fs w !! path = Some Directory) /\
  fs w !! index_file path <> Some Directory /\
  fs w !! documents_file path <> Some Directory /\
  fs w !! model_info_file path <> Some Directory.

(** The file system after a store with this index, documents and model
    name was saved under [path]. *)
Definition saved_fs (path : string) (index : Faiss.IndexFlatL2)
  (docs : list Document) (name : string) (files : gmap string FileData)
  : gmap string FileData :=
  <[model_info_file path := TextFile name]>
    (<[documents_file path := PickleFile docs]>
       (<[index_file path := FaissIndexFile index]>
          (<[path := Directory]> files))).

(** The provider a resolution ends with. *)
Definition resolved (r : result (option EmbeddingModel) * World)
  : option EmbeddingModel :=
  match fst r with
  | Ok model => model
  | Raise _ => None
  end.

(** Sums of squares, as [np.linalg.norm] takes their root. *)
Definition sumsq (v : list R) : R := fold_right (fun x acc => x * x + acc)%R 0%R v.

(** The integer vector the fallback builds before it normalises. *)
Definition raw_embedding (text : string) : list R :=
  map (fun c => IZR (Py.ord c))
      (list_ascii_of_string (MD5.hexdigest (MD5.bytes_of_string text))).

(** The hits of one result row, before the empty slots. *)
Definition nearest (index : Faiss.IndexFlatL2) (k : nat) (q : list R)
  : list Faiss.hit :=
  firstn k (Faiss.sort_hits (Faiss.candidates index q)).

(** What [load] leaves in the store and in the world when the directory
    exists and each artifact is absent ([None]) or readable. *)
Definition loaded_store (s : CodeVectorStore) (w : World)
  (oi : option Faiss.IndexFlatL2) (od : option (list Document))
  (ot : option string) : CodeVectorStore :=
  let docs := match od with Some docs => docs | None => documents s end in
  {| embedding_model_name :=
       match ot with Some text => Py.strip text
                   | None => embedding_model_name s end;
     embedding_model :=
       match ot with
       | Some text => resolved (_initialize_embedding_model (Py.strip text) w)
       | None => embedding_model s
       end;
     documents := docs;
     embeddings := embeddings s;
     faiss_index := match oi with Some index => Some index
                                | None => faiss_index s end;
     docstore := docstore_of docs |}.

Definition loaded_world (w : World) (ot : option string) : World :=
  match ot with
  | Some text => snd (_initialize_embedding_model (Py.strip text) w)
  | None => w
  end.

(** The store [create_embeddings] leaves when it succeeds. *)
Definition embedded_store (s : CodeVectorStore) (vectors : Np.array2)
  (index : Faiss.IndexFlatL2) : CodeVectorStore :=
  {| embedding_model_name := embedding_model_name s;
     embedding_model := embedding_model s;
     documents := documents s;
     embeddings := Some vectors;
     faiss_index := Some index;
     docstore := fold_left (fun ds doc => add_document doc ds)
                           (documents s) (docstore s) |}.

(** The documents the labels of the hits select. *)
Fixpoint documents_at (docs : list Document) (labels : list Z) : list Document :=
  match labels with
  | [] => []
  | label :: rest =>
      match nth_error docs (Z.to_nat label) with
      | Some doc => doc :: documents_at docs rest
      | None => documents_at docs rest
      end
  end.

(** No segment is hidden or ignored. *)
Definition clean_parts (p : Pathlib.Path) : Prop :=
  forall part, In part p ->
    Py.startswith "." part = false /\ part ∉ ignore_dirs.

(** Every provider returns one row per text, all rows of one length. *)
Definition provider_well_shaped : Prop :=
  forall name texts,
    length (st_encode name texts) = length texts /\
    exists dimension,
      Forall (fun row => length row = dimension) (st_encode name texts).

(** The store [CodeVectorStore(...)] returns. *)
Definition fresh_store (name : string) (model : option EmbeddingModel)
  : CodeVectorStore :=
  {| embedding_model_name := name; embedding_model := model;
     documents := []; embeddings := None; faiss_index := None;
     docstore := DocumentStore_init |}.

(** *** tools.py: FileSearchTool *)

Definition newline : string := String "010"%char EmptyString.

(** [sep.join(items)]. *)
Fixpoint str_join (sep : string) (items : list string) : string :=
  match items with
  | [] => ""
  | [x] => x
  | x :: rest => x ++ sep ++ str_join sep rest
  end.

Record FileSearchTool : Type := {
  _vector_store : option CodeVectorStore;
  _embedding_model : option EmbeddingModel
}.

(** [FileSearchTool(vector_store, embedding_model)]. *)
Definition FileSearchTool_init (vector_store : option CodeVectorStore)
  (embedding_model : option EmbeddingModel) : FileSearchTool :=
  {| _vector_store := vector_store; _embedding_model := embedding_model |}.

(** What [_run] returns: a text, or the message
    "Error during file search: ..." for the exception it caught. *)
Inductive SearchReply : Type :=
| Reply (text : string)
| SearchError (e : Exception).

(** Whether a byte continues a UTF-8 character (bits 10xxxxxx). *)
Definition utf8_continuation (c : ascii) : bool :=
  let n := nat_of_ascii c in ((128 <=? n) && (n <? 192))%nat.

(** [text[:n]] on a text held as its UTF-8 bytes: the bytes of its first
    [n] characters. *)
Fixpoint text_slice_to (n : nat) (text : string) : string :=
  match text with
  | EmptyString => EmptyString
  | String c rest =>
      if utf8_continuation c then String c (text_slice_to n rest)
      else match n with
           | O => EmptyString
           | S n' => String c (text_slice_to n' rest)
           end
  end.

(** One entry of the result list (lines 38-39). *)
Definition search_entry (doc : Document) : string :=
  "File: " ++ file_path (metadata doc) ++ newline ++
  "Content: " ++ text_slice_to 200 (page_content doc) ++ "..." ++ newline.

(** The loop of lines 35-39 over the labels of the first result row. *)
Fixpoint collect_entries (docs : list Document) (labels : list Z)
  : result (list string) :=
  match labels with
  | [] => Ok []
  | idx :: rest =>
      if idx <? Z.of_nat (length docs)
      then match Py.getitem docs idx with
           | None => Raise IndexError
           | Some doc =>
               match collect_entries docs rest with
               | Ok results => Ok (search_entry doc :: results)
               | Raise e => Raise e
               end
           end
      else collect_entries docs rest
  end.

(** [FileSearchTool._run(query)].  A [CodeVectorStore] always has the
    attribute [faiss_index], so the [hasattr] test only fails on [None];
    calling [search] on an index that is [None] raises AttributeError. *)
Definition FileSearchTool_run (self : FileSearchTool) (query : string)
  : SearchReply :=
  match encode (_embedding_model self) [query] with
  | Raise e => SearchError e
  | Ok query_embedding =>
      match _vector_store self with
      | None => Reply "Vector store not properly initialized."
      | Some vs =>
          match faiss_index vs with
          | None => SearchError AttributeError
          | Some index =>
              match Faiss.search index query_embedding 5 with
              | Raise e => SearchError e
              | Ok DI =>
                  match Py.getitem (snd DI) 0 with
                  | None => SearchError IndexError
                  | Some row =>
                      match collect_entries (documents vs) row with
                      | Raise e => SearchError e
                      | Ok [] => Reply "No relevant files found for the query."
                      | Ok results => Reply (str_join newline results)
                      end
                  end
              end
          end
      end
  end.

(** *** agent.py: the tools of an agent and [get_repository_info] *)

(** [self.tools] as [_initialize_tools] fills it, by tool name:
    the search tool only when the agent holds a vector store. *)
Definition _initialize_tools (vs : option CodeVectorStore) : list string :=
  match vs with
  | Some _ => ["file_search_tool"]
  | None => []
  end ++ ["file_reader_tool"; "ast_parser_tool"; "directory_lister_tool"].

(** [CodePalAgent.get_available_tools()]. *)
Definition get_available_tools (a : CodePalAgent) : list string :=
  _initialize_tools (agent_vector_store a).

(** The dict [get_repository_info] returns: [{"status": "No repository
    loaded"}], or status "Repository loaded" with the two counts. *)
Inductive RepositoryInfo : Type :=
| NoRepositoryLoaded
| RepositoryLoaded (total_documents : nat) (available_tools : list string).

Definition get_repository_info (self : CodePalManager) : RepositoryInfo :=
  match vector_store self with
  | None => NoRepositoryLoaded
  | Some vs =>
      RepositoryLoaded (length (documents vs))
        match agent self with
        | Some a => get_available_tools a
        | None => []
        end
  end.

(** *** More notions for the statements *)

(** A path segment the walk refuses: hidden, or in the ignore set. *)
Definition refused_part (part : string) : Prop :=
  Py.startswith "." part = true \/ part ∈ ignore_dirs.

(* ===================================================================== *)
(** ** Properties *)
(* ===================================================================== *)

(** Drop the section variables a statement does not mention, so that no
    proof picks one up by accident. *)
Ltac tidy :=
  try clear llm_ready; try clear VECTOR_STORE_PATH;
  try clear EMBEDDING_MODEL; try clear split_text;
  try clear st_encode; try clear st_available.

(** *** The digest and the fallback embedding *)

(** [strip] on white space of one, two and three bytes: blanks around
    a text, U+00A0 before it and U+3000 after it, and a text that is
    white space only. *)
Lemma strip_examples :
  Py.strip "  x y  " = "x y" /\
  Py.strip (string_of_list_ascii
              (map ascii_of_nat [194; 160; 120; 227; 128; 128]%nat)) = "x" /\
  Py.strip (string_of_list_ascii
              (map ascii_of_nat [9; 10; 226; 128; 168; 32]%nat)) = "".
Proof. repeat split; vm_compute; reflexivity. Qed.

Example md5_empty :
  MD5.hexdigest (MD5.bytes_of_string "") = "d41d8cd98f00b204e9800998ecf8427e".
Proof. vm_compute. reflexivity. Qed.

Example md5_x :
  MD5.hexdigest (MD5.bytes_of_string "x") = "9dd4e461268c8034f5c8564e155c67a6".
Proof. vm_compute. reflexivity. Qed.

Example md5_two_blocks :
  MD5.hexdigest (MD5.bytes_of_string
    "12345678901234567890123456789012345678901234567890123456789012345678901234567890")
  = "57edf4a22be3c955ac49da2e2107b67a".
Proof. vm_compute. reflexivity. Qed.

Lemma le_bytes_length (n : nat) (x : Z) : length (MD5.le_bytes n x) = n.
Proof.
  revert x. induction n as [|n IH]; intros x; simpl; [reflexivity|].
  now rewrite IH.
Qed.

Lemma digest_length (data : list Z) : length (MD5.digest data) = 16%nat.
Proof.
  unfold MD5.digest. cbv zeta.
  rewrite !length_app, !le_bytes_length. reflexivity.
Qed.

Lemma hex_of_bytes_length (bs : list Z) :
  String.length (MD5.hex_of_bytes bs) = (2 * length bs)%nat.
Proof.
  induction bs as [|b bs IH]; simpl; [reflexivity|].
  rewrite IH. lia.
Qed.

Lemma hexdigest_length (data : list Z) :
  String.length (MD5.hexdigest data) = 32%nat.
Proof.
  unfold MD5.hexdigest. rewrite hex_of_bytes_length, digest_length. reflexivity.
Qed.

Lemma hex_digit_ord (n : Z) : 48 <= Py.ord (MD5.hex_digit n) <= 102.
Proof.
  unfold MD5.hex_digit.
  generalize (Z.to_nat n). intros m.
  do 17 (destruct m as [|m]; [vm_compute; split; discriminate|]).
  destruct m; vm_compute; split; discriminate.
Qed.

Lemma hex_of_bytes_ord (bs : list Z) :
  Forall (fun c => 48 <= Py.ord c <= 102)
         (list_ascii_of_string (MD5.hex_of_bytes bs)).
Proof.
  induction bs as [|b bs IH]; simpl; [constructor|].
  constructor; [apply hex_digit_ord|].
  constructor; [apply hex_digit_ord|exact IH].
Qed.

Lemma slice_to_all (n : nat) (s : string) :
  (String.length s <= n)%nat -> Py.slice_to n s = s.
Proof.
  revert n. induction s as [|c s IH]; intros [|n] H; simpl in *;
    try reflexivity; try lia.
  rewrite IH by lia. reflexivity.
Qed.

Lemma list_ascii_length (s : string) :
  length (list_ascii_of_string s) = String.length s.
Proof. induction s; simpl; congruence. Qed.

Lemma sumsq_nonneg (v : list R) : (0 <= sumsq v)%R.
Proof.
  induction v as [|x v IH]; simpl; [lra|].
  pose proof (Rle_0_sqr x) as Hx. unfold Rsqr in Hx. lra.
Qed.

Lemma sumsq_pos (v : list R) :
  v <> [] -> Forall (fun x => (0 < x)%R) v -> (0 < sumsq v)%R.
Proof.
  intros Hne Hall. destruct v as [|x v]; [congruence|].
  inversion Hall as [|? ? Hx _]; subst. simpl.
  pose proof (sumsq_nonneg v). nra.
Qed.

Lemma sumsq_divide (v : list R) (c : R) :
  c <> 0%R -> sumsq (Np.divide v c) = (sumsq v / (c * c))%R.
Proof.
  intros Hc. unfold Np.divide.
  induction v as [|x v IH]; simpl.
  - field. exact Hc.
  - rewrite IH. field. exact Hc.
Qed.

Lemma linalg_norm_sumsq (v : list R) : Np.linalg_norm v = sqrt (sumsq v).
Proof. reflexivity. Qed.

Lemma raw_embedding_length (text : string) :
  length (raw_embedding text) = 32%nat.
Proof.
  unfold raw_embedding.
  rewrite length_map, list_ascii_length. apply hexdigest_length.
Qed.

Lemma raw_embedding_pos (text : string) :
  Forall (fun x => (0 < x)%R) (raw_embedding text).
Proof.
  unfold raw_embedding, MD5.hexdigest.
  pose proof (hex_of_bytes_ord (MD5.digest (MD5.bytes_of_string text))) as H.
  induction H as [|c l [Hlo _] _ IH]; simpl; constructor; [|exact IH].
  apply IZR_lt. lia.
Qed.

Lemma raw_embedding_norm_pos (text : string) :
  (0 < Np.linalg_norm (raw_embedding text))%R.
Proof.
  rewrite linalg_norm_sumsq. apply sqrt_lt_R0.
  apply sumsq_pos; [|apply raw_embedding_pos].
  intros Heq. pose proof (raw_embedding_length text) as Hl.
  rewrite Heq in Hl. discriminate.
Qed.

Lemma fallback_embed_eq (text : string) :
  fallback_embed 128 text
  = Np.divide (raw_embedding text) (Np.linalg_norm (raw_embedding text)).
Proof.
  unfold fallback_embed. cbv zeta.
  rewrite slice_to_all by (rewrite hexdigest_length; lia).
  fold (raw_embedding text).
  unfold Np.gt0.
  destruct (Rlt_dec 0 (Np.linalg_norm (raw_embedding text))) as [_|Hn];
    [reflexivity|].
  exfalso. apply Hn, raw_embedding_norm_pos.
Qed.

Lemma fallback_embed_length (text : string) :
  length (fallback_embed 128 text) = 32%nat.
Proof.
  rewrite fallback_embed_eq. unfold Np.divide.
  rewrite length_map. apply raw_embedding_length.
Qed.

(** C10. For every text the fallback provider, whose declared dimension
    is 128, encodes it to a vector of exactly 32 components: component
    [i] is the code point of character [i] of the 32-character MD5
    hexadecimal digest, divided by the L2 norm of those 32 code points.
    That norm is positive, so the division always happens; every
    component is nonzero and the vector has L2 norm 1. *)
Theorem C10_fallback_vector_is_32_normalised (text : string) :
  _create_fallback_embedding_model = FallbackEmbeddingModel 128 /\
  String.length (MD5.hexdigest (MD5.bytes_of_string text)) = 32%nat /\
  length (fallback_embed 128 text) = 32%nat /\
  (0 < Np.linalg_norm (raw_embedding text))%R /\
  fallback_embed 128 text
    = map (fun c => (IZR (Py.ord c) / Np.linalg_norm (raw_embedding text))%R)
          (list_ascii_of_string (MD5.hexdigest (MD5.bytes_of_string text))) /\
  Forall (fun x => x <> 0%R) (fallback_embed 128 text) /\
  Np.linalg_norm (fallback_embed 128 text) = 1%R.
Proof.
  pose proof (raw_embedding_norm_pos text) as Hpos.
  split; [reflexivity|].
  split; [apply hexdigest_length|].
  split; [apply fallback_embed_length|].
  split; [exact Hpos|].
  split.
  { rewrite fallback_embed_eq. unfold Np.divide, raw_embedding.
    rewrite map_map. reflexivity. }
  split.
  { rewrite fallback_embed_eq. unfold Np.divide.
    pose proof (raw_embedding_pos text) as H.
    set (n := Np.linalg_norm (raw_embedding text)) in *. clearbody n.
    induction H as [|x l Hx _ IH]; simpl; constructor; [|exact IH].
    apply Rgt_not_eq. apply Rdiv_lt_0_compat; assumption. }
  rewrite fallback_embed_eq, linalg_norm_sumsq.
  rewrite sumsq_divide by lra.
  rewrite linalg_norm_sumsq.
  rewrite sqrt_sqrt by apply sumsq_nonneg.
  replace (sumsq (raw_embedding text) / sumsq (raw_embedding text))%R with 1%R.
  - apply sqrt_1.
  - field. rewrite linalg_norm_sumsq in Hpos.
    intros Hz. rewrite Hz, sqrt_0 in Hpos. lra.
Qed.

(** *** Resolution of the provider *)

Lemma load_unavailable (model_name : string) (w : World) :
  st_available (net_clock w) model_name = false ->
  SentenceTransformer_load model_name w
  = (Raise ModelLoadError, world_after w 1 [LoadModel model_name]).
Proof. intros H. unfold SentenceTransformer_load. rewrite H. reflexivity. Qed.

Lemma load_available (model_name : string) (w : World) :
  st_available (net_clock w) model_name = true ->
  SentenceTransformer_load model_name w
  = (Ok (SentenceTransformer model_name),
     world_after w 1 [LoadModel model_name]).
Proof. intros H. unfold SentenceTransformer_load. rewrite H. reflexivity. Qed.

Lemma world_after_after (w : World) (n m : nat) (evs evs' : list Event) :
  world_after (world_after w n evs) m evs'
  = world_after w (m + n) (evs ++ evs').
Proof.
  unfold world_after. simpl. f_equal; [lia|].
  now rewrite <- app_assoc.
Qed.

Lemma attempt_loop_step (embedding_model_name : string) (attempt : nat)
  (rest : list nat) (retry_delay : Z) (w : World) :
  attempt_loop embedding_model_name (attempt :: rest) retry_delay w
  = let model_name := if Nat.eqb attempt 0 then embedding_model_name
                      else fallback_model_name in
    match SentenceTransformer_load model_name w with
    | (Ok m, w') => (Ok (Some m), w')
    | (Raise _, w') =>
        if Nat.ltb attempt 2
        then attempt_loop embedding_model_name rest (retry_delay * 2)
                          (world_after w' 0 [Sleep retry_delay])
        else (Ok (Some _create_fallback_embedding_model), w')
    end.
Proof.
  cbv zeta. simpl attempt_loop. unfold try_except, bind at 1.
  destruct (SentenceTransformer_load _ w) as [[m|e] w']; [reflexivity|].
  change (max_retries - 1)%nat with 2%nat.
  destruct (Nat.ltb attempt 2); reflexivity.
Qed.

Lemma initialize_cases (embedding_model_name : string) (w : World) :
  let t := net_clock w in
  let first := LoadModel embedding_model_name in
  let later := LoadModel fallback_model_name in
  _initialize_embedding_model embedding_model_name w
  = if st_available t embedding_model_name
    then (Ok (Some (SentenceTransformer embedding_model_name)),
          world_after w 1 [first])
    else if st_available (S t) fallback_model_name
    then (Ok (Some (SentenceTransformer fallback_model_name)),
          world_after w 2 [first; Sleep 5; later])
    else if st_available (S (S t)) fallback_model_name
    then (Ok (Some (SentenceTransformer fallback_model_name)),
          world_after w 3 [first; Sleep 5; later; Sleep 10; later])
    else (Ok (Some (FallbackEmbeddingModel 128)),
          world_after w 3 [first; Sleep 5; later; Sleep 10; later]).
Proof.
  cbv zeta.
  unfold _initialize_embedding_model, max_retries. simpl seq.
  rewrite attempt_loop_step. cbv zeta. cbn [Nat.ltb Nat.leb Nat.eqb].
  destruct (st_available (net_clock w) embedding_model_name) eqn:H0.
  { rewrite (load_available _ _ H0). reflexivity. }
  rewrite (load_unavailable _ _ H0).
  rewrite world_after_after, attempt_loop_step.
  cbv zeta. cbn [Nat.ltb Nat.leb Nat.eqb].
  destruct (st_available (S (net_clock w)) fallback_model_name) eqn:H1.
  { rewrite load_available by exact H1.
    rewrite world_after_after. reflexivity. }
  rewrite load_unavailable by exact H1.
  rewrite !world_after_after, attempt_loop_step.
  cbv zeta. cbn [Nat.ltb Nat.leb Nat.eqb].
  destruct (st_available (S (S (net_clock w))) fallback_model_name) eqn:H2.
  { rewrite load_available by exact H2.
    rewrite world_after_after. reflexivity. }
  rewrite load_unavailable by exact H2.
  rewrite world_after_after. reflexivity.
Qed.

(** C4 (as the code has it). Initialization makes at most three load
    attempts in all, on one backoff schedule (5 seconds after the first
    failure, 10 after the second, no sleep after the third): the first
    attempt loads the configured model, the second and the third load the
    fixed name "paraphrase-MiniLM-L3-v2" whatever model is configured, and
    the local fallback of dimension 128 is built only after all three
    have failed.  A configured model of another name is therefore tried
    once and never again; a configured model of that very name (the
    default configuration) is tried up to three times.  It always returns
    a provider. *)
Theorem C4_three_attempts_first_primary_then_fallback_name
  (embedding_model_name : string) (w : World) :
  let t := net_clock w in
  let first := LoadModel embedding_model_name in
  let later := LoadModel fallback_model_name in
  _initialize_embedding_model embedding_model_name w
  = (if st_available t embedding_model_name
     then (Ok (Some (SentenceTransformer embedding_model_name)),
           world_after w 1 [first])
     else if st_available (S t) fallback_model_name
     then (Ok (Some (SentenceTransformer fallback_model_name)),
           world_after w 2 [first; Sleep 5; later])
     else if st_available (S (S t)) fallback_model_name
     then (Ok (Some (SentenceTransformer fallback_model_name)),
           world_after w 3 [first; Sleep 5; later; Sleep 10; later])
     else (Ok (Some (FallbackEmbeddingModel 128)),
           world_after w 3 [first; Sleep 5; later; Sleep 10; later])) /\
  exists model attempts tail,
    _initialize_embedding_model embedding_model_name w
    = (Ok (Some model), world_after w attempts (first :: tail)) /\
    (1 <= attempts <= 3)%nat /\
    (tail = [] \/ tail = [Sleep 5; later] \/
     tail = [Sleep 5; later; Sleep 10; later]) /\
    (embedding_model_name <> fallback_model_name -> ~ In first tail) /\
    (embedding_model_name = fallback_model_name ->
     attempts = 3%nat -> tail = [Sleep 5; first; Sleep 10; first]) /\
    (model = FallbackEmbeddingModel 128 ->
     attempts = 3%nat /\
     st_available t embedding_model_name = false /\
     st_available (S t) fallback_model_name = false /\
     st_available (S (S t)) fallback_model_name = false).
Proof.
  cbv zeta. split; [apply initialize_cases|].
  rewrite initialize_cases. cbv zeta.
  assert (Hnot : forall tail,
            tail = [] \/
            tail = [Sleep 5; LoadModel fallback_model_name] \/
            tail = [Sleep 5; LoadModel fallback_model_name;
                    Sleep 10; LoadModel fallback_model_name] ->
            embedding_model_name <> fallback_model_name ->
            ~ In (LoadModel embedding_model_name) tail).
  { intros tail Htail Hne Hin.
    destruct Htail as [->|[->| ->]]; simpl in Hin;
      repeat (destruct Hin as [Hin|Hin];
              [first [discriminate | inversion Hin; congruence]|]);
      exact Hin. }
  destruct (st_available (net_clock w) embedding_model_name).
  { exists (SentenceTransformer embedding_model_name), 1%nat, [].
    split; [reflexivity|]. split; [lia|]. split; [auto|].
    split; [apply Hnot; auto|]. split; [intros _ H; discriminate|].
    discriminate. }
  destruct (st_available (S (net_clock w)) fallback_model_name).
  { exists (SentenceTransformer fallback_model_name), 2%nat,
           [Sleep 5; LoadModel fallback_model_name].
    split; [reflexivity|]. split; [lia|]. split; [auto|].
    split; [apply Hnot; auto|]. split; [intros _ H; discriminate|].
    discriminate. }
  destruct (st_available (S (S (net_clock w))) fallback_model_name).
  { exists (SentenceTransformer fallback_model_name), 3%nat,
           [Sleep 5; LoadModel fallback_model_name;
            Sleep 10; LoadModel fallback_model_name].
    split; [reflexivity|]. split; [lia|]. split; [auto|].
    split; [apply Hnot; auto|]. split; [intros -> _; reflexivity|].
    discriminate. }
  exists (FallbackEmbeddingModel 128), 3%nat,
         [Sleep 5; LoadModel fallback_model_name;
          Sleep 10; LoadModel fallback_model_name].
  split; [reflexivity|]. split; [lia|]. split; [auto|].
  split; [apply Hnot; auto|]. split; [intros -> _; reflexivity|].
  intros _. repeat split.
Qed.

Lemma initialize_offline (embedding_model_name : string) (w : World) :
  (forall t, st_available t embedding_model_name = false) ->
  (forall t, st_available t fallback_model_name = false) ->
  _initialize_embedding_model embedding_model_name w
  = (Ok (Some _create_fallback_embedding_model),
     world_after w 3
       [LoadModel embedding_model_name; Sleep 5;
        LoadModel fallback_model_name; Sleep 10;
        LoadModel fallback_model_name]).
Proof.
  intros Hp Hf.
  rewrite initialize_cases.
  cbv zeta. rewrite Hp, !Hf. reflexivity.
Qed.

Lemma initialize_returns (embedding_model_name : string) (w : World) :
  exists model n evs,
    _initialize_embedding_model embedding_model_name w
    = (Ok (Some model), world_after w n evs).
Proof.
  rewrite initialize_cases. cbv zeta.
  destruct (st_available _ _); [eauto|].
  destruct (st_available _ _); [eauto|].
  destruct (st_available _ _); eauto.
Qed.

(** C6. When neither the configured model nor the fallback model can be
    loaded, initialization yields the local fallback provider, and its
    [encode] returns, for every list of texts, one vector per text in
    input order (vector [i] is the embedding of text [i]), every vector
    with 32 components; a second provider resolved in any other world
    under the same conditions encodes the same texts to the same
    vectors. *)
Theorem C6_local_fallback_encode_total_and_deterministic
  (embedding_model_name : string) (w : World) (texts : list string)
  (Hprimary : forall t, st_available t embedding_model_name = false)
  (Hfallback : forall t, st_available t fallback_model_name = false) :
  exists model vectors,
    fst (_initialize_embedding_model embedding_model_name w) = Ok (Some model) /\
    model = _create_fallback_embedding_model /\
    encode (Some model) texts = Ok vectors /\
    length vectors = length texts /\
    (forall i text, nth_error texts i = Some text ->
                    nth_error vectors i = Some (fallback_embed 128 text)) /\
    Forall (fun v => length v = 32%nat) vectors /\
    (forall name2 w2,
        (forall t, st_available t name2 = false) ->
        exists model2,
          fst (_initialize_embedding_model name2 w2) = Ok (Some model2) /\
          encode (Some model2) texts = Ok vectors).
Proof.
  exists _create_fallback_embedding_model,
         (map (fallback_embed 128) texts).
  split; [rewrite initialize_offline by assumption; reflexivity|].
  split; [reflexivity|].
  split; [reflexivity|].
  split; [apply length_map|].
  split.
  { intros i text Hi. rewrite nth_error_map, Hi. reflexivity. }
  split.
  { induction texts as [|t ts IH]; simpl; constructor;
      [apply fallback_embed_length|exact IH]. }
  intros name2 w2 H2.
  exists _create_fallback_embedding_model.
  split; [rewrite initialize_offline by assumption; reflexivity|reflexivity].
Qed.

(** *** The flat index *)





Lemma Rleb_true (a b : R) : Faiss.Rleb a b = true <-> (a <= b)%R.
Proof. unfold Faiss.Rleb. destruct (Rle_dec a b); split; intros; try easy. Qed.

Lemma Rleb_false (a b : R) : Faiss.Rleb a b = false <-> (b < a)%R.
Proof.
  unfold Faiss.Rleb. destruct (Rle_dec a b); split; intros; try easy; lra.
Qed.

Lemma Rltb_true (a b : R) : Faiss.Rltb a b = true <-> (a < b)%R.
Proof. unfold Faiss.Rltb. destruct (Rlt_dec a b); split; intros; try easy. Qed.

Lemma labelled_In (i : nat) (q : list R) (vectors : list (list R)) (h : Faiss.hit) :
  In h (Faiss.labelled i q vectors) <->
  exists j v, nth_error vectors j = Some v /\
              h = (Z.of_nat (i + j), Faiss.fvec_L2sqr q v).
Proof.
  revert i. induction vectors as [|v rest IH]; intros i; simpl.
  - split; [intros []|]. intros (j & v & Hj & _). destruct j; discriminate.
  - rewrite IH. split.
    + intros [<-|(j & v' & Hj & ->)].
      * exists 0%nat, v. split; [reflexivity|]. now rewrite Nat.add_0_r.
      * exists (S j), v'. split; [exact Hj|]. f_equal. lia.
    + intros (j & v' & Hj & ->). destruct j as [|j]; simpl in Hj.
      * left. inversion Hj. now rewrite Nat.add_0_r.
      * right. exists j, v'. split; [exact Hj|]. f_equal. lia.
Qed.

Lemma labelled_sorted (i : nat) (q : list R) (vectors : list (list R)) :
  StronglySorted (fun a b => fst a < fst b) (Faiss.labelled i q vectors).
Proof.
  revert i. induction vectors as [|v rest IH]; intros i; simpl; constructor.
  - apply IH.
  - apply List.Forall_forall. intros h Hh.
    apply (proj1 (labelled_In _ _ _ _)) in Hh.
    destruct Hh as (j & v' & _ & ->). simpl. lia.
Qed.

Lemma filter_StronglySorted {A : Type} (R : A -> A -> Prop) (f : A -> bool)
  (l : list A) :
  StronglySorted R l -> StronglySorted R (List.filter f l).
Proof. tidy.
  induction 1 as [|a l Hs IH Hall]; simpl; [constructor|].
  destruct (f a); [|exact IH].
  constructor; [exact IH|].
  apply List.Forall_forall. intros x Hx.
  apply (proj1 (List.filter_In _ _ _)) in Hx.
  rewrite List.Forall_forall in Hall. apply Hall. tauto.
Qed.

Lemma firstn_incl {A : Type} (n : nat) (l : list A) (x : A) :
  In x (firstn n l) -> In x l.
Proof. tidy.
  revert n. induction l as [|a l IH]; intros [|n]; simpl; try tauto.
  intros [->|H]; [now left|right; eapply IH, H].
Qed.

Lemma firstn_StronglySorted {A : Type} (R : A -> A -> Prop) (n : nat)
  (l : list A) :
  StronglySorted R l -> StronglySorted R (firstn n l).
Proof.
  intros H. revert n. induction H as [|a l Hs IH Hall]; intros [|n]; simpl;
    try constructor.
  - apply IH.
  - apply List.Forall_forall. intros x Hx.
    rewrite List.Forall_forall in Hall. apply Hall.
    eapply firstn_incl; eauto.
Qed.

Lemma insert_hit_In (h x : Faiss.hit) (l : list Faiss.hit) :
  In x (Faiss.insert_hit h l) <-> x = h \/ In x l.
Proof. tidy.
  induction l as [|h' t IH]; simpl.
  - intuition.
  - destruct (Faiss.Rleb (snd h) (snd h')); simpl; rewrite ?IH; intuition.
Qed.

Lemma sort_hits_In (x : Faiss.hit) (l : list Faiss.hit) :
  In x (Faiss.sort_hits l) <-> In x l.
Proof. tidy.
  unfold Faiss.sort_hits. induction l as [|h t IH]; simpl; [tauto|].
  rewrite insert_hit_In, IH. intuition.
Qed.

Lemma insert_hit_length (h : Faiss.hit) (l : list Faiss.hit) :
  length (Faiss.insert_hit h l) = S (length l).
Proof.
  induction l as [|h' t IH]; simpl; [reflexivity|].
  destruct (Faiss.Rleb (snd h) (snd h')); simpl; [reflexivity|].
  now rewrite IH.
Qed.

Lemma insert_hit_sorted (h : Faiss.hit) (l : list Faiss.hit) :
  StronglySorted Faiss.hit_le l ->
  Forall (fun x => fst h < fst x) l ->
  StronglySorted Faiss.hit_le (Faiss.insert_hit h l).
Proof.
  intros Hs Hlab. induction Hs as [|h' t Hs IH Hall]; simpl.
  - constructor; constructor.
  - inversion Hlab as [|? ? Hh' Ht]; subst.
    destruct (Faiss.Rleb (snd h) (snd h')) eqn:Hcmp.
    + apply Rleb_true in Hcmp.
      constructor; [constructor; assumption|].
      constructor.
      * unfold Faiss.hit_le. destruct (Rle_lt_or_eq_dec _ _ Hcmp); [left|right];
          [assumption|split; [assumption|lia]].
      * rewrite List.Forall_forall in *. intros x Hx.
        specialize (Hall x Hx). specialize (Ht x Hx).
        unfold Faiss.hit_le in *.
        destruct Hall as [Hlt|[Heq _]].
        -- left. lra.
        -- destruct (Rle_lt_or_eq_dec _ _ Hcmp) as [Hlt|Heq'];
             [left; lra|right; split; [lra|lia]].
    + apply Rleb_false in Hcmp.
      constructor; [apply IH; exact Ht|].
      apply List.Forall_forall. intros x Hx.
      apply (proj1 (insert_hit_In _ _ _)) in Hx. destruct Hx as [->|Hx].
      * left. exact Hcmp.
      * rewrite List.Forall_forall in Hall. apply Hall, Hx.
Qed.

Lemma sort_hits_sorted (l : list Faiss.hit) :
  StronglySorted (fun a b => fst a < fst b) l ->
  StronglySorted Faiss.hit_le (Faiss.sort_hits l).
Proof.
  unfold Faiss.sort_hits.
  induction 1 as [|h t Hs IH Hall]; simpl; [constructor|].
  apply insert_hit_sorted; [exact IH|].
  apply List.Forall_forall. intros x Hx.
  apply (proj1 (sort_hits_In x t)) in Hx.
  rewrite List.Forall_forall in Hall. apply Hall, Hx.
Qed.

Lemma search_one_eq (index : Faiss.IndexFlatL2) (k : nat) (q : list R) :
  Faiss.search_one index k q
  = (map snd (nearest index k q)
       ++ repeat Faiss.FLT_MAX (k - length (nearest index k q)),
     map fst (nearest index k q)
       ++ repeat (-1) (k - length (nearest index k q))).
Proof. reflexivity. Qed.


Lemma candidates_sorted (index : Faiss.IndexFlatL2) (q : list R) :
  StronglySorted Faiss.hit_le (Faiss.sort_hits (Faiss.candidates index q)).
Proof.
  apply sort_hits_sorted.
  unfold Faiss.candidates. apply filter_StronglySorted, labelled_sorted.
Qed.

Lemma candidates_In (index : Faiss.IndexFlatL2) (q : list R) (h : Faiss.hit) :
  In h (Faiss.sort_hits (Faiss.candidates index q)) ->
  (snd h < Faiss.FLT_MAX)%R /\
  exists j v, nth_error (Faiss.xb index) j = Some v /\
              h = (Z.of_nat j, Faiss.fvec_L2sqr q v).
Proof.
  unfold Faiss.candidates. intros Hin.
  apply (proj1 (sort_hits_In _ _)) in Hin.
  apply (proj1 (List.filter_In _ _ _)) in Hin. destruct Hin as [Hin Hlt].
  apply Rltb_true in Hlt. split; [exact Hlt|].
  apply (proj1 (labelled_In _ _ _ _)) in Hin. simpl in Hin. exact Hin.
Qed.

Lemma nearest_sorted (index : Faiss.IndexFlatL2) (k : nat) (q : list R) :
  StronglySorted Faiss.hit_le (nearest index k q).
Proof. unfold nearest. apply firstn_StronglySorted, candidates_sorted. Qed.

Lemma nearest_In (index : Faiss.IndexFlatL2) (k : nat) (q : list R)
  (h : Faiss.hit) :
  In h (nearest index k q) ->
  (snd h < Faiss.FLT_MAX)%R /\
  exists j v, nth_error (Faiss.xb index) j = Some v /\
              h = (Z.of_nat j, Faiss.fvec_L2sqr q v).
Proof.
  unfold nearest. intros Hin. apply firstn_incl in Hin.
  apply candidates_In, Hin.
Qed.

Lemma nearest_length (index : Faiss.IndexFlatL2) (k : nat) (q : list R) :
  (length (nearest index k q) <= k)%nat.
Proof. unfold nearest. apply firstn_le_length. Qed.

Lemma search_one_lengths (index : Faiss.IndexFlatL2) (k : nat) (q : list R) :
  length (fst (Faiss.search_one index k q)) = k /\
  length (snd (Faiss.search_one index k q)) = k.
Proof.
  rewrite search_one_eq. cbn [fst snd].
  pose proof (nearest_length index k q).
  rewrite !length_app, !length_map, !repeat_length.
  unfold Faiss.hit in *. lia.
Qed.

Lemma sorted_app_repeat (l : list R) (x : R) (n : nat) :
  StronglySorted Rle l -> Forall (fun y => (y <= x)%R) l ->
  StronglySorted Rle (l ++ repeat x n).
Proof.
  intros Hs Hall. induction Hs as [|a l Hs IH Ha]; simpl.
  - induction n as [|n IHn]; simpl; constructor; [exact IHn|].
    apply List.Forall_forall. intros y Hy. apply repeat_spec in Hy. lra.
  - inversion Hall as [|? ? Hax Hl]; subst.
    constructor; [apply IH, Hl|].
    apply List.Forall_forall. intros y Hy. apply in_app_or in Hy.
    destruct Hy as [Hy|Hy].
    + rewrite List.Forall_forall in Ha. apply Ha, Hy.
    + apply repeat_spec in Hy. lra.
Qed.

Lemma distances_sorted (index : Faiss.IndexFlatL2) (k : nat) (q : list R) :
  StronglySorted Rle (fst (Faiss.search_one index k q)).
Proof.
  rewrite search_one_eq. cbn [fst snd].
  apply sorted_app_repeat.
  - pose proof (nearest_sorted index k q) as Hs.
    induction Hs as [|h t Hs IH Hall]; simpl; constructor; [exact IH|].
    apply List.Forall_forall. intros y Hy. apply in_map_iff in Hy.
    destruct Hy as (x & <- & Hx).
    rewrite List.Forall_forall in Hall. specialize (Hall x Hx).
    destruct Hall as [Hlt|[Heq _]]; lra.
  - apply List.Forall_forall. intros y Hy. apply in_map_iff in Hy.
    destruct Hy as (x & <- & Hx). apply nearest_In in Hx. lra.
Qed.



(** *** Paths *)

Lemma append_cancel_l (p a b : string) : (p ++ a = p ++ b)%string -> a = b.
Proof. tidy. induction p as [|c p IH]; simpl; [tauto|]. intros H. inversion H. auto. Qed.

Lemma append_length (a b : string) :
  String.length (a ++ b)%string = (String.length a + String.length b)%nat.
Proof. induction a as [|c a IH]; simpl; [reflexivity|]. now rewrite IH. Qed.

Lemma os_path_join_prefix (a : string) :
  exists sep, forall b, Py.startswith "/" b = false ->
                        os_path_join a b = (a ++ sep ++ b)%string.
Proof.
  unfold os_path_join.
  destruct (String.eqb a "" || ends_with_slash a).
  - exists ""%string. intros b ->. reflexivity.
  - exists "/"%string. intros b ->. reflexivity.
Qed.

Lemma os_path_join_inj (a b1 b2 : string) :
  Py.startswith "/" b1 = false -> Py.startswith "/" b2 = false ->
  os_path_join a b1 = os_path_join a b2 -> b1 = b2.
Proof.
  intros H1 H2. destruct (os_path_join_prefix a) as [sep Hsep].
  rewrite !Hsep by assumption. intros H.
  apply append_cancel_l in H. apply append_cancel_l in H. exact H.
Qed.

Lemma os_path_join_neq_dir (a b : string) :
  Py.startswith "/" b = false -> b <> ""%string -> os_path_join a b <> a.
Proof.
  intros H1 Hne. destruct (os_path_join_prefix a) as [sep Hsep].
  rewrite Hsep by assumption. intros H.
  apply (f_equal String.length) in H. rewrite !append_length in H.
  destruct b; [congruence|]. simpl in H. lia.
Qed.

(** *** save and load *)

Lemma artifact_paths_distinct (path : string) :
  index_file path <> path /\ documents_file path <> path /\
  model_info_file path <> path /\
  index_file path <> documents_file path /\
  index_file path <> model_info_file path /\
  documents_file path <> model_info_file path.
Proof.
  unfold index_file, documents_file, model_info_file.
  repeat split;
    try (apply os_path_join_neq_dir; [reflexivity|discriminate]);
    intros H; apply os_path_join_inj in H; try reflexivity; discriminate.
Qed.

Lemma write_file_ok (p : string) (data : FileData) (w : World) :
  fs w !! p <> Some Directory ->
  write_file p data w = (Ok tt, set_fs (<[p := data]> (fs w)) w).
Proof.
  intros H. unfold write_file.
  destruct (fs w !! p) as [[| | | |]|]; try reflexivity. congruence.
Qed.

Lemma os_makedirs_ok (path : string) (w : World) :
  fs w !! path = None \/ fs w !! path = Some Directory ->
  os_makedirs path w = (Ok tt, set_fs (<[path := Directory]> (fs w)) w).
Proof.
  intros Hdir. unfold os_makedirs. destruct Hdir as [-> | Hdir]; [reflexivity|].
  rewrite Hdir. rewrite insert_id by exact Hdir. destruct w; reflexivity.
Qed.

Lemma save_ok (path : string) (s : CodeVectorStore) (w : World)
  (index : Faiss.IndexFlatL2) :
  faiss_index s = Some index ->
  save_target_ok w path ->
  save path (s, w)
  = (Ok tt, (s, set_fs (saved_fs path index (documents s)
                                  (embedding_model_name s) (fs w)) w)).
Proof.
  intros Hidx (Hdir & Hi & Hd & Hm).
  destruct (artifact_paths_distinct path) as (Ni & Nd & Nm & Nid & Nim & Ndm).
  unfold save, bind, lift_snd, get_self.
  rewrite (os_makedirs_ok _ _ Hdir), Hidx.
  fold (index_file path) (documents_file path) (model_info_file path).
  rewrite write_file_ok
    by (simpl; rewrite lookup_insert_ne by congruence; exact Hi).
  rewrite write_file_ok
    by (simpl; rewrite !lookup_insert_ne by congruence; exact Hd).
  rewrite write_file_ok
    by (simpl; rewrite !lookup_insert_ne by congruence; exact Hm).
  reflexivity.
Qed.

Lemma saved_fs_lookup (path : string) (index : Faiss.IndexFlatL2)
  (docs : list Document) (name : string) (files : gmap string FileData) :
  saved_fs path index docs name files !! path = Some Directory /\
  saved_fs path index docs name files !! index_file path
    = Some (FaissIndexFile index) /\
  saved_fs path index docs name files !! documents_file path
    = Some (PickleFile docs) /\
  saved_fs path index docs name files !! model_info_file path
    = Some (TextFile name).
Proof.
  destruct (artifact_paths_distinct path) as (Ni & Nd & Nm & Nid & Nim & Ndm).
  unfold saved_fs. repeat split.
  - rewrite !lookup_insert_ne by congruence. apply lookup_insert_eq.
  - rewrite !lookup_insert_ne by congruence. apply lookup_insert_eq.
  - rewrite !lookup_insert_ne by congruence. apply lookup_insert_eq.
  - apply lookup_insert_eq.
Qed.

Lemma initialize_keeps_fs (name : string) (w : World) :
  fs (snd (_initialize_embedding_model name w)) = fs w.
Proof.
  destruct (initialize_returns name w) as (m & n & evs & ->). reflexivity.
Qed.

Lemma exists_true (p : string) (w : World) (x : FileData) :
  fs w !! p = Some x -> os_path_exists p w = (Ok true, w).
Proof.
  intros H. unfold os_path_exists. rewrite H.
  rewrite bool_decide_eq_true_2 by eauto. reflexivity.
Qed.

Lemma exists_false (p : string) (w : World) :
  fs w !! p = None -> os_path_exists p w = (Ok false, w).
Proof.
  intros H. unfold os_path_exists. rewrite H.
  rewrite bool_decide_eq_false_2; [reflexivity|]. intros [? ?]. discriminate.
Qed.

Lemma load_existing (path : string) (s : CodeVectorStore) (w : World)
  (x : FileData) (oi : option Faiss.IndexFlatL2)
  (od : option (list Document)) (ot : option string) :
  fs w !! path = Some x ->
  fs w !! index_file path = FaissIndexFile <$> oi ->
  fs w !! documents_file path = PickleFile <$> od ->
  fs w !! model_info_file path = TextFile <$> ot ->
  load path (s, w)
  = (Ok true, (loaded_store s w oi od ot, loaded_world w ot)).
Proof.
  intros Hp Hi Hd Hm.
  unfold load, bind at 1, lift_snd at 1.
  rewrite (exists_true _ _ _ Hp). cbn [negb].
  fold (index_file path) (documents_file path) (model_info_file path).
  unfold loaded_store, loaded_world, docstore_of.
  destruct oi as [index|], od as [docs|], ot as [text|]; simpl in Hi, Hd, Hm;
    unfold bind, lift_snd, update_self, get_self, ret,
           faiss_read_index, pickle_load, read_text;
    repeat (progress
      (rewrite ?(exists_true _ _ _ Hi), ?(exists_false _ _ Hi),
               ?(exists_true _ _ _ Hd), ?(exists_false _ _ Hd),
               ?(exists_true _ _ _ Hm), ?(exists_false _ _ Hm),
               ?Hi, ?Hd, ?Hm;
       cbn [set_faiss_index set_documents set_embedding_model_name
            embedding_model_name]));
    try reflexivity.
  all: destruct (initialize_returns (Py.strip text) w) as (m & n & evs & ->).
  all: reflexivity.
Qed.

Lemma load_missing_path (path : string) (s : CodeVectorStore) (w : World) :
  fs w !! path = None -> load path (s, w) = (Ok false, (s, w)).
Proof.
  intros Hp. unfold load, bind at 1, lift_snd at 1.
  rewrite (exists_false _ _ Hp). reflexivity.
Qed.

(** *** Building a store *)

Lemma docstore_of_snoc (docs : list Document) (doc : Document) :
  docstore_of (docs ++ [doc]) = add_document doc (docstore_of docs).
Proof. unfold docstore_of. rewrite fold_left_app. reflexivity. Qed.

Lemma docstore_of_counter (docs : list Document) :
  _counter (docstore_of docs) = length docs.
Proof.
  induction docs as [|doc docs IH] using rev_ind; [reflexivity|].
  rewrite docstore_of_snoc, length_app. simpl. rewrite IH. lia.
Qed.

Lemma docstore_of_lookup (docs : list Document) (i : nat) :
  _dict (docstore_of docs) !! i = docs !! i.
Proof.
  revert i. induction docs as [|doc docs IH] using rev_ind; intros i.
  - reflexivity.
  - rewrite docstore_of_snoc. simpl. rewrite docstore_of_counter.
    destruct (decide (i = length docs)) as [->|Hne].
    + rewrite lookup_insert_eq. rewrite list_lookup_middle; reflexivity.
    + rewrite lookup_insert_ne by congruence. rewrite IH.
      destruct (decide (i < length docs)%nat) as [Hlt|Hge].
      * rewrite lookup_app_l by exact Hlt. reflexivity.
      * rewrite !(proj2 (lookup_ge_None _ _)); [reflexivity| |lia].
        rewrite length_app. simpl. lia.
Qed.

Lemma create_embeddings_cases (s : CodeVectorStore) (w : World) :
  documents s <> [] ->
  create_embeddings (s, w)
  = match encode (embedding_model s) (map page_content (documents s)) with
    | Raise e => (Raise e, (s, w))
    | Ok vectors =>
        match Np.shape1 vectors with
        | None => (Raise IndexError, (s, w))
        | Some dimension =>
            match Faiss.add (Faiss.new dimension) vectors with
            | Raise e =>
                (Raise e, (set_faiss_index (Some (Faiss.new dimension)) s, w))
            | Ok index => (Ok tt, (embedded_store s vectors index, w))
            end
        end
    end.
Proof.
  intros Hne. unfold create_embeddings, bind at 1, get_self at 1.
  destruct (documents s) as [|doc docs] eqn:Hdocs; [congruence|].
  rewrite <- Hdocs.
  unfold bind, of_result, of_option, update_self, ret, raise.
  destruct (encode _ _) as [vectors|e]; [|reflexivity].
  destruct (Np.shape1 vectors) as [dimension|]; [|reflexivity].
  destruct (Faiss.add _ _) as [index|e]; reflexivity.
Qed.

Lemma faiss_add_new (dimension : nat) (vectors : Np.array2)
  (index : Faiss.IndexFlatL2) :
  Faiss.add (Faiss.new dimension) vectors = Ok index ->
  Faiss.d index = dimension /\ Faiss.xb index = vectors /\
  Forall (fun v => length v = dimension) vectors.
Proof.
  unfold Faiss.add, Faiss.new. simpl.
  destruct (forallb _ vectors) eqn:Hall; [|discriminate].
  intros H. inversion H; subst; simpl. repeat split.
  apply List.Forall_forall. intros v Hv.
  rewrite forallb_forall in Hall. apply Nat.eqb_eq, Hall, Hv.
Qed.

Lemma init_fresh (name : option string) (w0 w : World) (s0 : CodeVectorStore) :
  CodeVectorStore_init name w0 = (Ok s0, w) ->
  documents s0 = [] /\ embeddings s0 = None /\ faiss_index s0 = None /\
  docstore s0 = DocumentStore_init /\ fs w = fs w0 /\ repos w = repos w0.
Proof.
  unfold CodeVectorStore_init, bind, ret.
  match goal with |- context [_initialize_embedding_model ?n w0] =>
    destruct (initialize_returns n w0) as (m & k & evs & ->) end.
  intros H. inversion H; subst. simpl. repeat split.
Qed.

Lemma encode_length (model : option EmbeddingModel) (texts : list string)
  (vectors : Np.array2) :
  (forall name ts, length (st_encode name ts) = length ts) ->
  encode model texts = Ok vectors -> length vectors = length texts.
Proof.
  intros Hst. destruct model as [[name|dimension]|]; simpl; intros H;
    inversion H; subst; [apply Hst|apply length_map].
Qed.

(** What a successful build from a fresh store leaves. *)
Lemma build_inv (docs : list Document) (s0 s : CodeVectorStore)
  (w w' : World) :
  docs <> [] ->
  documents s0 = [] -> docstore s0 = DocumentStore_init ->
  (add_documents docs ;; create_embeddings) (s0, w) = (Ok tt, (s, w')) ->
  exists vectors index,
    encode (embedding_model s0) (map page_content docs) = Ok vectors /\
    Faiss.xb index = vectors /\
    Forall (fun v => length v = Faiss.d index) vectors /\
    w' = w /\
    s = {| embedding_model_name := embedding_model_name s0;
           embedding_model := embedding_model s0;
           documents := docs;
           embeddings := Some vectors;
           faiss_index := Some index;
           docstore := docstore_of docs |}.
Proof.
  intros Hne Hdocs Hstore.
  unfold bind at 1, add_documents, update_self.
  rewrite create_embeddings_cases by (simpl; rewrite Hdocs; exact Hne).
  simpl. rewrite Hdocs. simpl.
  destruct (encode _ _) as [vectors|e]; [|discriminate].
  destruct (Np.shape1 vectors) as [dimension|]; [|discriminate].
  destruct (Faiss.add _ _) as [index|e] eqn:Hadd; [|discriminate].
  intros H. inversion H; subst.
  apply faiss_add_new in Hadd. destruct Hadd as (Hd & Hxb & Hall).
  exists vectors, index. rewrite Hd.
  repeat split; try assumption.
  unfold embedded_store. simpl. rewrite Hstore. reflexivity.
Qed.

Lemma similarity_search_keeps_state (query : string) (k : Z)
  (s : CodeVectorStore) (w : World) :
  snd (similarity_search query k (s, w)) = (s, w).
Proof.
  unfold similarity_search, bind, get_self, of_result, of_option, ret, raise.
  destruct (faiss_index s) as [index|]; [|reflexivity].
  destruct (encode _ _) as [q|e]; [|reflexivity].
  destruct (Faiss.search _ _ _) as [DI|e]; [|reflexivity].
  destruct (Py.getitem _ _) as [row|]; reflexivity.
Qed.

Lemma similarity_search_without_index (query : string) (k : Z)
  (s : CodeVectorStore) (w : World) :
  faiss_index s = None ->
  similarity_search query k (s, w) = (Ok [], (s, w)).
Proof.
  intros H. unfold similarity_search, bind, get_self. rewrite H. reflexivity.
Qed.

Lemma save_keeps_store (path : string) (s : CodeVectorStore) (w : World) :
  fst (snd (save path (s, w))) = s.
Proof.
  unfold save, bind, lift_snd, get_self, ret.
  destruct (os_makedirs path w) as [[[]|e] w1]; [|reflexivity].
  destruct (faiss_index s) as [index|].
  - destruct (write_file _ _ w1) as [[[]|e] w2]; [|reflexivity].
    destruct (write_file _ _ w2) as [[[]|e] w3]; [|reflexivity].
    destruct (write_file _ _ w3) as [[[]|e] w4]; reflexivity.
  - destruct (write_file _ _ w1) as [[[]|e] w2]; [|reflexivity].
    destruct (write_file _ _ w2) as [[[]|e] w3]; reflexivity.
Qed.

Lemma aligned_docstore_of (model_name : string)
  (model : option EmbeddingModel) (docs : list Document)
  (vectors : option Np.array2) (index : Faiss.IndexFlatL2) :
  Faiss.ntotal index = length docs ->
  aligned {| embedding_model_name := model_name; embedding_model := model;
             documents := docs; embeddings := vectors;
             faiss_index := Some index; docstore := docstore_of docs |}.
Proof.
  intros Hn. exists index. simpl. split; [reflexivity|]. split; [exact Hn|].
  split; [apply docstore_of_counter|]. intros i. apply docstore_of_lookup.
Qed.

Lemma save_then_load (path : string) (s s1 : CodeVectorStore) (w1 : World)
  (index : Faiss.IndexFlatL2) :
  faiss_index s = Some index ->
  save_target_ok w1 path ->
  exists w2 w3,
    save path (s, w1) = (Ok tt, (s, w2)) /\
    load path (s1, w2)
    = (Ok true,
       (loaded_store s1 w2 (Some index) (Some (documents s))
                     (Some (embedding_model_name s)), w3)).
Proof.
  intros Hidx Hok.
  eexists. eexists. split; [apply save_ok; eassumption|].
  destruct (saved_fs_lookup path index (documents s) (embedding_model_name s)
              (fs w1)) as (Hp & Hi & Hd & Hm).
  eapply load_existing; simpl; eassumption.
Qed.

(** C1 (as the code has it). Right after a successful build of a fresh
    store from a non-empty document list (with a provider that returns
    one vector per text) the index holds as many vectors as there are
    documents, and the document store mirrors the document list entry by
    entry.  Searching and saving leave the store as it is, and a store
    loaded from the path the built store was just saved to is aligned
    again, with the same documents.  The alignment is kept by these
    operations only: [add_documents] and a second [create_embeddings]
    on the built store break it. *)
Theorem C1_index_and_documents_aligned
  (docs : list Document) (s0 s : CodeVectorStore) (w0 w w' : World)
  (Hencode : forall name texts, length (st_encode name texts) = length texts)
  (Hdocs : docs <> [])
  (Hinit : CodeVectorStore_init None w0 = (Ok s0, w))
  (Hbuild : (add_documents docs ;; create_embeddings) (s0, w)
            = (Ok tt, (s, w'))) :
  aligned s /\ documents s = docs /\
  (forall query k w1, snd (similarity_search query k (s, w1)) = (s, w1)) /\
  (forall path w1, fst (snd (save path (s, w1))) = s) /\
  (forall path w1 s1, save_target_ok w1 path ->
     exists w2 s2 w3,
       save path (s, w1) = (Ok tt, (s, w2)) /\
       load path (s1, w2) = (Ok true, (s2, w3)) /\
       aligned s2 /\ documents s2 = docs).
Proof.
  destruct (init_fresh _ _ _ _ Hinit) as (Hd0 & _ & _ & Hs0 & _).
  destruct (build_inv docs s0 s w w' Hdocs Hd0 Hs0 Hbuild)
    as (vectors & index & Henc & Hxb & _ & _ & Hs).
  assert (Hidx : faiss_index s = Some index) by (rewrite Hs; reflexivity).
  assert (Hdoc : documents s = docs) by (rewrite Hs; reflexivity).
  assert (Hn : Faiss.ntotal index = length docs).
  { unfold Faiss.ntotal. rewrite Hxb.
    rewrite (encode_length _ _ _ Hencode Henc). apply length_map. }
  split; [rewrite Hs; apply aligned_docstore_of, Hn|].
  split; [exact Hdoc|].
  split; [intros; apply similarity_search_keeps_state|].
  split; [intros; apply save_keeps_store|].
  intros path w1 s1 Hok.
  destruct (save_then_load path s s1 w1 index Hidx Hok)
    as (w2 & w3 & Hsave & Hload).
  exists w2. eexists. exists w3.
  split; [exact Hsave|]. split; [apply Hload|].
  rewrite Hdoc.
  split; [apply aligned_docstore_of, Hn|reflexivity].
Qed.

(** C2. A built store saved under a usable path and loaded back from the
    world the save left gives the same index (same dimension, same
    vectors in the same order), the same document list and the same
    document store, whatever the store doing the load held before. *)
Theorem C2_save_then_load_round_trip
  (docs : list Document) (s0 s s1 : CodeVectorStore) (w0 w w' w1 : World)
  (path : string)
  (Hdocs : docs <> [])
  (Hinit : CodeVectorStore_init None w0 = (Ok s0, w))
  (Hbuild : (add_documents docs ;; create_embeddings) (s0, w)
            = (Ok tt, (s, w')))
  (Hpath : save_target_ok w1 path) :
  exists index w2 s2 w3,
    faiss_index s = Some index /\
    save path (s, w1) = (Ok tt, (s, w2)) /\
    load path (s1, w2) = (Ok true, (s2, w3)) /\
    faiss_index s2 = Some index /\
    documents s2 = documents s /\
    docstore s2 = docstore s.
Proof.
  destruct (init_fresh _ _ _ _ Hinit) as (Hd0 & _ & _ & Hs0 & _).
  destruct (build_inv docs s0 s w w' Hdocs Hd0 Hs0 Hbuild)
    as (vectors & index & Henc & Hxb & _ & _ & Hs).
  assert (Hidx : faiss_index s = Some index) by (rewrite Hs; reflexivity).
  destruct (save_then_load path s s1 w1 index Hidx Hpath)
    as (w2 & w3 & Hsave & Hload).
  exists index, w2. eexists. exists w3.
  split; [exact Hidx|]. split; [exact Hsave|]. split; [apply Hload|].
  split; [reflexivity|]. split; [reflexivity|].
  rewrite Hs. reflexivity.
Qed.

(** C3 (as the code has it). When the directory exists and each of the
    three artifacts is either missing or readable, [load] succeeds
    (returns True) however many artifacts are missing: every artifact
    that is present replaces the corresponding field of the store, every
    missing one leaves its field as it was, and the document store is
    rebuilt from the resulting document list.  Only a path that does not
    exist makes [load] return False, and then nothing is changed. *)
Theorem C3_load_succeeds_with_missing_artifacts
  (path : string) (s : CodeVectorStore) (w : World) (x : FileData)
  (oi : option Faiss.IndexFlatL2) (od : option (list Document))
  (ot : option string)
  (Hdir : fs w !! path = Some x)
  (Hindex : fs w !! index_file path = FaissIndexFile <$> oi)
  (Hdocs : fs w !! documents_file path = PickleFile <$> od)
  (Hinfo : fs w !! model_info_file path = TextFile <$> ot) :
  (exists s' w',
     load path (s, w) = (Ok true, (s', w')) /\
     faiss_index s'
       = match oi with Some index => Some index | None => faiss_index s end /\
     documents s'
       = match od with Some docs => docs | None => documents s end /\
     embedding_model_name s'
       = match ot with Some text => Py.strip text
                     | None => embedding_model_name s end /\
     (ot = None -> embedding_model s' = embedding_model s /\ w' = w) /\
     embeddings s' = embeddings s /\
     docstore s' = docstore_of (documents s') /\
     fs w' = fs w) /\
  (forall s1 w1, fs w1 !! path = None ->
                 load path (s1, w1) = (Ok false, (s1, w1))).
Proof.
  split.
  - exists (loaded_store s w oi od ot), (loaded_world w ot).
    split; [eapply load_existing; eassumption|].
    split; [reflexivity|]. split; [reflexivity|]. split; [reflexivity|].
    split; [intros ->; split; reflexivity|].
    split; [reflexivity|]. split; [reflexivity|].
    destruct ot as [text|]; [apply initialize_keeps_fs|reflexivity].
  - intros s1 w1 Hnone. apply load_missing_path, Hnone.
Qed.

(** *** Searching with more slots than vectors *)

Lemma getitem_in_range {A : Type} (l : list A) (i : nat) (x : A) :
  nth_error l i = Some x -> Py.getitem l (Z.of_nat i) = Some x.
Proof.
  intros H. unfold Py.getitem.
  assert (Hi : (i < length l)%nat) by (apply nth_error_Some; congruence).
  destruct (Z.leb_spec 0 (Z.of_nat i)); [|lia].
  destruct (Z.ltb_spec (Z.of_nat i) (Z.of_nat (length l))); [|lia].
  simpl. rewrite Nat2Z.id. exact H.
Qed.

Lemma getitem_singleton {A : Type} (x : A) : Py.getitem [x] 0 = Some x.
Proof. reflexivity. Qed.

Lemma getitem_minus_one {A : Type} (l : list A) (x : A) :
  Py.getitem (l ++ [x]) (-1) = Some x.
Proof.
  unfold Py.getitem. rewrite length_app. simpl length.
  destruct (Z.leb_spec 0 (-1)); [lia|]. cbn [andb].
  destruct (Z.leb_spec (- Z.of_nat (length l + 1)) (-1)); [|lia].
  destruct (Z.ltb_spec (-1) 0); [|lia]. cbn [andb].
  replace (Z.to_nat (Z.of_nat (length l + 1) + -1)) with (length l) by lia.
  rewrite nth_error_app2 by lia. now rewrite Nat.sub_diag.
Qed.

Lemma collect_results_padded (docs : list Document) (last_doc : Document)
  (labels : list Z) (missing : nat) :
  Forall (fun label => 0 <= label < Z.of_nat (length (docs ++ [last_doc])))
         labels ->
  collect_results (docs ++ [last_doc]) (labels ++ repeat (-1) missing)
  = Ok (documents_at (docs ++ [last_doc]) labels ++ repeat last_doc missing).
Proof.
  intros Hall. induction Hall as [|label labels Hl _ IH]; simpl.
  - induction missing as [|m IHm]; simpl; [reflexivity|].
    destruct (Z.ltb_spec (-1) (Z.of_nat (length (docs ++ [last_doc])))); [|lia].
    rewrite getitem_minus_one, IHm. reflexivity.
  - destruct (Z.ltb_spec label (Z.of_nat (length (docs ++ [last_doc]))));
      [|lia].
    destruct (nth_error (docs ++ [last_doc]) (Z.to_nat label)) as [doc|] eqn:Hn.
    + rewrite <- (Z2Nat.id label) at 1 by lia.
      rewrite (getitem_in_range _ _ _ Hn), IH. reflexivity.
    + apply nth_error_None in Hn. lia.
Qed.

Lemma nearest_labels_range (index : Faiss.IndexFlatL2) (k : nat) (q : list R) :
  Forall (fun label => 0 <= label < Z.of_nat (Faiss.ntotal index))
         (map fst (nearest index k q)).
Proof.
  apply List.Forall_forall. intros label Hl. apply in_map_iff in Hl.
  destruct Hl as (h & <- & Hh). apply nearest_In in Hh.
  destruct Hh as (_ & j & v & Hj & ->). simpl.
  assert (Hlt : (j < length (Faiss.xb index))%nat)
    by (apply nth_error_Some; congruence).
  unfold Faiss.ntotal. lia.
Qed.

(** What [similarity_search] returns on a store whose index holds no more
    vectors than there are documents: the documents of the hits, then, for
    every empty slot, one more copy of the last document. *)
Lemma similarity_search_padded (s : CodeVectorStore) (w : World)
  (query : string) (k : Z) (index : Faiss.IndexFlatL2) (q : list R)
  (docs : list Document) (last_doc : Document) :
  faiss_index s = Some index ->
  documents s = docs ++ [last_doc] ->
  (Faiss.ntotal index <= length (documents s))%nat ->
  encode (embedding_model s) [query] = Ok [q] ->
  length q = Faiss.d index ->
  0 < k ->
  let hits := nearest index (Z.to_nat k) q in
  similarity_search query k (s, w)
  = (Ok (documents_at (documents s) (map fst hits)
           ++ repeat last_doc (Z.to_nat k - length hits)), (s, w)).
Proof.
  intros Hidx Hdocs Hn Henc Hdim Hk hits.
  unfold similarity_search, bind, get_self, of_result, of_option, ret.
  rewrite Hidx, Henc.
  unfold Faiss.search. destruct (Z.leb_spec k 0); [lia|].
  simpl forallb. rewrite Hdim, Nat.eqb_refl. simpl andb. cbv iota.
  cbn [map snd]. rewrite getitem_singleton. cbv iota beta.
  rewrite search_one_eq. cbn [snd]. fold hits.
  rewrite Hdocs. rewrite collect_results_padded; [reflexivity|].
  rewrite <- Hdocs.
  eapply List.Forall_impl; [|apply nearest_labels_range].
  intros label Hl. simpl in Hl. lia.
Qed.

(** *** The scanner *)

Lemma should_process_spec (p : Pathlib.Path) :
  _should_process_file p = true <->
  Pathlib.suffix p ∈ Config.SUPPORTED_EXTENSIONS /\ clean_parts p.
Proof.
  unfold _should_process_file, clean_parts.
  destruct (bool_decide (Pathlib.suffix p ∈ Config.SUPPORTED_EXTENSIONS))
    eqn:Hext; cbn [negb].
  - apply bool_decide_eq_true_1 in Hext.
    destruct (existsb (Py.startswith ".") p) eqn:Hdot.
    + split; [discriminate|]. intros [_ Hclean].
      apply existsb_exists in Hdot. destruct Hdot as (part & Hin & Hs).
      destruct (Hclean part Hin) as [Hs' _]. congruence.
    + destruct (existsb (fun part => bool_decide (part ∈ ignore_dirs)) p)
        eqn:Hign.
      * split; [discriminate|]. intros [_ Hclean].
        apply existsb_exists in Hign. destruct Hign as (part & Hin & Hs).
        apply bool_decide_eq_true_1 in Hs.
        destruct (Hclean part Hin) as [_ Hn]. contradiction.
      * split; [|reflexivity]. intros _. split; [exact Hext|].
        intros part Hin. split.
        -- destruct (Py.startswith "." part) eqn:Hs; [|reflexivity].
           assert (existsb (Py.startswith ".") p = true)
             by (apply existsb_exists; eauto). congruence.
        -- intros Hmem.
           assert (existsb (fun part => bool_decide (part ∈ ignore_dirs)) p
                   = true).
           { apply existsb_exists. exists part. split; [exact Hin|].
             apply bool_decide_eq_true_2, Hmem. }
           congruence.
  - apply bool_decide_eq_false_1 in Hext.
    split; [discriminate|]. intros [Hin _]. contradiction.
Qed.

Lemma scanned_files_spec (root : Pathlib.Path) (children : list Node)
  (e : Entry) :
  In e (scanned_files root children) <->
  In e (rglob root children) /\ is_file e = true /\
  Pathlib.suffix (entry_path e) ∈ Config.SUPPORTED_EXTENSIONS /\
  entry_size e <= Config.MAX_FILE_SIZE /\
  clean_parts (entry_path e).
Proof. tidy.
  unfold scanned_files, walked_files, too_large.
  rewrite !List.filter_In, andb_true_iff, negb_true_iff, Z.ltb_ge.
  rewrite should_process_spec. tauto.
Qed.

Lemma filter_sublist {A : Type} (f : A -> bool) (l : list A) :
  sublist (List.filter f l) l.
Proof.
  induction l as [|a l IH]; simpl; [constructor|].
  destruct (f a); [apply sublist_skip|apply sublist_cons]; exact IH.
Qed.

Lemma scanned_files_sublist (root : Pathlib.Path) (children : list Node) :
  sublist (scanned_files root children) (rglob root children).
Proof.
  unfold scanned_files, walked_files.
  etransitivity; apply filter_sublist.
Qed.

Lemma process_file_too_large (e : Entry) :
  Config.MAX_FILE_SIZE < entry_size e -> process_file e = [].
Proof.
  intros H. unfold process_file, too_large.
  destruct (Z.ltb_spec Config.MAX_FILE_SIZE (entry_size e)); [reflexivity|lia].
Qed.

Lemma documents_from_scanned_files (l : list Entry) :
  flat_map process_file l
  = flat_map process_file (List.filter (fun e => negb (too_large e)) l).
Proof.
  induction l as [|e l IH]; simpl; [reflexivity|]. unfold too_large at 1.
  destruct (Z.ltb_spec Config.MAX_FILE_SIZE (entry_size e)); simpl.
  - rewrite process_file_too_large by assumption. exact IH.
  - now rewrite IH.
Qed.

Lemma name_snoc (parent : Pathlib.Path) (name : string) :
  Pathlib.name (parent ++ [name]) = Pathlib.name [name].
Proof. unfold Pathlib.name. rewrite rev_unit. reflexivity. Qed.

Lemma suffix_snoc (parent : Pathlib.Path) (name : string) :
  Pathlib.suffix (parent ++ [name]) = Pathlib.suffix [name].
Proof. unfold Pathlib.suffix. rewrite name_snoc. reflexivity. Qed.

Lemma should_process_snoc (parent : Pathlib.Path) (name : string) :
  clean_parts parent ->
  _should_process_file (parent ++ [name]) = _should_process_file [name].
Proof.
  intros Hclean. unfold _should_process_file.
  rewrite suffix_snoc, !existsb_app.
  assert (Hdot : existsb (Py.startswith ".") parent = false).
  { apply not_true_is_false. intros H. apply existsb_exists in H.
    destruct H as (part & Hin & Hs). destruct (Hclean part Hin). congruence. }
  assert (Hign : existsb (fun part => bool_decide (part ∈ ignore_dirs)) parent
                 = false).
  { apply not_true_is_false. intros H. apply existsb_exists in H.
    destruct H as (part & Hin & Hs). apply bool_decide_eq_true_1 in Hs.
    destruct (Hclean part Hin). contradiction. }
  rewrite Hdot, Hign. reflexivity.
Qed.

Lemma should_process_hidden (parent : Pathlib.Path) (dir name : string) :
  Py.startswith "." dir = true ->
  _should_process_file ((parent ++ [dir]) ++ [name]) = false.
Proof.
  intros Hdir. unfold _should_process_file.
  destruct (bool_decide _); [|reflexivity]. cbn [negb].
  rewrite !existsb_app. simpl. rewrite Hdir.
  rewrite orb_true_r. reflexivity.
Qed.

(** The documents [process_file] makes for one entry. *)
Lemma process_file_In (e : Entry) (doc : Document) :
  In doc (process_file e) <->
  entry_size e <= Config.MAX_FILE_SIZE /\
  Py.strip (entry_content e) <> "" /\
  exists i : nat,
    split_text (entry_content e) !! i = Some (page_content doc) /\
    metadata doc
    = {| file_path := Pathlib.to_string (entry_path e);
         file_name := Pathlib.name (entry_path e);
         file_extension := Pathlib.suffix (entry_path e);
         chunk_index := i;
         total_chunks := length (split_text (entry_content e)) |}.
Proof.
  unfold process_file, too_large.
  destruct (Z.ltb_spec Config.MAX_FILE_SIZE (entry_size e)) as [Hbig|Hsize].
  { split; [intros []|intros [H _]; lia]. }
  destruct (String.eqb_spec (Py.strip (entry_content e)) "") as [Hblank|Hne].
  { split; [intros []|intros (_ & H & _); contradiction]. }
  cbv zeta. rewrite <- list_elem_of_In, elem_of_lookup_imap. split.
  - intros (i & chunk & -> & Hchunk).
    split; [exact Hsize|]. split; [exact Hne|].
    exists i. split; [exact Hchunk|reflexivity].
  - intros (_ & _ & i & Hchunk & Hmeta).
    exists i, (page_content doc). split; [|exact Hchunk].
    destruct doc as [content meta]. simpl in *. rewrite Hmeta. reflexivity.
Qed.

Lemma rglob_scenario (root : Pathlib.Path)
  (a_content b_content c_content : string) (b_size c_size : Z) :
  clean_parts root ->
  walked_files root
    [File "a.py" 500 a_content; File "b.png" b_size b_content;
     Dir ".git" [File "c.py" c_size c_content]]
  = [ {| entry_path := root ++ ["a.py"]; is_file := true;
         entry_size := 500; entry_content := a_content |} ].
Proof.
  intros Hroot. unfold walked_files, rglob.
  cbn [map entry_of flat_map rglob_node app List.filter is_file entry_path
       andb].
  rewrite !should_process_snoc by exact Hroot.
  rewrite should_process_hidden by reflexivity.
  assert (Ha : _should_process_file ["a.py"] = true) by (vm_compute; reflexivity).
  assert (Hb : _should_process_file ["b.png"] = false) by (vm_compute; reflexivity).
  rewrite Ha, Hb. reflexivity.
Qed.

(** C9. For every root and tree the scanner yields, in walk order, exactly
    the paths below the root that are regular files, whose suffix is a
    supported extension, whose size is at most 1 MiB and none of whose
    segments (those of the root included, as [parts] has them) starts
    with a dot or is in the ignore set.  [process_repository] makes its
    documents from exactly these files: a document is returned if and
    only if it is a chunk of the text of such a file, the text not being
    blank.  Over a tree holding a.py (500 bytes), b.png and .git/c.py,
    under a root with no hidden or ignored segment, the scanner yields
    exactly a.py and the documents are the chunks of a.py. *)
Theorem C9_scanner_yields_exactly_the_eligible_files
  (root : Pathlib.Path) (Hroot : clean_parts root) :
  (forall (r : Pathlib.Path) (children : list Node) (e : Entry),
     In e (scanned_files r children) <->
     In e (rglob r children) /\ is_file e = true /\
     Pathlib.suffix (entry_path e) ∈ Config.SUPPORTED_EXTENSIONS /\
     entry_size e <= Config.MAX_FILE_SIZE /\
     (forall part, In part (entry_path e) ->
        Py.startswith "." part = false /\ part ∉ ignore_dirs)) /\
  (forall (r : Pathlib.Path) (children : list Node),
     sublist (scanned_files r children) (rglob r children)) /\
  (forall (repo_path : string) (children : list Node) (w : World),
     repos w !! repo_path = Some children ->
     exists docs : list Document,
       process_repository repo_path w = (Ok docs, w) /\
       forall doc : Document,
         In doc docs <->
         exists (e : Entry) (i : nat),
           In e (rglob (Pathlib.of_string repo_path) children) /\
           is_file e = true /\
           Pathlib.suffix (entry_path e) ∈ Config.SUPPORTED_EXTENSIONS /\
           entry_size e <= Config.MAX_FILE_SIZE /\
           (forall part, In part (entry_path e) ->
              Py.startswith "." part = false /\ part ∉ ignore_dirs) /\
           Py.strip (entry_content e) <> "" /\
           split_text (entry_content e) !! i = Some (page_content doc) /\
           metadata doc
           = {| file_path := Pathlib.to_string (entry_path e);
                file_name := Pathlib.name (entry_path e);
                file_extension := Pathlib.suffix (entry_path e);
                chunk_index := i;
                total_chunks := length (split_text (entry_content e)) |}) /\
  (forall (a_content b_content c_content : string) (b_size c_size : Z)
          (repo_path : string) (w : World),
     let tree := [File "a.py" 500 a_content; File "b.png" b_size b_content;
                  Dir ".git" [File "c.py" c_size c_content]] in
     scanned_files root tree
     = [ {| entry_path := root ++ ["a.py"]; is_file := true;
            entry_size := 500; entry_content := a_content |} ] /\
     (Pathlib.of_string repo_path = root ->
      repos w !! repo_path = Some tree ->
      process_repository repo_path w
      = (Ok (if String.eqb (Py.strip a_content) "" then []
             else imap (fun i chunk =>
                          {| page_content := chunk;
                             metadata :=
                               {| file_path :=
                                    Pathlib.to_string (root ++ ["a.py"]);
                                  file_name := "a.py";
                                  file_extension := ".py";
                                  chunk_index := i;
                                  total_chunks :=
                                    length (split_text a_content) |} |})
                       (split_text a_content)), w))).
Proof.
  split; [intros r children e; apply scanned_files_spec|].
  split; [intros r children; apply scanned_files_sublist|].
  split.
  { intros repo_path children w Hrepo. eexists. split.
    { unfold process_repository. rewrite Hrepo. reflexivity. }
    intros doc. rewrite in_flat_map. split.
    - intros (e & He & Hdoc).
      apply List.filter_In in He. destruct He as [He Hwalk].
      apply andb_true_iff in Hwalk. destruct Hwalk as [Hfile Hshould].
      apply should_process_spec in Hshould. destruct Hshould as [Hext Hclean].
      apply process_file_In in Hdoc.
      destruct Hdoc as (Hsize & Hne & i & Hchunk & Hmeta).
      exists e, i. auto 10.
    - intros (e & i & He & Hfile & Hext & Hsize & Hclean & Hne & Hchunk
              & Hmeta).
      exists e. split.
      + apply List.filter_In. split; [exact He|].
        apply andb_true_iff. split; [exact Hfile|].
        apply should_process_spec. split; assumption.
      + apply process_file_In. split; [exact Hsize|]. split; [exact Hne|].
        exists i. split; assumption. }
  intros a_content b_content c_content b_size c_size repo_path w. cbv zeta.
  split.
  { unfold scanned_files. rewrite (rglob_scenario _ _ _ _ _ _ Hroot).
    reflexivity. }
  intros Hpath Hrepo. unfold process_repository. rewrite Hrepo, Hpath.
  rewrite (rglob_scenario _ _ _ _ _ _ Hroot).
  cbn [flat_map]. rewrite app_nil_r.
  unfold process_file, too_large. cbn [entry_size entry_content entry_path].
  change (Config.MAX_FILE_SIZE <? 500) with false. cbv iota zeta.
  rewrite name_snoc, suffix_snoc.
  replace (Pathlib.name ["a.py"]) with "a.py" by (vm_compute; reflexivity).
  replace (Pathlib.suffix ["a.py"]) with ".py" by (vm_compute; reflexivity).
  reflexivity.
Qed.

(** *** The manager *)

Lemma slice_to_length (n : nat) (s : string) :
  String.length (Py.slice_to n s) = Nat.min n (String.length s).
Proof.
  revert s. induction n as [|n IH]; intros [|c s]; simpl; try reflexivity.
  now rewrite IH.
Qed.

Lemma fallback_embed_length_any (dimension : nat) (text : string) :
  length (fallback_embed dimension text) = Nat.min dimension 32.
Proof.
  unfold fallback_embed. cbv zeta.
  destruct (Np.gt0 _); unfold Np.divide;
    rewrite ?length_map, list_ascii_length, slice_to_length, hexdigest_length;
    reflexivity.
Qed.

Lemma encode_well_shaped (model : EmbeddingModel) (texts : list string) :
  provider_well_shaped ->
  exists vectors dimension,
    encode (Some model) texts = Ok vectors /\
    length vectors = length texts /\
    Forall (fun row => length row = dimension) vectors.
Proof.
  intros Hshape. destruct model as [name|dimension]; simpl.
  - destruct (Hshape name texts) as (Hlen & dimension & Hall).
    exists (st_encode name texts), dimension. auto.
  - exists (map (fallback_embed dimension) texts), (Nat.min dimension 32).
    split; [reflexivity|]. split; [apply length_map|].
    apply List.Forall_forall. intros row Hrow.
    apply in_map_iff in Hrow. destruct Hrow as (t' & <- & _).
    apply fallback_embed_length_any.
Qed.

Lemma faiss_add_ok (dimension : nat) (vectors : Np.array2) :
  Forall (fun row => length row = dimension) vectors ->
  Faiss.add (Faiss.new dimension) vectors
  = Ok {| Faiss.d := dimension; Faiss.xb := vectors |}.
Proof.
  intros Hall. unfold Faiss.add, Faiss.new. simpl.
  replace (forallb _ vectors) with true; [reflexivity|].
  symmetry. apply forallb_forall. intros row Hrow.
  rewrite List.Forall_forall in Hall. apply Nat.eqb_eq, Hall, Hrow.
Qed.

(** [create_embeddings] succeeds when the provider is well shaped. *)
Lemma create_embeddings_ok (s : CodeVectorStore) (model : EmbeddingModel)
  (w : World) :
  provider_well_shaped ->
  documents s <> [] ->
  docstore s = DocumentStore_init ->
  embedding_model s = Some model ->
  exists vectors dimension,
    length vectors = length (documents s) /\
    create_embeddings (s, w)
    = (Ok tt,
       ({| embedding_model_name := embedding_model_name s;
           embedding_model := Some model;
           documents := documents s;
           embeddings := Some vectors;
           faiss_index := Some {| Faiss.d := dimension; Faiss.xb := vectors |};
           docstore := docstore_of (documents s) |}, w)).
Proof.
  intros Hshape Hne Hstore Hmodel.
  destruct (encode_well_shaped model (map page_content (documents s)) Hshape)
    as (vectors & dimension & Henc & Hlen & Hall).
  rewrite length_map in Hlen.
  destruct vectors as [|row rows].
  { destruct (documents s); [congruence|discriminate]. }
  exists (row :: rows), dimension. split; [exact Hlen|].
  rewrite create_embeddings_cases by exact Hne.
  rewrite Hmodel, Henc. simpl Np.shape1.
  assert (Hrow : length row = dimension) by (inversion Hall; assumption).
  rewrite Hrow, (faiss_add_ok _ _ Hall).
  unfold embedded_store, docstore_of. rewrite Hstore, Hmodel. reflexivity.
Qed.

Lemma on_vector_store_run {A : Type} (m : Method A) (self : CodePalManager)
  (w : World) (vs vs' : CodeVectorStore) (r : result A) (w' : World) :
  vector_store self = Some vs ->
  m (vs, w) = (r, (vs', w')) ->
  on_vector_store m (self, w) = (r, (set_vector_store (Some vs') self, w')).
Proof. intros Hvs Hm. unfold on_vector_store. rewrite Hvs, Hm. reflexivity. Qed.

Lemma init_returns_store (w : World) :
  exists model n evs,
    CodeVectorStore_init None w
    = (Ok (fresh_store EMBEDDING_MODEL (Some model)), world_after w n evs).
Proof.
  unfold CodeVectorStore_init, bind, ret.
  destruct (initialize_returns EMBEDDING_MODEL w) as (m & k & evs & ->).
  exists m, k, evs. reflexivity.
Qed.

Lemma process_and_save_ok (repo_path : string) (self : CodePalManager)
  (w : World) (docs : list Document) :
  provider_well_shaped ->
  llm_ready = true ->
  process_repository repo_path w = (Ok docs, w) ->
  docs <> [] ->
  save_target_ok w vector_store_path ->
  exists vs index w',
    process_and_save repo_path (self, w)
    = (Ok (SuccessfullyProcessed (length docs) repo_path),
       ({| vector_store := Some vs;
           agent := Some {| agent_vector_store := Some vs |};
           processor := Some CodeProcessor_init |}, w')) /\
    documents vs = docs /\ faiss_index vs = Some index /\ aligned vs /\
    fs w' = saved_fs vector_store_path index docs (embedding_model_name vs)
                     (fs w).
Proof.
  intros Hshape Hllm Hproc Hne Hok.
  destruct (init_returns_store w) as (model & n & evs & Hinit).
  set (w1 := world_after w n evs) in *.
  destruct (create_embeddings_ok
              (set_documents docs (fresh_store EMBEDDING_MODEL (Some model)))
              model w1 Hshape Hne eq_refl eq_refl)
    as (vectors & dimension & Hlen & Hcreate).
  simpl in Hlen, Hcreate.
  set (index := {| Faiss.d := dimension; Faiss.xb := vectors |}) in *.
  set (vs := {| embedding_model_name := EMBEDDING_MODEL;
                embedding_model := Some model; documents := docs;
                embeddings := Some vectors;
                faiss_index := Some index;
                docstore := docstore_of docs |}) in *.
  exists vs, index.
  eexists.
  split; [|split; [reflexivity|split; [reflexivity|split]]].
  - unfold process_and_save.
    unfold bind at 1, update_manager at 1.
    unfold bind at 1, lift_snd at 1. rewrite Hproc.
    destruct docs as [|doc docs'] eqn:Hdocs; [congruence|]. rewrite <- Hdocs in *.
    unfold bind at 1, lift_snd at 1. rewrite Hinit.
    unfold bind at 1, update_manager at 1.
    unfold bind at 1.
    erewrite on_vector_store_run; [|reflexivity|reflexivity].
    unfold bind at 1.
    erewrite on_vector_store_run; [|reflexivity|exact Hcreate].
    unfold bind at 1.
    erewrite on_vector_store_run;
      [|reflexivity|apply (save_ok _ vs w1 index eq_refl); exact Hok].
    unfold bind, get_manager, CodePalAgent_init, update_manager, ret.
    rewrite Hllm. reflexivity.
  - apply aligned_docstore_of. exact Hlen.
  - reflexivity.
Qed.

Lemma process_and_save_nothing (repo_path : string) (self : CodePalManager)
  (w : World) :
  process_repository repo_path w = (Ok [], w) ->
  process_and_save repo_path (self, w)
  = (Ok (NoSupportedFiles repo_path),
     (set_processor (Some CodeProcessor_init) self, w)).
Proof.
  intros Hproc. unfold process_and_save.
  unfold bind at 1, update_manager at 1.
  unfold bind at 1, lift_snd at 1. rewrite Hproc. reflexivity.
Qed.

Lemma initialize_forced (repo_path : string) (self : CodePalManager) (w : World) :
  initialize_repository repo_path true (self, w)
  = try_except (process_and_save repo_path)
               (fun e => ret (ErrorInitializing e)) (self, w).
Proof. reflexivity. Qed.

(** C8 (as the code has it). The persisted store lives under the one
    path [VECTOR_STORE_PATH/code_vectors], whatever repository is being
    initialized, and its three artifacts are files of that directory.
    With [force_reprocess] true, initialization does not load: it
    processes the repository and, when that gives at least one document,
    builds a new aligned store from those documents and overwrites the
    three artifacts with it; when it gives none, it reports that no
    supported file was found and leaves the file system as it was. *)
Theorem C8_one_fixed_path_and_forced_rebuild
  (repo_path : string) (self : CodePalManager) (w : World)
  (docs : list Document)
  (Hshape : provider_well_shaped)
  (Hllm : llm_ready = true)
  (Hproc : process_repository repo_path w = (Ok docs, w))
  (Htarget : save_target_ok w vector_store_path) :
  vector_store_path = os_path_join VECTOR_STORE_PATH "code_vectors" /\
  (docs <> [] ->
   exists self' vs index w',
     initialize_repository repo_path true (self, w)
     = (Ok (SuccessfullyProcessed (length docs) repo_path), (self', w')) /\
     vector_store self' = Some vs /\
     documents vs = docs /\ aligned vs /\ faiss_index vs = Some index /\
     fs w' !! vector_store_path = Some Directory /\
     fs w' !! os_path_join vector_store_path "faiss_index.bin"
       = Some (FaissIndexFile index) /\
     fs w' !! os_path_join vector_store_path "documents.pkl"
       = Some (PickleFile docs) /\
     fs w' !! os_path_join vector_store_path "model_info.txt"
       = Some (TextFile (embedding_model_name vs))) /\
  (docs = [] ->
   initialize_repository repo_path true (self, w)
   = (Ok (NoSupportedFiles repo_path),
      (set_processor (Some CodeProcessor_init) self, w))).
Proof.
  split; [reflexivity|]. split.
  - intros Hne.
    destruct (process_and_save_ok repo_path self w docs Hshape Hllm Hproc Hne
                Htarget) as (vs & index & w' & Hrun & Hdocs & Hidx & Hal & Hfs).
    eexists. exists vs, index, w'.
    split.
    { rewrite initialize_forced. unfold try_except. rewrite Hrun. reflexivity. }
    split; [reflexivity|]. split; [exact Hdocs|]. split; [exact Hal|].
    split; [exact Hidx|].
    rewrite Hfs. apply saved_fs_lookup.
  - intros ->. rewrite initialize_forced. unfold try_except.
    rewrite (process_and_save_nothing _ _ _ Hproc). reflexivity.
Qed.

(** *** The nearest document *)



(** *** A store of one document *)

Lemma documents_at_single (d : Document) (labels : list Z) :
  Forall (fun label => 0 <= label < 1) labels ->
  documents_at [d] labels = repeat d (length labels).
Proof. tidy.
  induction 1 as [|label labels Hl _ IH]; simpl; [reflexivity|].
  replace label with 0 by lia. simpl. now rewrite IH.
Qed.

Lemma similarity_search_single (s : CodeVectorStore) (w : World)
  (query : string) (k : Z) (index : Faiss.IndexFlatL2) (q : list R)
  (d : Document) :
  faiss_index s = Some index ->
  documents s = [d] ->
  Faiss.ntotal index = 1%nat ->
  encode (embedding_model s) [query] = Ok [q] ->
  length q = Faiss.d index ->
  0 < k ->
  similarity_search query k (s, w) = (Ok (repeat d (Z.to_nat k)), (s, w)).
Proof.
  intros Hidx Hdocs Hn Henc Hdim Hk.
  assert (Hle : (Faiss.ntotal index <= length (documents s))%nat)
    by (rewrite Hn, Hdocs; simpl; lia).
  rewrite (similarity_search_padded s w query k index q [] d Hidx Hdocs Hle
             Henc Hdim Hk).
  cbv zeta. rewrite Hdocs.
  pose proof (nearest_labels_range index (Z.to_nat k) q) as Hrange.
  rewrite Hn in Hrange.
  rewrite documents_at_single by exact Hrange.
  pose proof (nearest_length index (Z.to_nat k) q) as Hlen.
  rewrite length_map, <- repeat_app.
  do 2 f_equal.
  match goal with
  | |- repeat d ?a = repeat d ?b =>
      replace a with b; [reflexivity|unfold Faiss.hit in *; lia]
  end.
Qed.

Lemma build_single (name : string) (model : EmbeddingModel) (d : Document)
  (v : list R) (w : World) :
  encode (Some model) [page_content d] = Ok [v] ->
  (add_documents [d] ;; create_embeddings) (fresh_store name (Some model), w)
  = (Ok tt,
     ({| embedding_model_name := name; embedding_model := Some model;
         documents := [d]; embeddings := Some [v];
         faiss_index := Some {| Faiss.d := length v; Faiss.xb := [v] |};
         docstore := docstore_of [d] |}, w)).
Proof.
  intros Henc. unfold bind at 1, add_documents, update_self.
  rewrite create_embeddings_cases by discriminate.
  simpl documents. simpl embedding_model. simpl map. rewrite Henc.
  change (Np.shape1 [v]) with (Some (length v)). cbv iota beta.
  rewrite faiss_add_ok by (constructor; [reflexivity|constructor]).
  reflexivity.
Qed.

(** *** The documents of a file and of a repository *)

Lemma process_file_metadata (e : Entry) (doc : Document) :
  In doc (process_file e) ->
  file_path (metadata doc) = Pathlib.to_string (entry_path e) /\
  file_name (metadata doc) = Pathlib.name (entry_path e) /\
  file_extension (metadata doc) = Pathlib.suffix (entry_path e).
Proof.
  unfold process_file, too_large. intros Hin.
  destruct (Config.MAX_FILE_SIZE <? entry_size e); [destruct Hin|].
  destruct (String.eqb (Py.strip (entry_content e)) ""); [destruct Hin|].
  cbv zeta in Hin. apply list_elem_of_In, elem_of_lookup_imap_1 in Hin.
  destruct Hin as (i & chunk & -> & _). repeat split.
Qed.

(** X1. A document that [process_file] makes for a file is chunk number
    [i] of the file's text, carries that number as [chunk_index], the
    number of documents of the file as [total_chunks] and the file's
    path, name and suffix; having any document, the file is neither
    larger than 1 MiB nor blank. *)
Theorem process_file_numbers_its_chunks (e : Entry) (i : nat) (doc : Document)
  (Hdoc : process_file e !! i = Some doc) :
  entry_size e <= Config.MAX_FILE_SIZE /\
  Py.strip (entry_content e) <> "" /\
  split_text (entry_content e) !! i = Some (page_content doc) /\
  chunk_index (metadata doc) = i /\
  total_chunks (metadata doc) = length (process_file e) /\
  length (process_file e) = length (split_text (entry_content e)) /\
  file_path (metadata doc) = Pathlib.to_string (entry_path e) /\
  file_name (metadata doc) = Pathlib.name (entry_path e) /\
  file_extension (metadata doc) = Pathlib.suffix (entry_path e).
Proof.
  unfold process_file, too_large in *.
  destruct (Z.ltb_spec Config.MAX_FILE_SIZE (entry_size e)) as [Hbig|Hsize];
    [discriminate|].
  destruct (String.eqb_spec (Py.strip (entry_content e)) "") as [Hblank|Hne];
    [discriminate|].
  cbv zeta in *. rewrite list_lookup_imap in Hdoc.
  destruct (split_text (entry_content e) !! i) as [chunk|] eqn:Hchunk;
    [|discriminate].
  simpl in Hdoc. inversion Hdoc; subst doc; clear Hdoc. simpl.
  rewrite length_imap. repeat split; try assumption; reflexivity.
Qed.

Lemma entry_of_path (parent : Pathlib.Path) (n : Node) :
  exists name, entry_path (entry_of parent n) = parent ++ [name].
Proof. tidy. destruct n as [name ? ?|name ?]; exists name; reflexivity. Qed.

Lemma rglob_node_prefix :
  forall (n : Node) (parent : Pathlib.Path) (e : Entry),
    In e (rglob_node parent n) -> exists rest, entry_path e = parent ++ rest.
Proof. tidy.
  fix IH 1. intros [name st_size content | name children] parent e Hin.
  - destruct Hin.
  - simpl in Hin. apply in_app_or in Hin. destruct Hin as [Hin|Hin].
    + apply in_map_iff in Hin. destruct Hin as (c & <- & _).
      destruct (entry_of_path (parent ++ [name]) c) as [cname ->].
      exists [name; cname]. rewrite <- app_assoc. reflexivity.
    + induction children as [|c cs IHcs]; [destruct Hin|].
      apply in_app_or in Hin. destruct Hin as [Hin|Hin].
      * destruct (IH c _ _ Hin) as [rest Hrest].
        exists (name :: rest). rewrite Hrest, <- app_assoc. reflexivity.
      * apply IHcs, Hin.
Qed.

Lemma rglob_prefix (root : Pathlib.Path) (children : list Node) (e : Entry) :
  In e (rglob root children) -> exists rest, entry_path e = root ++ rest.
Proof. tidy.
  unfold rglob. intros Hin. apply in_app_or in Hin. destruct Hin as [Hin|Hin].
  - apply in_map_iff in Hin. destruct Hin as (c & <- & _).
    destruct (entry_of_path root c) as [cname ->]. exists [cname].
    reflexivity.
  - apply in_flat_map in Hin.
    destruct Hin as (n & _ & Hin). eapply rglob_node_prefix, Hin.
Qed.

Lemma clean_name (p : Pathlib.Path) :
  clean_parts p ->
  Py.startswith "." (Pathlib.name p) = false /\ (Pathlib.name p ∉ ignore_dirs).
Proof. tidy.
  intros Hclean. unfold Pathlib.name.
  destruct (rev p) as [|n rest] eqn:Hrev.
  - split; [reflexivity|]. intros H.
    assert (Hb : bool_decide ("" ∈ ignore_dirs) = true)
      by (apply bool_decide_eq_true_2; exact H).
    vm_compute in Hb. discriminate.
  - destruct (String.eqb_spec n "/") as [->|Hne].
    + split; [reflexivity|]. intros H.
      assert (Hb : bool_decide ("" ∈ ignore_dirs) = true)
        by (apply bool_decide_eq_true_2; exact H).
      vm_compute in Hb. discriminate.
    + apply Hclean. apply in_rev. rewrite Hrev. left. reflexivity.
Qed.

(** X2. Every document [process_repository] returns comes from a file the
    walk accepted: its [file_extension] is one of the supported
    extensions, its [file_name] neither starts with a dot nor is an
    ignored name, and it is one of the documents [process_file] makes for
    that file; the world is left as it was. *)
Theorem process_repository_documents_come_from_accepted_files
  (repo_path : string) (w w' : World) (docs : list Document) (doc : Document)
  (Hrun : process_repository repo_path w = (Ok docs, w'))
  (Hin : In doc docs) :
  w' = w /\
  (file_extension (metadata doc) ∈ Config.SUPPORTED_EXTENSIONS) /\
  Py.startswith "." (file_name (metadata doc)) = false /\
  (file_name (metadata doc) ∉ ignore_dirs) /\
  exists children e,
    repos w !! repo_path = Some children /\
    In e (scanned_files (Pathlib.of_string repo_path) children) /\
    In doc (process_file e) /\
    file_path (metadata doc) = Pathlib.to_string (entry_path e).
Proof.
  unfold process_repository in Hrun.
  destruct (repos w !! repo_path) as [children|] eqn:Hrepo.
  - inversion Hrun; subst; clear Hrun. split; [reflexivity|].
    rewrite documents_from_scanned_files in Hin.
    fold (scanned_files (Pathlib.of_string repo_path) children) in Hin.
    apply in_flat_map in Hin. destruct Hin as (e & He & Hdoc).
    pose proof (proj1 (scanned_files_spec _ _ _) He)
      as (_ & _ & Hext & _ & Hclean).
    destruct (process_file_metadata e doc Hdoc) as (Hpath & Hname & Hsuffix).
    rewrite Hsuffix, Hname.
    split; [exact Hext|].
    destruct (clean_name _ Hclean) as [Hdot Hign].
    split; [exact Hdot|]. split; [exact Hign|].
    exists children, e. auto.
  - inversion Hrun; subst. destruct Hin.
Qed.

Lemma refused_part_not_clean (p : Pathlib.Path) (part : string) :
  In part p -> refused_part part -> _should_process_file p = false.
Proof. tidy.
  intros Hin Href. destruct (_should_process_file p) eqn:Hp; [|reflexivity].
  apply (proj1 (should_process_spec p)) in Hp. destruct Hp as [_ Hclean].
  destruct (Hclean part Hin) as [Hdot Hign].
  destruct Href as [Hd|Hi]; [congruence|contradiction].
Qed.

Lemma filter_nothing {A : Type} (f : A -> bool) (l : list A) :
  (forall x, In x l -> f x = false) -> List.filter f l = [].
Proof. tidy.
  induction l as [|x l IH]; intros H; [reflexivity|].
  simpl. rewrite (H x (or_introl eq_refl)). apply IH.
  intros y Hy. apply H. right. exact Hy.
Qed.

Lemma walked_files_refused_root (root : Pathlib.Path) (children : list Node)
  (part : string) :
  In part root -> refused_part part -> walked_files root children = [].
Proof. tidy.
  intros Hin Href. unfold walked_files. apply filter_nothing.
  intros e He. destruct (rglob_prefix _ _ _ He) as [rest Hrest].
  rewrite (refused_part_not_clean (entry_path e) part);
    [apply andb_false_r| |exact Href].
  rewrite Hrest. apply in_or_app. left. exact Hin.
Qed.

(** X3. When a segment of the repository path itself starts with a dot
    (a relative path through [..], a checkout below a hidden directory)
    or is an ignored name ([env], [venv], [node_modules], ...), the
    scanner refuses every file below it: [process_repository] returns no
    document, whatever the repository holds, and a forced
    [initialize_repository] answers that no supported file was found,
    writing nothing. *)
Theorem refused_root_segment_hides_the_whole_repository
  (repo_path : string) (part : string) (self : CodePalManager) (w : World)
  (Hpart : In part (Pathlib.of_string repo_path))
  (Hrefused : refused_part part) :
  process_repository repo_path w = (Ok [], w) /\
  initialize_repository repo_path true (self, w)
  = (Ok (NoSupportedFiles repo_path),
     (set_processor (Some CodeProcessor_init) self, w)).
Proof.
  assert (Hrun : process_repository repo_path w = (Ok [], w)).
  { unfold process_repository.
    destruct (repos w !! repo_path) as [children|]; [|reflexivity].
    rewrite (walked_files_refused_root _ children part Hpart Hrefused).
    reflexivity. }
  split; [exact Hrun|].
  rewrite initialize_forced. unfold try_except.
  rewrite (process_and_save_nothing repo_path self w Hrun). reflexivity.
Qed.

(** *** The nearest documents *)

Lemma insert_hit_perm (h : Faiss.hit) (l : list Faiss.hit) :
  Permutation (Faiss.insert_hit h l) (h :: l).
Proof. tidy.
  induction l as [|h' t IH]; simpl; [reflexivity|].
  destruct (Faiss.Rleb (snd h) (snd h')); [reflexivity|].
  rewrite IH. apply perm_swap.
Qed.

Lemma sort_hits_perm (l : list Faiss.hit) : Permutation (Faiss.sort_hits l) l.
Proof. tidy.
  induction l as [|h t IH]; simpl; [constructor|].
  rewrite insert_hit_perm. constructor. exact IH.
Qed.

Lemma labelled_length (i : nat) (q : list R) (vectors : list (list R)) :
  length (Faiss.labelled i q vectors) = length vectors.
Proof. tidy.
  revert i. induction vectors as [|v vs IH]; intros i; simpl;
    [reflexivity|]. rewrite IH. reflexivity.
Qed.

Lemma labelled_finite (i : nat) (q : list R) (vectors : list (list R)) :
  Forall (fun v => (Faiss.fvec_L2sqr q v < Faiss.FLT_MAX)%R) vectors ->
  List.filter (fun h => Faiss.Rltb (snd h) Faiss.FLT_MAX)
              (Faiss.labelled i q vectors)
  = Faiss.labelled i q vectors.
Proof. tidy.
  intros H. revert i. induction H as [|v vs Hv Hvs IH]; intros i; simpl;
    [reflexivity|].
  cbn [snd]. rewrite (proj2 (Rltb_true _ _) Hv), IH. reflexivity.
Qed.

Lemma labelled_NoDup (i : nat) (q : list R) (vectors : list (list R)) :
  NoDup (map fst (Faiss.labelled i q vectors)).
Proof. tidy.
  revert i. induction vectors as [|v vs IH]; intros i; simpl;
    constructor; [|apply IH].
  intros Hin. apply list_elem_of_In, in_map_iff in Hin.
  destruct Hin as (h & Hfst & Hin).
  apply (proj1 (labelled_In _ _ _ _)) in Hin.
  destruct Hin as (j & u & _ & ->). simpl in Hfst. lia.
Qed.

Lemma sorted_firstn_skipn {A : Type} (R : A -> A -> Prop) (k : nat)
  (l : list A) (a b : A) :
  StronglySorted R l -> In a (firstn k l) -> In b (skipn k l) -> R a b.
Proof. tidy.
  intros Hs. revert k. induction Hs as [|x l Hs IH Hx]; intros k Ha Hb.
  - rewrite firstn_nil in Ha. destruct Ha.
  - destruct k as [|k]; [destruct Ha|]. simpl in Ha, Hb.
    destruct Ha as [<-|Ha].
    + rewrite List.Forall_forall in Hx. apply Hx.
      rewrite <- (firstn_skipn k l). apply in_or_app. right. exact Hb.
    + apply (IH k Ha Hb).
Qed.

Lemma documents_at_in_range (docs : list Document) (labels : list Z) :
  Forall (fun label => 0 <= label < Z.of_nat (length docs)) labels ->
  Forall2 (fun label doc => nth_error docs (Z.to_nat label) = Some doc)
          labels (documents_at docs labels).
Proof. tidy.
  intros H. induction H as [|label rest Hl Hrest IH]; simpl; [constructor|].
  destruct (nth_error docs (Z.to_nat label)) as [doc|] eqn:Hdoc.
  - constructor; assumption.
  - apply nth_error_None in Hdoc. lia.
Qed.

Lemma NoDup_firstn {A : Type} (k : nat) (l : list A) :
  NoDup l -> NoDup (firstn k l).
Proof. tidy.
  intros H. revert k. induction H as [|x l Hx Hl IH]; intros [|k]; simpl;
    try constructor; [|apply IH].
  intros Hin. apply Hx. apply list_elem_of_In. apply list_elem_of_In in Hin.
  eapply firstn_incl, Hin.
Qed.

Lemma NoDup_map_to_nat (labels : list Z) :
  Forall (fun label => 0 <= label) labels ->
  NoDup labels -> NoDup (map Z.to_nat labels).
Proof. tidy.
  intros Hpos Hnd. induction Hnd as [|x l Hx Hl IH]; simpl; constructor.
  - intros Hin. apply Hx. apply list_elem_of_In.
    apply list_elem_of_In, in_map_iff in Hin. destruct Hin as (y & Hy & Hin).
    inversion Hpos as [|? ? Hx0 Hl0]; subst.
    rewrite List.Forall_forall in Hl0. specialize (Hl0 y Hin).
    replace x with y by lia. exact Hin.
  - apply IH. inversion Hpos; assumption.
Qed.

Lemma nearest_NoDup (index : Faiss.IndexFlatL2) (k : nat) (q : list R) :
  NoDup (map fst (nearest index k q)).
Proof. tidy.
  unfold nearest. rewrite <- firstn_map. apply NoDup_firstn.
  assert (Hperm : Permutation
            (map fst (Faiss.sort_hits (Faiss.candidates index q)))
            (map fst (Faiss.candidates index q)))
    by (apply Permutation_map, sort_hits_perm).
  rewrite Hperm. unfold Faiss.candidates.
  pose proof (labelled_NoDup 0 q (Faiss.xb index)) as Hnd.
  induction (Faiss.labelled 0 q (Faiss.xb index)) as [|h l IH];
    [constructor|].
  simpl in Hnd. inversion Hnd as [|? ? Hh Hl]; subst. simpl.
  destruct (Faiss.Rltb (snd h) Faiss.FLT_MAX); [|apply IH, Hl].
  simpl. constructor; [|apply IH, Hl].
  intros Hin. apply Hh. apply list_elem_of_In.
  apply list_elem_of_In, in_map_iff in Hin. destruct Hin as (y & Hy & Hin).
  apply in_map_iff. exists y. split; [exact Hy|].
  apply List.filter_In in Hin. tauto.
Qed.

Lemma nearest_full (index : Faiss.IndexFlatL2) (k : nat) (q : list R) :
  Forall (fun v => (Faiss.fvec_L2sqr q v < Faiss.FLT_MAX)%R) (Faiss.xb index) ->
  length (nearest index k q) = Nat.min k (Faiss.ntotal index).
Proof. tidy.
  intros Hfin. unfold nearest. rewrite length_firstn.
  rewrite (Permutation_length (sort_hits_perm _)).
  unfold Faiss.candidates. rewrite (labelled_finite _ _ _ Hfin).
  rewrite labelled_length. reflexivity.
Qed.

(** A stored vector that is not among the hits is no nearer to the query
    than any hit. *)
Lemma nearest_beats_the_rest (index : Faiss.IndexFlatL2) (k : nat)
  (q : list R) (h : Faiss.hit) (j : nat) (u : list R) :
  In h (nearest index k q) ->
  nth_error (Faiss.xb index) j = Some u ->
  ~ In (Z.of_nat j) (map fst (nearest index k q)) ->
  (snd h <= Faiss.fvec_L2sqr q u)%R.
Proof. tidy.
  intros Hh Hu Hj.
  destruct (Rlt_dec (Faiss.fvec_L2sqr q u) Faiss.FLT_MAX) as [Hfin|Hbig].
  - assert (Hc : In (Z.of_nat j, Faiss.fvec_L2sqr q u)
                    (Faiss.sort_hits (Faiss.candidates index q))).
    { apply sort_hits_In. unfold Faiss.candidates. apply List.filter_In.
      split; [|apply Rltb_true; exact Hfin].
      apply labelled_In. exists j, u. split; [exact Hu|reflexivity]. }
    rewrite <- (firstn_skipn k) in Hc. apply in_app_or in Hc.
    destruct Hc as [Hc|Hc].
    + exfalso. apply Hj. apply in_map_iff.
      exists (Z.of_nat j, Faiss.fvec_L2sqr q u). split; [reflexivity|exact Hc].
    + pose proof (sorted_firstn_skipn _ k _ h _ (candidates_sorted index q)
                    Hh Hc) as Hle.
      unfold Faiss.hit_le in Hle. cbn [fst snd] in Hle.
      destruct Hle as [Hlt|[Heq _]]; [lra|rewrite Heq; lra].
  - destruct (nearest_In _ _ _ _ Hh) as [Hlt _]. lra.
Qed.

Lemma sorted_map_in {A B : Type} (R : A -> A -> Prop) (R' : B -> B -> Prop)
  (f : A -> B) (l : list A) :
  (forall a b, In a l -> In b l -> R a b -> R' (f a) (f b)) ->
  StronglySorted R l -> StronglySorted R' (map f l).
Proof. tidy.
  intros Hf Hs. induction Hs as [|a l Hs IH Ha]; simpl; constructor.
  - apply IH. intros x y Hx Hy. apply Hf; right; assumption.
  - rewrite List.Forall_forall in Ha. apply List.Forall_forall.
    intros y Hy. apply in_map_iff in Hy. destruct Hy as (b & <- & Hb).
    apply Hf; [left; reflexivity|right; exact Hb|apply Ha, Hb].
Qed.


(** The positions of the hits, nearest first. *)
Lemma nearest_positions_sorted (index : Faiss.IndexFlatL2) (k : nat)
  (q : list R) :
  StronglySorted
    (fun i j => forall v u,
       nth_error (Faiss.xb index) i = Some v ->
       nth_error (Faiss.xb index) j = Some u ->
       (Faiss.fvec_L2sqr q v <= Faiss.fvec_L2sqr q u)%R)
    (map (fun h => Z.to_nat (fst h)) (nearest index k q)).
Proof. tidy.
  apply (sorted_map_in Faiss.hit_le); [|apply nearest_sorted].
  intros a b Ha Hb Hle v u Hv Hu.
  destruct (nearest_In _ _ _ _ Ha) as (_ & i & vi & Hi & ->).
  destruct (nearest_In _ _ _ _ Hb) as (_ & j & uj & Hj & ->).
  cbn [fst] in Hv, Hu. rewrite Nat2Z.id in Hv, Hu.
  assert (vi = v) by congruence. assert (uj = u) by congruence. subst.
  unfold Faiss.hit_le in Hle. cbn [fst snd] in Hle.
  destruct Hle as [Hlt|[Heq _]]; [lra|rewrite Heq; lra].
Qed.

Lemma documents_at_positions (docs : list Document) (labels : list Z) :
  Forall (fun label => 0 <= label < Z.of_nat (length docs)) labels ->
  Forall2 (fun i doc => nth_error docs i = Some doc)
          (map Z.to_nat labels) (documents_at docs labels).
Proof. tidy.
  intros H. pose proof (documents_at_in_range docs labels H) as Hat.
  clear H. induction Hat; simpl; constructor; assumption.
Qed.


(** X4. On a store whose index has one vector per document, a search for
    [k] documents, [k] between 1 and the number of documents, returns
    exactly [k] documents, taken from [k] different positions of the
    document list, in the order of the result row; every vector at a
    returned position is at least as near to the query vector as every
    vector at a position that was not returned.  (All distances are taken
    to be below the largest float32.) *)
Theorem similarity_search_returns_the_k_nearest_documents
  (s : CodeVectorStore) (w : World) (query : string) (k : Z)
  (index : Faiss.IndexFlatL2) (q : list R)
  (Hindex : faiss_index s = Some index)
  (Hntotal : Faiss.ntotal index = length (documents s))
  (Hencode : encode (embedding_model s) [query] = Ok [q])
  (Hdim : length q = Faiss.d index)
  (Hk : 0 < k <= Z.of_nat (length (documents s)))
  (Hfinite : Forall (fun v => (Faiss.fvec_L2sqr q v < Faiss.FLT_MAX)%R)
                    (Faiss.xb index)) :
  exists (positions : list nat) (results : list Document),
    similarity_search query k (s, w) = (Ok results, (s, w)) /\
    length results = Z.to_nat k /\
    NoDup positions /\
    Forall2 (fun i doc => nth_error (documents s) i = Some doc)
            positions results /\
    forall i j v u,
      In i positions -> ~ In j positions ->
      nth_error (Faiss.xb index) i = Some v ->
      nth_error (Faiss.xb index) j = Some u ->
      (Faiss.fvec_L2sqr q v <= Faiss.fvec_L2sqr q u)%R.
Proof.
  destruct (exists_last (l := documents s)) as (docs & last_doc & Hdocs).
  { intros Hnil. rewrite Hnil in Hk. simpl in Hk. lia. }
  pose proof (similarity_search_padded s w query k index q docs last_doc
                Hindex Hdocs ltac:(lia) Hencode Hdim ltac:(lia)) as Hrun.
  cbv zeta in Hrun.
  set (hits := nearest index (Z.to_nat k) q) in *.
  assert (Hlen : length hits = Z.to_nat k).
  { unfold hits. rewrite (nearest_full _ _ _ Hfinite). lia. }
  rewrite Hlen, Nat.sub_diag in Hrun. cbn [repeat] in Hrun.
  rewrite app_nil_r in Hrun.
  assert (Hrange : Forall (fun label =>
                     0 <= label < Z.of_nat (length (documents s)))
                     (map fst hits)).
  { rewrite <- Hntotal. apply nearest_labels_range. }
  pose proof (documents_at_in_range _ _ Hrange) as Hat.
  exists (map Z.to_nat (map fst hits)),
         (documents_at (documents s) (map fst hits)).
  split; [exact Hrun|]. split.
  { rewrite <- (Forall2_length _ _ _ Hat), length_map. exact Hlen. }
  split.
  { apply NoDup_map_to_nat; [|apply nearest_NoDup].
    eapply List.Forall_impl; [|exact Hrange]. simpl. intros; lia. }
  split.
  { clear -Hat. induction Hat; simpl; constructor; assumption. }
  intros i j v u Hi Hj Hv Hu.
  apply in_map_iff in Hi. destruct Hi as (label & Hlabel & Hi).
  apply in_map_iff in Hi. destruct Hi as (h & Hfst & Hh).
  destruct (nearest_In _ _ _ _ Hh) as (_ & i' & v' & Hv' & Hheq).
  subst h. simpl in Hfst. subst label. rewrite Nat2Z.id in Hlabel.
  subst i'. assert (v' = v) by congruence. subst v'.
  apply (nearest_beats_the_rest index (Z.to_nat k) q
           (Z.of_nat i, Faiss.fvec_L2sqr q v) j u Hh Hu).
  intros Hin. apply Hj. apply in_map_iff. exists (Z.of_nat j).
  split; [apply Nat2Z.id|exact Hin].
Qed.

Lemma documents_at_perm (docs : list Document) (l l' : list Z) :
  Permutation l l' ->
  Permutation (documents_at docs l) (documents_at docs l').
Proof. tidy.
  intros H. induction H as [|x l l' H IH|x y l|l l' l'' H1 IH1 H2 IH2].
  - constructor.
  - simpl. destruct (nth_error docs (Z.to_nat x)); [constructor|]; exact IH.
  - simpl. destruct (nth_error docs (Z.to_nat x)), (nth_error docs (Z.to_nat y));
      try reflexivity. apply perm_swap.
  - etransitivity; eassumption.
Qed.

Lemma labelled_labels (i : nat) (q : list R) (vectors : list (list R)) :
  map fst (Faiss.labelled i q vectors)
  = map Z.of_nat (seq i (length vectors)).
Proof. tidy.
  revert i. induction vectors as [|v vs IH]; intros i; simpl;
    [reflexivity|]. rewrite IH. reflexivity.
Qed.

Lemma documents_at_seq (pre docs : list Document) :
  documents_at (pre ++ docs)
               (map Z.of_nat (seq (length pre) (length docs)))
  = docs.
Proof. tidy.
  revert pre. induction docs as [|d docs IH]; intros pre; [reflexivity|].
  cbn [length seq map documents_at]. rewrite Nat2Z.id.
  rewrite nth_error_app2 by lia. rewrite Nat.sub_diag. cbn [nth_error].
  f_equal. specialize (IH (pre ++ [d])).
  rewrite <- app_assoc, length_app in IH. cbn [length app] in IH.
  rewrite Nat.add_1_r in IH. exact IH.
Qed.

(** X5. On a store whose index holds one vector per document, all at a
    distance below the largest float32 from the query vector, a search
    for at least as many documents as the store holds returns every
    stored document once, nearest first, and then fills the remaining
    places with the last document of the list: for [n] documents and
    [k >= n] the result has [k] entries, the first [n] being the documents
    at the positions [0 .. n-1] rearranged in order of non-decreasing
    distance, the other [k - n] copies of the last document. *)
Theorem similarity_search_beyond_the_store_repeats_the_last_document
  (s : CodeVectorStore) (w : World) (query : string) (k : Z)
  (index : Faiss.IndexFlatL2) (q : list R)
  (docs : list Document) (last_doc : Document)
  (Hindex : faiss_index s = Some index)
  (Hdocs : documents s = docs ++ [last_doc])
  (Hntotal : Faiss.ntotal index = length (documents s))
  (Hencode : encode (embedding_model s) [query] = Ok [q])
  (Hdim : length q = Faiss.d index)
  (Hk : Z.of_nat (length (documents s)) <= k)
  (Hfinite : Forall (fun v => (Faiss.fvec_L2sqr q v < Faiss.FLT_MAX)%R)
                    (Faiss.xb index)) :
  exists (positions : list nat) (ranked : list Document),
    similarity_search query k (s, w)
    = (Ok (ranked
             ++ repeat last_doc (Z.to_nat k - length (documents s))),
       (s, w)) /\
    Permutation positions (seq 0 (length (documents s))) /\
    Forall2 (fun i doc => nth_error (documents s) i = Some doc)
            positions ranked /\
    StronglySorted
      (fun i j => forall v u,
         nth_error (Faiss.xb index) i = Some v ->
         nth_error (Faiss.xb index) j = Some u ->
         (Faiss.fvec_L2sqr q v <= Faiss.fvec_L2sqr q u)%R)
      positions /\
    Permutation ranked (documents s).
Proof.
  assert (Hpos : (0 < length (documents s))%nat)
    by (rewrite Hdocs, length_app; simpl; lia).
  pose proof (similarity_search_padded s w query k index q docs last_doc
                Hindex Hdocs ltac:(lia) Hencode Hdim ltac:(lia)) as Hrun.
  cbv zeta in Hrun.
  pose proof (nearest_positions_sorted index (Z.to_nat k) q) as Hsorted.
  pose proof (nearest_labels_range index (Z.to_nat k) q) as Hrange.
  set (hits := nearest index (Z.to_nat k) q) in *.
  assert (Hlen : length hits = length (documents s)).
  { unfold hits. rewrite (nearest_full _ _ _ Hfinite). lia. }
  rewrite Hlen in Hrun.
  assert (Hall : hits = Faiss.sort_hits (Faiss.labelled 0 q (Faiss.xb index))).
  { unfold hits, nearest, Faiss.candidates.
    rewrite (labelled_finite _ _ _ Hfinite). apply firstn_all2.
    rewrite (Permutation_length (sort_hits_perm _)), labelled_length.
    unfold Faiss.ntotal in Hntotal. lia. }
  assert (Hlabels : Permutation (map fst hits)
                      (map Z.of_nat (seq 0 (length (documents s))))).
  { rewrite Hall, (Permutation_map fst (sort_hits_perm _)), labelled_labels.
    unfold Faiss.ntotal in Hntotal. rewrite Hntotal. reflexivity. }
  exists (map (fun h => Z.to_nat (fst h)) hits),
         (documents_at (documents s) (map fst hits)).
  split; [exact Hrun|]. split.
  { rewrite <- (map_map fst Z.to_nat).
    rewrite (Permutation_map Z.to_nat Hlabels), map_map.
    erewrite map_ext; [rewrite map_id; reflexivity|].
    intros i. apply Nat2Z.id. }
  split.
  { rewrite <- (map_map fst Z.to_nat). apply documents_at_positions.
    rewrite <- Hntotal. exact Hrange. }
  split; [exact Hsorted|].
  rewrite (documents_at_perm _ _ _ Hlabels).
  pose proof (documents_at_seq [] (documents s)) as Hseq.
  cbn [app length] in Hseq. rewrite Hseq. reflexivity.
Qed.

(** *** What [save] and [load] leave behind *)

Lemma prefix_refl (s : string) : String.prefix s s = true.
Proof. tidy.
  induction s as [|c s IH]; simpl; [reflexivity|].
  destruct (ascii_dec c c) as [_|Hne]; [exact IH|contradiction].
Qed.

(** X6. Whether it succeeds or raises, [save] leaves the store object as
    it was and changes nothing of the world but its own paths: the
    directory [path] with the directories above it (which [os.makedirs]
    creates when they are missing) and the three files
    [faiss_index.bin], [documents.pkl] and [model_info.txt] in it.  Every
    path that is neither a leading part of [path] nor one of the three
    files holds what it held, no model is loaded and no repository
    touched. *)
Theorem save_touches_only_its_own_paths
  (path : string) (s : CodeVectorStore) (w : World) :
  let after := snd (save path (s, w)) in
  fst after = s /\
  repos (snd after) = repos w /\
  net_clock (snd after) = net_clock w /\
  events (snd after) = events w /\
  forall p : string,
    String.prefix p path = false ->
    p <> index_file path -> p <> documents_file path ->
    p <> model_info_file path ->
    fs (snd after) !! p = fs w !! p.
Proof. tidy.
  cbv zeta. unfold save, bind, lift_snd, get_self, ret, os_makedirs,
    write_file, index_file, documents_file, model_info_file.
  repeat (match goal with
          | |- context [match ?m !! ?p0 with _ => _ end] =>
              destruct (m !! p0) as [[]|] eqn:?
          | |- context [match faiss_index ?s0 with _ => _ end] =>
              destruct (faiss_index s0) eqn:?
          end; cbn [fst snd fs repos net_clock events set_fs]);
    (split; [reflexivity|]); (split; [reflexivity|]);
    (split; [reflexivity|]); (split; [reflexivity|]);
    intros p H0 H2 H3 H4;
    (assert (H1 : p <> path)
       by (intros ->; rewrite prefix_refl in H0; discriminate));
    rewrite ?lookup_insert_ne by congruence; reflexivity.
Qed.

(** X7. [save] never removes a file.  A store that has no index (its
    embeddings were never created) and is saved into a directory that
    holds the index of an earlier save writes its documents and its model
    name and leaves the older index file where it is; a [load] from that
    directory then succeeds and yields the older index together with the
    newer documents. *)
Theorem save_without_index_leaves_the_older_index_file
  (path : string) (s : CodeVectorStore) (older : Faiss.IndexFlatL2)
  (w : World)
  (Hnone : faiss_index s = None)
  (Hdir : fs w !! path = Some Directory)
  (Holder : fs w !! index_file path = Some (FaissIndexFile older))
  (Hdocs : fs w !! documents_file path <> Some Directory)
  (Hinfo : fs w !! model_info_file path <> Some Directory) :
  exists w' : World,
    save path (s, w) = (Ok tt, (s, w')) /\
    fs w' !! index_file path = Some (FaissIndexFile older) /\
    fs w' !! documents_file path = Some (PickleFile (documents s)) /\
    forall s1 : CodeVectorStore, exists s2 w'',
      load path (s1, w') = (Ok true, (s2, w'')) /\
      faiss_index s2 = Some older /\ documents s2 = documents s.
Proof.
  destruct (artifact_paths_distinct path) as (Ni & Nd & Nm & Nid & Nim & Ndm).
  eexists. split.
  { unfold save, bind, lift_snd, get_self.
    rewrite (os_makedirs_ok _ _ (or_intror Hdir)), Hnone.
    fold (documents_file path) (model_info_file path). unfold ret.
    rewrite write_file_ok
      by (simpl; rewrite !lookup_insert_ne by congruence; exact Hdocs).
    rewrite write_file_ok
      by (simpl; rewrite !lookup_insert_ne by congruence; exact Hinfo).
    reflexivity. }
  cbn [fs set_fs].
  assert (Hi : <[model_info_file path := TextFile (embedding_model_name s)]>
                 (<[documents_file path := PickleFile (documents s)]>
                    (<[path := Directory]> (fs w))) !! index_file path
               = Some (FaissIndexFile older))
    by (rewrite !lookup_insert_ne by congruence; exact Holder).
  assert (Hd : <[model_info_file path := TextFile (embedding_model_name s)]>
                 (<[documents_file path := PickleFile (documents s)]>
                    (<[path := Directory]> (fs w))) !! documents_file path
               = Some (PickleFile (documents s))).
  { rewrite lookup_insert_ne by congruence.
    match goal with |- ?m !! ?k = _ => 
      assert (H : m !! k = Some (PickleFile (documents s))); [|exact H] end.
    apply (proj2 (lookup_insert_Some _ _ _ _ _)). left. split; reflexivity. }
  split; [exact Hi|]. split; [exact Hd|].
  intros s1. eexists. eexists. split.
  - eapply (load_existing path s1 _ Directory (Some older)
              (Some (documents s)) (Some (embedding_model_name s))).
    + simpl. rewrite !lookup_insert_ne by congruence.
      apply (proj2 (lookup_insert_Some _ _ _ _ _)). left. split; reflexivity.
    + exact Hi.
    + exact Hd.
    + simpl. apply (proj2 (lookup_insert_Some _ _ _ _ _)). left.
      split; reflexivity.
  - split; reflexivity.
Qed.

Lemma add_all_counter (docs : list Document) (ds : DocumentStore) :
  _counter (fold_left (fun ds doc => add_document doc ds) docs ds)
  = (_counter ds + length docs)%nat.
Proof. tidy.
  revert ds. induction docs as [|d docs IH]; intros ds; simpl; [lia|].
  rewrite IH. simpl. lia.
Qed.

Lemma add_all_lookup (docs : list Document) (ds : DocumentStore) (key : nat) :
  _dict (fold_left (fun ds doc => add_document doc ds) docs ds) !! key
  = if (_counter ds <=? key)%nat && (key <? _counter ds + length docs)%nat
    then docs !! (key - _counter ds)%nat
    else _dict ds !! key.
Proof. tidy.
  revert ds. induction docs as [|d docs IH]; intros ds.
  - simpl. destruct (Nat.leb_spec (_counter ds) key),
      (Nat.ltb_spec key (_counter ds + 0)); simpl; try reflexivity; lia.
  - cbn [fold_left]. rewrite IH. cbn [add_document _counter _dict length].
    destruct (Nat.leb_spec (S (_counter ds)) key),
      (Nat.ltb_spec key (S (_counter ds) + length docs)),
      (Nat.leb_spec (_counter ds) key),
      (Nat.ltb_spec key (_counter ds + S (length docs)));
      cbn [andb]; try lia.
    + replace (key - _counter ds)%nat with (S (key - S (_counter ds))) by lia.
      reflexivity.
    + rewrite lookup_insert_ne by lia. reflexivity.
    + replace key with (_counter ds) by lia. rewrite Nat.sub_diag.
      simpl. apply (proj2 (lookup_insert_Some _ _ _ _ _)). left.
      split; reflexivity.
    + rewrite lookup_insert_ne by lia. reflexivity.
Qed.

(** X8. Every successful [create_embeddings] on a non-empty document list
    (with a provider that returns one vector per text) replaces the index
    by a new one of exactly [len(documents)] vectors, but adds the
    documents to the document store on top of what it holds: the counter
    grows by [len(documents)], the new keys hold the documents in order
    and the old keys keep their entries.  A second call
    therefore leaves every document in the document store twice. *)
Theorem create_embeddings_replaces_the_index_and_appends_to_the_docstore
  (s s' : CodeVectorStore) (w w' : World)
  (Hencode : forall name texts, length (st_encode name texts) = length texts)
  (Hdocs : documents s <> [])
  (Hrun : create_embeddings (s, w) = (Ok tt, (s', w'))) :
  w' = w /\ documents s' = documents s /\
  (exists index,
     faiss_index s' = Some index /\
     embeddings s' = Some (Faiss.xb index) /\
     Faiss.ntotal index = length (documents s)) /\
  _counter (docstore s')
  = (_counter (docstore s) + length (documents s))%nat /\
  (forall i : nat, (i < length (documents s))%nat ->
     _dict (docstore s') !! (_counter (docstore s) + i)%nat
     = documents s !! i) /\
  (forall key : nat, (key < _counter (docstore s))%nat ->
     _dict (docstore s') !! key = _dict (docstore s) !! key).
Proof.
  rewrite (create_embeddings_cases s w Hdocs) in Hrun.
  destruct (encode (embedding_model s) (map page_content (documents s)))
    as [vectors|e] eqn:Henc; [|discriminate].
  destruct (Np.shape1 vectors) as [dimension|]; [|discriminate].
  destruct (Faiss.add (Faiss.new dimension) vectors) as [index|e] eqn:Hadd;
    [|discriminate].
  inversion Hrun; subst s' w'; clear Hrun.
  destruct (faiss_add_new _ _ _ Hadd) as (_ & Hxb & _).
  apply (encode_length _ _ _ Hencode) in Henc. rewrite length_map in Henc.
  unfold embedded_store. cbn [documents faiss_index embeddings docstore].
  split; [reflexivity|]. split; [reflexivity|]. split.
  { exists index. rewrite Hxb. unfold Faiss.ntotal. rewrite Hxb. auto. }
  split; [apply add_all_counter|]. split.
  - intros i Hi. rewrite add_all_lookup.
    destruct (Nat.leb_spec (_counter (docstore s)) (_counter (docstore s) + i)),
      (Nat.ltb_spec (_counter (docstore s) + i)
                    (_counter (docstore s) + length (documents s)));
      cbn [andb]; try lia.
    f_equal. lia.
  - intros key Hkey. rewrite add_all_lookup.
    destruct (Nat.leb_spec (_counter (docstore s)) key); [lia|reflexivity].
Qed.

(** *** The manager *)

(** A non-forced [initialize_repository] over an existing persistence
    directory whose artifacts are each missing or readable. *)
Lemma initialize_loads (self : CodePalManager)
  (w : World) (x : FileData) (oi : option Faiss.IndexFlatL2)
  (od : option (list Document)) (ot : option string) :
  fs w !! vector_store_path = Some x ->
  fs w !! index_file vector_store_path = FaissIndexFile <$> oi ->
  fs w !! documents_file vector_store_path = PickleFile <$> od ->
  fs w !! model_info_file vector_store_path = TextFile <$> ot ->
  exists model n evs, forall repo_path : string,
    let w1 := world_after w n evs in
    let vs := loaded_store (fresh_store EMBEDDING_MODEL (Some model)) w1
                           oi od ot in
    initialize_repository repo_path false (self, w)
    = if llm_ready
      then (Ok (LoadedExisting repo_path),
            ({| vector_store := Some vs;
                agent := Some {| agent_vector_store := Some vs |};
                processor := processor self |}, loaded_world w1 ot))
      else (Ok (ErrorInitializing ValueError),
            ({| vector_store := Some vs; agent := agent self;
                processor := processor self |}, loaded_world w1 ot)).
Proof.
  intros Hp Hi Hd Ht.
  destruct (init_returns_store w) as (model & n & evs & Hinit).
  exists model, n, evs. intros repo_path. cbv zeta.
  set (w1 := world_after w n evs) in *.
  pose proof (load_existing vector_store_path
                (fresh_store EMBEDDING_MODEL (Some model)) w1 x oi od ot
                Hp Hi Hd Ht) as Hload.
  unfold initialize_repository, try_except.
  unfold bind at 1. cbn [negb andb].
  unfold lift_snd at 1, os_path_exists at 1. rewrite Hp.
  rewrite bool_decide_eq_true_2 by (eexists; reflexivity).
  unfold bind at 1, lift_snd at 1. rewrite Hinit.
  unfold bind at 1, update_manager at 1.
  unfold bind at 1.
  erewrite on_vector_store_run; [|reflexivity|exact Hload].
  unfold bind, get_manager, CodePalAgent_init, update_manager, ret, raise.
  destruct llm_ready; reflexivity.
Qed.

Lemma loaded_world_keeps (w : World) (ot : option string) :
  fs (loaded_world w ot) = fs w /\ repos (loaded_world w ot) = repos w.
Proof.
  destruct ot as [text|]; [|split; reflexivity]. simpl.
  destruct (initialize_returns (Py.strip text) w) as (model & n & evs & ->).
  split; reflexivity.
Qed.

(** X9. Without [force_reprocess], once the persistence directory exists
    (each of its artifacts missing or readable) and the agent can be set
    up, [initialize_repository] answers "Loaded existing vector store"
    for every repository path alike: the store it installs holds the
    persisted documents and index, the same for every path, the
    repository is not read and no file is written.  A directory with no
    artifact in it is "loaded" as a store without documents and without
    index. *)
Theorem initialize_repository_loads_the_persisted_store_for_every_path
  (self : CodePalManager) (w : World) (x : FileData)
  (oi : option Faiss.IndexFlatL2) (od : option (list Document))
  (ot : option string)
  (Hllm : llm_ready = true)
  (Hpath : fs w !! vector_store_path = Some x)
  (Hindex : fs w !! index_file vector_store_path = FaissIndexFile <$> oi)
  (Hdocs : fs w !! documents_file vector_store_path = PickleFile <$> od)
  (Hinfo : fs w !! model_info_file vector_store_path = TextFile <$> ot) :
  exists (vs : CodeVectorStore) (w' : World),
    (forall repo_path : string,
       initialize_repository repo_path false (self, w)
       = (Ok (LoadedExisting repo_path),
          ({| vector_store := Some vs;
              agent := Some {| agent_vector_store := Some vs |};
              processor := processor self |}, w'))) /\
    documents vs = default [] od /\ faiss_index vs = oi /\
    docstore vs = docstore_of (documents vs) /\
    fs w' = fs w /\ repos w' = repos w.
Proof.
  destruct (initialize_loads self w x oi od ot Hpath Hindex Hdocs Hinfo)
    as (model & n & evs & Hrun).
  rewrite Hllm in Hrun. cbv zeta in Hrun.
  eexists. eexists. split; [exact Hrun|].
  destruct (loaded_world_keeps (world_after w n evs) ot) as [Hfs Hrepos].
  rewrite Hfs, Hrepos.
  destruct od, oi; repeat split; reflexivity.
Qed.

(** What a repository with documents leaves behind, whether or not the
    agent can be set up afterwards. *)
Lemma process_and_save_built (repo_path : string) (self : CodePalManager)
  (w : World) (docs : list Document) :
  provider_well_shaped ->
  process_repository repo_path w = (Ok docs, w) ->
  docs <> [] ->
  save_target_ok w vector_store_path ->
  exists vs index w',
    process_and_save repo_path (self, w)
    = (if llm_ready
       then (Ok (SuccessfullyProcessed (length docs) repo_path),
             ({| vector_store := Some vs;
                 agent := Some {| agent_vector_store := Some vs |};
                 processor := Some CodeProcessor_init |}, w'))
       else (Raise ValueError,
             ({| vector_store := Some vs; agent := agent self;
                 processor := Some CodeProcessor_init |}, w'))) /\
    documents vs = docs /\ faiss_index vs = Some index /\ aligned vs /\
    fs w' = saved_fs vector_store_path index docs (embedding_model_name vs)
                     (fs w).
Proof.
  intros Hshape Hproc Hne Hok.
  destruct (init_returns_store w) as (model & n & evs & Hinit).
  set (w1 := world_after w n evs) in *.
  destruct (create_embeddings_ok
              (set_documents docs (fresh_store EMBEDDING_MODEL (Some model)))
              model w1 Hshape Hne eq_refl eq_refl)
    as (vectors & dimension & Hlen & Hcreate).
  simpl in Hlen, Hcreate.
  set (index := {| Faiss.d := dimension; Faiss.xb := vectors |}) in *.
  set (vs := {| embedding_model_name := EMBEDDING_MODEL;
                embedding_model := Some model; documents := docs;
                embeddings := Some vectors;
                faiss_index := Some index;
                docstore := docstore_of docs |}) in *.
  exists vs, index.
  eexists.
  split; [|split; [reflexivity|split; [reflexivity|split]]].
  - unfold process_and_save.
    unfold bind at 1, update_manager at 1.
    unfold bind at 1, lift_snd at 1. rewrite Hproc.
    destruct docs as [|doc docs'] eqn:Hdocs; [congruence|]. rewrite <- Hdocs in *.
    unfold bind at 1, lift_snd at 1. rewrite Hinit.
    unfold bind at 1, update_manager at 1.
    unfold bind at 1.
    erewrite on_vector_store_run; [|reflexivity|reflexivity].
    unfold bind at 1.
    erewrite on_vector_store_run; [|reflexivity|exact Hcreate].
    unfold bind at 1.
    erewrite on_vector_store_run;
      [|reflexivity|apply (save_ok _ vs w1 index eq_refl); exact Hok].
    unfold bind, get_manager, CodePalAgent_init, update_manager, ret, raise.
    destruct llm_ready; reflexivity.
  - apply aligned_docstore_of. exact Hlen.
  - reflexivity.
Qed.

(** X10. When the agent cannot be set up (no API key for the configured
    language model), a forced [initialize_repository] of a repository
    with documents returns the error message, but only after it has built
    the new store, written its three artifacts and installed it in the
    manager: the manager keeps its previous agent (none at first) beside
    the new store, and [get_repository_info] reports the repository as
    loaded with all its documents. *)
Theorem initialize_repository_fails_after_the_store_is_saved
  (repo_path : string) (self : CodePalManager) (w : World)
  (docs : list Document)
  (Hshape : provider_well_shaped)
  (Hllm : llm_ready = false)
  (Hrepo : process_repository repo_path w = (Ok docs, w))
  (Hdocs : docs <> [])
  (Htarget : save_target_ok w vector_store_path) :
  exists (vs : CodeVectorStore) (index : Faiss.IndexFlatL2)
         (self' : CodePalManager) (w' : World),
    initialize_repository repo_path true (self, w)
    = (Ok (ErrorInitializing ValueError), (self', w')) /\
    vector_store self' = Some vs /\ agent self' = agent self /\
    documents vs = docs /\ faiss_index vs = Some index /\ aligned vs /\
    fs w' !! index_file vector_store_path = Some (FaissIndexFile index) /\
    fs w' !! documents_file vector_store_path = Some (PickleFile docs) /\
    get_repository_info self'
    = RepositoryLoaded (length docs)
        (match agent self with
         | Some a => get_available_tools a
         | None => []
         end).
Proof.
  destruct (process_and_save_built repo_path self w docs Hshape Hrepo Hdocs
              Htarget) as (vs & index & w' & Hrun & Hd & Hi & Hal & Hfs).
  rewrite Hllm in Hrun.
  exists vs, index. eexists. exists w'.
  split.
  { rewrite initialize_forced. unfold try_except. rewrite Hrun. reflexivity. }
  cbn [vector_store agent].
  destruct (saved_fs_lookup vector_store_path index docs
              (embedding_model_name vs) (fs w)) as (_ & Hsi & Hsd & _).
  rewrite Hfs.
  repeat (split; [first [reflexivity | assumption]|]).
  unfold get_repository_info. cbn [vector_store agent]. rewrite Hd.
  reflexivity.
Qed.

(** X11. After a forced [initialize_repository] that succeeds on a
    repository with documents, [get_repository_info] reports the
    repository as loaded, counts exactly the documents that were
    processed and lists the four tools, the search tool first. *)
Theorem repository_info_after_a_successful_initialization
  (repo_path : string) (self : CodePalManager) (w : World)
  (docs : list Document)
  (Hshape : provider_well_shaped)
  (Hllm : llm_ready = true)
  (Hrepo : process_repository repo_path w = (Ok docs, w))
  (Hdocs : docs <> [])
  (Htarget : save_target_ok w vector_store_path) :
  exists (self' : CodePalManager) (w' : World),
    initialize_repository repo_path true (self, w)
    = (Ok (SuccessfullyProcessed (length docs) repo_path), (self', w')) /\
    get_repository_info self'
    = RepositoryLoaded (length docs)
        ["file_search_tool"; "file_reader_tool"; "ast_parser_tool";
         "directory_lister_tool"].
Proof.
  destruct (process_and_save_built repo_path self w docs Hshape Hrepo Hdocs
              Htarget) as (vs & index & w' & Hrun & Hd & _).
  rewrite Hllm in Hrun.
  eexists. exists w'. split.
  { rewrite initialize_forced. unfold try_except. rewrite Hrun. reflexivity. }
  unfold get_repository_info. cbn [vector_store agent]. rewrite Hd.
  reflexivity.
Qed.

(** *** The search tool *)

Lemma collect_entries_eq (docs : list Document) (labels : list Z) :
  collect_entries docs labels
  = match collect_results docs labels with
    | Ok results => Ok (map search_entry results)
    | Raise e => Raise e
    end.
Proof. tidy.
  induction labels as [|idx rest IH]; [reflexivity|]. simpl.
  destruct (idx <? Z.of_nat (length docs)); [|exact IH].
  destruct (Py.getitem docs idx) as [doc|]; [|reflexivity].
  rewrite IH. destruct (collect_results docs rest); reflexivity.
Qed.

(** X12. The search tool an agent builds over its store answers with
    what [similarity_search(query, 5)] finds on that store: the entries
    of the found documents joined by newlines, the "no relevant files"
    text when nothing is found, and an error reply for the exception the
    search raises.  They differ on a store without index: there
    [similarity_search] returns no document, and the tool replies with an
    error. *)
Theorem file_search_tool_formats_what_similarity_search_finds
  (s : CodeVectorStore) (w : World) (query : string) :
  let tool := FileSearchTool_init (Some s) (embedding_model s) in
  match faiss_index s with
  | Some _ =>
      FileSearchTool_run tool query
      = match fst (similarity_search query 5 (s, w)) with
        | Ok [] => Reply "No relevant files found for the query."
        | Ok found => Reply (str_join newline (map search_entry found))
        | Raise e => SearchError e
        end
  | None =>
      similarity_search query 5 (s, w) = (Ok [], (s, w)) /\
      exists e, FileSearchTool_run tool query = SearchError e
  end.
Proof. tidy.
  cbv zeta. unfold FileSearchTool_run, FileSearchTool_init.
  cbn [_vector_store _embedding_model].
  destruct (faiss_index s) as [index|] eqn:Hindex.
  - unfold similarity_search, bind, get_self, of_result, of_option, ret, raise.
    rewrite Hindex.
    destruct (encode (embedding_model s) [query]) as [q|e]; [|reflexivity].
    cbn [fst].
    destruct (Faiss.search index q 5) as [DI|e]; [|reflexivity].
    cbn [fst].
    destruct (Py.getitem (snd DI) 0) as [row|]; [|reflexivity].
    cbn [fst]. rewrite collect_entries_eq.
    destruct (collect_results (documents s) row) as [[|d found]|e];
      reflexivity.
  - split; [apply similarity_search_without_index; exact Hindex|].
    destruct (encode (embedding_model s) [query]) as [q|e]; eexists;
      reflexivity.
Qed.

(** *** A store reloaded under another provider *)

(** X13. [load] resolves the provider again from the saved model name and
    does not compare it with the index it reads.  A store built with the
    local fallback provider (32 components) searches successfully; saved
    and loaded again at a time when the named model can be downloaded, it
    comes back with the same index and documents but with the downloaded
    model as provider, and when that model's vectors do not have 32
    components every search on the loaded store raises AssertionError. *)
Theorem reloaded_store_cannot_search_when_the_provider_changed
  (path : string) (s s1 : CodeVectorStore) (w : World)
  (index : Faiss.IndexFlatL2) (query : string) (k : Z) (q : list R)
  (docs : list Document) (last_doc : Document)
  (Hindex : faiss_index s = Some index)
  (Hlocal : embedding_model s = Some (FallbackEmbeddingModel 128))
  (Hd : Faiss.d index = 32%nat)
  (Hdocs : documents s = docs ++ [last_doc])
  (Hntotal : (Faiss.ntotal index <= length (documents s))%nat)
  (Htarget : save_target_ok w path)
  (Honline : st_available (net_clock w) (Py.strip (embedding_model_name s))
             = true)
  (Hencode : st_encode (Py.strip (embedding_model_name s)) [query] = [q])
  (Hother : length q <> 32%nat)
  (Hk : 0 < k) :
  (exists found, similarity_search query k (s, w) = (Ok found, (s, w))) /\
  exists (w2 : World) (s2 : CodeVectorStore) (w3 : World),
    save path (s, w) = (Ok tt, (s, w2)) /\
    load path (s1, w2) = (Ok true, (s2, w3)) /\
    faiss_index s2 = Some index /\ documents s2 = documents s /\
    embedding_model s2
    = Some (SentenceTransformer (Py.strip (embedding_model_name s))) /\
    similarity_search query k (s2, w3) = (Raise AssertionError, (s2, w3)).
Proof.
  split.
  { eexists.
    apply (similarity_search_padded s w query k index
             (fallback_embed 128 query) docs last_doc Hindex Hdocs Hntotal).
    - rewrite Hlocal. reflexivity.
    - rewrite fallback_embed_length, Hd. reflexivity.
    - exact Hk. }
  set (name := Py.strip (embedding_model_name s)) in *.
  set (w2 := set_fs (saved_fs path index (documents s)
                              (embedding_model_name s) (fs w)) w).
  destruct (saved_fs_lookup path index (documents s) (embedding_model_name s)
              (fs w)) as (Hp & Hi & Hdd & Hm).
  pose proof (load_existing path s1 w2 Directory (Some index)
                (Some (documents s)) (Some (embedding_model_name s))
                Hp Hi Hdd Hm) as Hload.
  assert (Hmodel : _initialize_embedding_model name w2
                   = (Ok (Some (SentenceTransformer name)),
                      world_after w2 1 [LoadModel name])).
  { pose proof (initialize_cases name w2) as Hcases. cbv zeta in Hcases.
    change (net_clock w2) with (net_clock w) in Hcases.
    rewrite Honline in Hcases. exact Hcases. }
  exists w2. eexists. eexists.
  split; [apply save_ok; assumption|].
  split; [exact Hload|].
  unfold loaded_store, resolved. fold name. rewrite Hmodel.
  cbn [fst faiss_index documents embedding_model].
  split; [reflexivity|]. split; [reflexivity|]. split; [reflexivity|].
  unfold similarity_search, bind, get_self, of_result, of_option, ret, raise.
  cbn [faiss_index embedding_model encode].
  rewrite Hencode. unfold Faiss.search.
  destruct (Z.leb_spec k 0) as [Hle|_]; [lia|].
  cbn [forallb]. rewrite Hd.
  destruct (Nat.eqb_spec (length q) 32) as [Heq|_]; [contradiction|].
  reflexivity.
Qed.

(** *** An unreadable artifact *)

Lemma load_unreadable_documents (path : string) (s : CodeVectorStore)
  (w : World) (x data : FileData) (index : Faiss.IndexFlatL2) :
  fs w !! path = Some x ->
  fs w !! index_file path = Some (FaissIndexFile index) ->
  fs w !! documents_file path = Some data ->
  (forall docs, data <> PickleFile docs) ->
  load path (s, w)
  = (Raise UnpicklingError, (set_faiss_index (Some index) s, w)).
Proof. tidy.
  intros Hp Hi Hd Hbad.
  unfold load, bind at 1, lift_snd at 1.
  rewrite (exists_true _ _ _ Hp). cbn [negb].
  fold (index_file path) (documents_file path) (model_info_file path).
  unfold bind, lift_snd, update_self, get_self, ret, faiss_read_index,
    pickle_load.
  rewrite (exists_true _ _ _ Hi), Hi, (exists_true _ _ _ Hd), Hd.
  destruct data; try reflexivity. exfalso. eapply Hbad. reflexivity.
Qed.

(** X14. [load] is not all-or-nothing, and the manager does not fall back
    to processing when it fails.  With a readable index file and a
    document file that is not a readable document list in the persistence
    directory, a non-forced [initialize_repository] returns the error
    message for every repository path: the manager is left with a store
    that holds the index read so far and no document, its agent and
    processor are the previous ones, the repository is not processed and
    no file is written. *)
Theorem unreadable_document_list_blocks_every_initialization
  (self : CodePalManager) (w : World) (x data : FileData)
  (index : Faiss.IndexFlatL2)
  (Hpath : fs w !! vector_store_path = Some x)
  (Hindex : fs w !! index_file vector_store_path
            = Some (FaissIndexFile index))
  (Hdocs : fs w !! documents_file vector_store_path = Some data)
  (Hbad : forall docs, data <> PickleFile docs) :
  exists (e : Exception) (vs : CodeVectorStore) (w' : World),
    (forall repo_path : string,
       initialize_repository repo_path false (self, w)
       = (Ok (ErrorInitializing e),
          ({| vector_store := Some vs; agent := agent self;
              processor := processor self |}, w'))) /\
    faiss_index vs = Some index /\ documents vs = [] /\
    fs w' = fs w /\ repos w' = repos w.
Proof.
  destruct (init_returns_store w) as (model & n & evs & Hinit).
  set (w1 := world_after w n evs) in *.
  pose proof (load_unreadable_documents vector_store_path
                (fresh_store EMBEDDING_MODEL (Some model)) w1 x data index
                Hpath Hindex Hdocs Hbad) as Hload.
  exists UnpicklingError,
    (set_faiss_index (Some index) (fresh_store EMBEDDING_MODEL (Some model))),
    w1.
  split; [|repeat split; reflexivity].
  intros repo_path.
  unfold initialize_repository, try_except.
  unfold bind at 1. cbn [negb andb].
  unfold lift_snd at 1, os_path_exists at 1. rewrite Hpath.
  rewrite bool_decide_eq_true_2 by (eexists; reflexivity).
  unfold bind at 1, lift_snd at 1. rewrite Hinit.
  unfold bind at 1, update_manager at 1.
  unfold bind at 1.
  erewrite on_vector_store_run; [|reflexivity|exact Hload].
  reflexivity.
Qed.

(** *** Edge cases of initialization *)

Lemma initialize_without_persisted_store (repo_path : string)
  (force_reprocess : bool) (self : CodePalManager) (w : World) :
  fs w !! vector_store_path = None ->
  initialize_repository repo_path force_reprocess (self, w)
  = initialize_repository repo_path true (self, w).
Proof.
  intros Hnone. destruct force_reprocess; [reflexivity|].
  unfold initialize_repository, try_except.
  unfold bind at 1. cbn [negb andb].
  unfold lift_snd at 1. rewrite (exists_false _ _ Hnone).
  cbn [andb]. unfold bind, ret. reflexivity.
Qed.

(** X15. A repository path that does not exist is not reported as an
    error: when nothing is persisted yet, or with [force_reprocess],
    [initialize_repository] answers that no supported file was found,
    builds no store, sets up no agent and writes nothing. *)
Theorem missing_repository_is_reported_as_without_supported_files
  (repo_path : string) (force_reprocess : bool) (self : CodePalManager)
  (w : World)
  (Hmissing : repos w !! repo_path = None)
  (Hfirst : force_reprocess = true \/ fs w !! vector_store_path = None) :
  initialize_repository repo_path force_reprocess (self, w)
  = (Ok (NoSupportedFiles repo_path),
     ({| vector_store := vector_store self; agent := agent self;
         processor := Some CodeProcessor_init |}, w)).
Proof.
  assert (Hforced : initialize_repository repo_path true (self, w)
                    = (Ok (NoSupportedFiles repo_path),
                       (set_processor (Some CodeProcessor_init) self, w))).
  { rewrite initialize_forced. unfold try_except.
    rewrite (process_and_save_nothing repo_path self w); [reflexivity|].
    unfold process_repository. rewrite Hmissing. reflexivity. }
  destruct Hfirst as [->|Hnone]; [exact Hforced|].
  rewrite (initialize_without_persisted_store _ _ _ _ Hnone). exact Hforced.
Qed.

(** X16. What a successful initialization saves is what the next one
    loads.  After [initialize_repository] has processed a repository
    with documents and saved the store, a later non-forced
    [initialize_repository], for whatever repository path and from
    whatever manager, loads a store with exactly those documents and that
    index, its document store mirroring the documents. *)
Theorem initialization_round_trip_through_the_persisted_store
  (repo_path : string) (self other : CodePalManager) (w : World)
  (docs : list Document)
  (Hshape : provider_well_shaped)
  (Hllm : llm_ready = true)
  (Hrepo : process_repository repo_path w = (Ok docs, w))
  (Hdocs : docs <> [])
  (Htarget : save_target_ok w vector_store_path) :
  exists (self1 : CodePalManager) (w1 : World) (vs1 vs2 : CodeVectorStore)
         (w2 : World),
    initialize_repository repo_path true (self, w)
    = (Ok (SuccessfullyProcessed (length docs) repo_path), (self1, w1)) /\
    vector_store self1 = Some vs1 /\ documents vs1 = docs /\
    (forall later_path : string,
       initialize_repository later_path false (other, w1)
       = (Ok (LoadedExisting later_path),
          ({| vector_store := Some vs2;
              agent := Some {| agent_vector_store := Some vs2 |};
              processor := processor other |}, w2))) /\
    documents vs2 = docs /\ faiss_index vs2 = faiss_index vs1 /\
    aligned vs2.
Proof.
  destruct (process_and_save_built repo_path self w docs Hshape Hrepo Hdocs
              Htarget) as (vs1 & index & w1 & Hrun & Hd & Hi & Hal & Hfs).
  rewrite Hllm in Hrun.
  destruct (saved_fs_lookup vector_store_path index docs
              (embedding_model_name vs1) (fs w)) as (Hsp & Hsi & Hsd & Hsm).
  rewrite <- Hfs in Hsp, Hsi, Hsd, Hsm.
  destruct (initialize_loads other w1 Directory (Some index) (Some docs)
              (Some (embedding_model_name vs1)) Hsp Hsi Hsd Hsm)
    as (model & n & evs & Hload).
  rewrite Hllm in Hload. cbv zeta in Hload.
  eexists. exists w1, vs1. eexists. eexists.
  split.
  { rewrite initialize_forced. unfold try_except. rewrite Hrun. reflexivity. }
  split; [reflexivity|]. split; [exact Hd|].
  split; [exact Hload|].
  split; [reflexivity|]. split; [rewrite Hi; reflexivity|].
  unfold loaded_store. apply aligned_docstore_of.
  destruct Hal as (index' & Hi' & Hn & _). rewrite Hi in Hi'.
  inversion Hi'; subst index'. rewrite Hn, Hd. reflexivity.
Qed.

(** X17. A search for [k <= 0] documents raises AssertionError on a store
    that has an index (whenever the query can be encoded), although the
    same call returns the empty list on a store without index. *)
Theorem similarity_search_rejects_nonpositive_k
  (s : CodeVectorStore) (w : World) (query : string) (k : Z)
  (index : Faiss.IndexFlatL2) (model : EmbeddingModel)
  (Hindex : faiss_index s = Some index)
  (Hmodel : embedding_model s = Some model)
  (Hk : k <= 0) :
  similarity_search query k (s, w) = (Raise AssertionError, (s, w)) /\
  similarity_search query k (set_faiss_index None s, w)
  = (Ok [], (set_faiss_index None s, w)).
Proof. tidy.
  split; [|apply similarity_search_without_index; reflexivity].
  unfold similarity_search, bind, get_self, of_result, of_option, ret, raise.
  rewrite Hindex, Hmodel. unfold Faiss.search.
  destruct model; cbn [encode];
    (destruct (Z.leb_spec k 0) as [_|Hgt]; [reflexivity|lia]).
Qed.

(** *** Documents added after the index was built *)

Lemma documents_at_app (docs more : list Document) (labels : list Z) :
  Forall (fun label => 0 <= label < Z.of_nat (length docs)) labels ->
  documents_at (docs ++ more) labels = documents_at docs labels.
Proof. tidy.
  intros H. induction H as [|label rest Hl Hrest IH]; [reflexivity|].
  simpl. rewrite nth_error_app1 by lia. rewrite IH. reflexivity.
Qed.

(** X18. [add_documents] only extends the document list.  On a store
    whose index holds one vector per document, documents added afterwards
    are not found by any search for up to as many documents as the index
    holds, until [create_embeddings] runs again: the search returns what
    it returned before they were added.  (All distances are taken to be
    below the largest float32.) *)
Theorem documents_added_after_the_index_was_built_are_not_searched
  (s : CodeVectorStore) (w : World) (query : string) (k : Z)
  (index : Faiss.IndexFlatL2) (q : list R) (more : list Document)
  (Hindex : faiss_index s = Some index)
  (Hntotal : Faiss.ntotal index = length (documents s))
  (Hencode : encode (embedding_model s) [query] = Ok [q])
  (Hdim : length q = Faiss.d index)
  (Hk : 0 < k <= Z.of_nat (length (documents s)))
  (Hfinite : Forall (fun v => (Faiss.fvec_L2sqr q v < Faiss.FLT_MAX)%R)
                    (Faiss.xb index)) :
  exists s' : CodeVectorStore,
    add_documents more (s, w) = (Ok tt, (s', w)) /\
    documents s' = documents s ++ more /\
    faiss_index s' = Some index /\
    fst (similarity_search query k (s', w))
    = fst (similarity_search query k (s, w)).
Proof.
  exists (set_documents (documents s ++ more) s).
  split; [reflexivity|]. split; [reflexivity|]. split; [exact Hindex|].
  destruct (exists_last (l := documents s)) as (docs & last_doc & Hdocs).
  { intros Hnil. rewrite Hnil in Hk. simpl in Hk. lia. }
  destruct (exists_last (l := documents s ++ more))
    as (docs' & last_doc' & Hdocs').
  { intros Hnil. apply app_eq_nil in Hnil. destruct Hnil as [Hnil _].
    rewrite Hnil in Hk. simpl in Hk. lia. }
  pose proof (similarity_search_padded s w query k index q docs last_doc
                Hindex Hdocs ltac:(lia) Hencode Hdim ltac:(lia)) as Hold.
  pose proof (similarity_search_padded
                (set_documents (documents s ++ more) s) w query k index q
                docs' last_doc' Hindex Hdocs'
                ltac:(cbn [documents set_documents]; rewrite length_app; lia)
                Hencode Hdim ltac:(lia)) as Hnew.
  cbv zeta in Hold, Hnew.
  assert (Hlen : length (nearest index (Z.to_nat k) q) = Z.to_nat k).
  { rewrite (nearest_full _ _ _ Hfinite). lia. }
  rewrite Hlen, Nat.sub_diag in Hold, Hnew. cbn [repeat] in Hold, Hnew.
  rewrite Hold, Hnew. cbn [fst documents set_documents].
  rewrite documents_at_app; [reflexivity|].
  rewrite <- Hntotal. apply nearest_labels_range.
Qed.

End Codepal.

(* ===================================================================== *)
(** ** The statements at concrete inputs *)
(* ===================================================================== *)

(** C4, the run that separates the code from the wording of the
    specification.  The configured model fails on the first load and
    would load on any later one; the fallback model cannot be loaded.
    The code loads the configured model once, spends both retries on
    the fallback model and ends with the local fallback; the resolution
    order of the specification retries the configured model and gets
    it. *)
Lemma C4_primary_is_not_retried :
  let code := _initialize_embedding_model Sample.recovering
                "all-mpnet-base-v2" Sample.empty_world in
  let spec := spec_initialize_embedding_model Sample.recovering
                "all-mpnet-base-v2" Sample.empty_world in
  fst code = Ok (Some (FallbackEmbeddingModel 128)) /\
  events (snd code)
  = [LoadModel "all-mpnet-base-v2"; Sleep 5;
     LoadModel "paraphrase-MiniLM-L3-v2"; Sleep 10;
     LoadModel "paraphrase-MiniLM-L3-v2"] /\
  fst spec = Ok (Some (SentenceTransformer "all-mpnet-base-v2")) /\
  events (snd spec)
  = [LoadModel "all-mpnet-base-v2"; Sleep 5; LoadModel "all-mpnet-base-v2"] /\
  code <> spec.
Proof.
  cbv zeta. repeat split; try (vm_compute; reflexivity).
  intros H. apply (f_equal fst) in H. vm_compute in H. discriminate.
Qed.

(** C3, a directory without index and without model name: [load]
    reports success and replaces the documents and the document store the
    caller held. *)
Lemma C3_load_succeeds_and_overwrites :
  let run := load Sample.offline "store"
                  (Sample.caller_store, Sample.documents_only) in
  fst run = Ok true /\
  Sample.documents_only.(fs) !! index_file "store" = None /\
  Sample.documents_only.(fs) !! model_info_file "store" = None /\
  documents Sample.caller_store = [Sample.doc "mine.py" "mine"] /\
  documents (fst (snd run)) = [Sample.doc "saved.py" "saved"] /\
  fst (snd run) <> Sample.caller_store.
Proof.
  cbv zeta. repeat split; try (vm_compute; reflexivity).
  intros H. apply (f_equal documents) in H. vm_compute in H. discriminate.
Qed.

(** C8, two repositories, one path: the store built for repoA is what
    initializing repoB finds and loads; and a forced initialization of a
    repository without documents leaves that persisted store in place. *)
Lemma C8_second_repository_loads_the_first :
  let init := initialize_repository Sample.online Sample.constant_encode
                Sample.whole_text "paraphrase-MiniLM-L3-v2" "./vector_store"
                true in
  let first := init "repoA" false (CodePalManager_init, Sample.two_repos) in
  let second := init "repoB" false (snd first) in
  let third := init "repoC" true (snd second) in
  fst first = Ok (SuccessfullyProcessed 1 "repoA") /\
  fst second = Ok (LoadedExisting "repoB") /\
  match vector_store (fst (snd second)) with
  | Some vs => map (fun d => file_path (metadata d)) (documents vs)
  | None => []
  end = ["repoA/a.py"] /\
  fst third = Ok (NoSupportedFiles "repoC") /\
  fs (snd (snd third)) = fs (snd (snd first)).
Proof. cbv zeta. repeat split; vm_compute; reflexivity. Qed.

(** C1, what follows a build.  A store is built by the code from two
    documents and is aligned: two vectors, two documents, two entries in
    the document store.  [add_documents] with a third document leaves it
    with three documents for two vectors; a second [create_embeddings]
    on the built store leaves it with two vectors and two documents for
    four entries in the document store.  Neither store is aligned. *)
Lemma C1_alignment_is_lost_by_later_calls :
  let docs := [Sample.doc "a.py" "a"; Sample.doc "b.py" "b"] in
  exists (s0 : CodeVectorStore) (w : World) (s s1 s2 : CodeVectorStore),
    CodeVectorStore_init Sample.online "m" None Sample.empty_world
    = (Ok s0, w) /\
    (add_documents docs ;; create_embeddings Sample.constant_encode)%monad
      (s0, w) = (Ok tt, (s, w)) /\
    aligned s /\
    add_documents [Sample.doc "c.py" "c"] (s, w) = (Ok tt, (s1, w)) /\
    length (documents s1) = 3%nat /\
    Faiss.ntotal <$> faiss_index s1 = Some 2%nat /\
    ~ aligned s1 /\
    create_embeddings Sample.constant_encode (s, w) = (Ok tt, (s2, w)) /\
    length (documents s2) = 2%nat /\
    Faiss.ntotal <$> faiss_index s2 = Some 2%nat /\
    _counter (docstore s2) = 4%nat /\
    ~ aligned s2.
Proof.
  cbv zeta.
  set (docs := [Sample.doc "a.py" "a"; Sample.doc "b.py" "b"]).
  set (index := {| Faiss.d := 1; Faiss.xb := [[0%R]; [0%R]] |}).
  set (s := {| embedding_model_name := "m";
               embedding_model := Some (SentenceTransformer "m");
               documents := docs; embeddings := Some [[0%R]; [0%R]];
               faiss_index := Some index;
               docstore := docstore_of docs |}).
  set (w := world_after Sample.empty_world 1 [LoadModel "m"]).
  exists (fresh_store "m" (Some (SentenceTransformer "m"))), w, s,
         (set_documents (docs ++ [Sample.doc "c.py" "c"]) s),
         {| embedding_model_name := "m";
            embedding_model := Some (SentenceTransformer "m");
            documents := docs; embeddings := Some [[0%R]; [0%R]];
            faiss_index := Some index;
            docstore := fold_left (fun ds doc => add_document doc ds) docs
                                  (docstore_of docs) |}.
  split; [reflexivity|].
  split; [vm_compute; reflexivity|].
  split; [apply aligned_docstore_of; reflexivity|].
  split; [reflexivity|]. split; [reflexivity|]. split; [reflexivity|].
  split.
  { intros (index' & Hi & Hn & _). simpl in Hi. inversion Hi; subst index'.
    vm_compute in Hn. discriminate. }
  split; [vm_compute; reflexivity|].
  split; [reflexivity|]. split; [reflexivity|]. split; [reflexivity|].
  intros (index' & _ & _ & Hc & _). vm_compute in Hc. discriminate.
Qed.


(** C5, one stored vector and five slots: with both network models
    unavailable, a store built from the single document "x" answers the
    query "x" with k = 5 by five copies of that document. *)
Theorem C5_more_slots_than_vectors_repeats_the_last_document :
  let d := Sample.doc "a.py" "x" in
  let model := FallbackEmbeddingModel 128 in
  let v := fallback_embed 128 "x" in
  let w := world_after Sample.empty_world 3
             [LoadModel "primary"; Sleep 5;
              LoadModel "paraphrase-MiniLM-L3-v2"; Sleep 10;
              LoadModel "paraphrase-MiniLM-L3-v2"] in
  let s := {| embedding_model_name := "primary";
              embedding_model := Some model;
              documents := [d]; embeddings := Some [v];
              faiss_index := Some {| Faiss.d := length v; Faiss.xb := [v] |};
              docstore := docstore_of [d] |} in
  CodeVectorStore_init Sample.offline "primary" None Sample.empty_world
  = (Ok (fresh_store "primary" (Some model)), w) /\
  (add_documents [d] ;; create_embeddings Sample.constant_encode)%monad
    (fresh_store "primary" (Some model), w) = (Ok tt, (s, w)) /\
  similarity_search Sample.constant_encode "x" 5 (s, w)
  = (Ok [d; d; d; d; d], (s, w)).
Proof.
  cbv zeta. split; [vm_compute; reflexivity|]. split.
  - apply build_single. reflexivity.
  - eapply (similarity_search_single _ _ _ "x" 5
              {| Faiss.d := length (fallback_embed 128 "x");
                 Faiss.xb := [fallback_embed 128 "x"] |}
              (fallback_embed 128 "x") (Sample.doc "a.py" "x"));
      try reflexivity.
Qed.

(** *** The theorems with hypotheses, applied *)

Lemma constant_encode_well_shaped : provider_well_shaped Sample.constant_encode.
Proof.
  intros name texts. unfold Sample.constant_encode.
  split; [apply length_map|]. exists 1%nat.
  induction texts; simpl; constructor; [reflexivity|assumption].
Qed.

Lemma empty_world_target_ok (path : string) :
  save_target_ok Sample.empty_world path.
Proof.
  unfold save_target_ok. simpl. rewrite !lookup_empty.
  repeat split; try (left; reflexivity); discriminate.
Qed.

Lemma C1_witness :
  let docs := [Sample.doc "a.py" "x"] in
  let s0 := fresh_store "m" (Some (SentenceTransformer "m")) in
  let w := world_after Sample.empty_world 1 [LoadModel "m"] in
  let s := {| embedding_model_name := "m";
              embedding_model := Some (SentenceTransformer "m");
              documents := docs; embeddings := Some [[0%R]];
              faiss_index := Some {| Faiss.d := 1; Faiss.xb := [[0%R]] |};
              docstore := docstore_of docs |} in
  (forall name texts,
      length (Sample.constant_encode name texts) = length texts) /\
  docs <> [] /\
  CodeVectorStore_init Sample.online "m" None Sample.empty_world = (Ok s0, w) /\
  (add_documents docs ;; create_embeddings Sample.constant_encode)%monad (s0, w)
  = (Ok tt, (s, w)) /\
  aligned s /\ documents s = docs.
Proof.
  cbv zeta.
  assert (H1 : forall name texts,
             length (Sample.constant_encode name texts) = length texts)
    by (intros; apply length_map).
  assert (H2 : [Sample.doc "a.py" "x"] <> []) by discriminate.
  assert (H3 : CodeVectorStore_init Sample.online "m" None Sample.empty_world
               = (Ok (fresh_store "m" (Some (SentenceTransformer "m"))),
                  world_after Sample.empty_world 1 [LoadModel "m"]))
    by reflexivity.
  assert (H4 : (add_documents [Sample.doc "a.py" "x"] ;;
                create_embeddings Sample.constant_encode)%monad
                 (fresh_store "m" (Some (SentenceTransformer "m")),
                  world_after Sample.empty_world 1 [LoadModel "m"])
               = (Ok tt,
                  ({| embedding_model_name := "m";
                      embedding_model := Some (SentenceTransformer "m");
                      documents := [Sample.doc "a.py" "x"];
                      embeddings := Some [[0%R]];
                      faiss_index :=
                        Some {| Faiss.d := 1; Faiss.xb := [[0%R]] |};
                      docstore := docstore_of [Sample.doc "a.py" "x"] |},
                   world_after Sample.empty_world 1 [LoadModel "m"])))
    by (vm_compute; reflexivity).
  pose proof (C1_index_and_documents_aligned Sample.online
                Sample.constant_encode "m" _ _ _ _ _ _ H1 H2 H3 H4) as H.
  split; [exact H1|]. split; [exact H2|]. split; [exact H3|].
  split; [exact H4|]. split; [exact (proj1 H)|exact (proj1 (proj2 H))].
Defined.

Lemma C2_witness :
  let docs := [Sample.doc "a.py" "x"] in
  let s0 := fresh_store "m" (Some (SentenceTransformer "m")) in
  let w := world_after Sample.empty_world 1 [LoadModel "m"] in
  let s := {| embedding_model_name := "m";
              embedding_model := Some (SentenceTransformer "m");
              documents := docs; embeddings := Some [[0%R]];
              faiss_index := Some {| Faiss.d := 1; Faiss.xb := [[0%R]] |};
              docstore := docstore_of docs |} in
  docs <> [] /\
  CodeVectorStore_init Sample.online "m" None Sample.empty_world = (Ok s0, w) /\
  (add_documents docs ;; create_embeddings Sample.constant_encode)%monad (s0, w)
  = (Ok tt, (s, w)) /\
  save_target_ok Sample.empty_world "store" /\
  exists index w2 s2 w3,
    faiss_index s = Some index /\
    save "store" (s, Sample.empty_world) = (Ok tt, (s, w2)) /\
    load Sample.online "store" (Sample.caller_store, w2) = (Ok true, (s2, w3)) /\
    faiss_index s2 = Some index /\
    documents s2 = documents s /\ docstore s2 = docstore s.
Proof.
  cbv zeta.
  assert (H2 : [Sample.doc "a.py" "x"] <> []) by discriminate.
  assert (H3 : CodeVectorStore_init Sample.online "m" None Sample.empty_world
               = (Ok (fresh_store "m" (Some (SentenceTransformer "m"))),
                  world_after Sample.empty_world 1 [LoadModel "m"]))
    by reflexivity.
  assert (H4 : (add_documents [Sample.doc "a.py" "x"] ;;
                create_embeddings Sample.constant_encode)%monad
                 (fresh_store "m" (Some (SentenceTransformer "m")),
                  world_after Sample.empty_world 1 [LoadModel "m"])
               = (Ok tt,
                  ({| embedding_model_name := "m";
                      embedding_model := Some (SentenceTransformer "m");
                      documents := [Sample.doc "a.py" "x"];
                      embeddings := Some [[0%R]];
                      faiss_index :=
                        Some {| Faiss.d := 1; Faiss.xb := [[0%R]] |};
                      docstore := docstore_of [Sample.doc "a.py" "x"] |},
                   world_after Sample.empty_world 1 [LoadModel "m"])))
    by (vm_compute; reflexivity).
  pose proof (empty_world_target_ok "store") as H5.
  split; [exact H2|]. split; [exact H3|]. split; [exact H4|].
  split; [exact H5|].
  exact (C2_save_then_load_round_trip Sample.online Sample.constant_encode "m"
           _ _ _ Sample.caller_store _ _ _ _ _ H2 H3 H4 H5).
Defined.

Lemma C3_witness :
  fs Sample.documents_only !! "store" = Some Directory /\
  fs Sample.documents_only !! index_file "store" = None /\
  fs Sample.documents_only !! documents_file "store"
    = Some (PickleFile [Sample.doc "saved.py" "saved"]) /\
  fs Sample.documents_only !! model_info_file "store" = None /\
  exists s' w',
    load Sample.offline "store" (Sample.caller_store, Sample.documents_only)
    = (Ok true, (s', w')) /\
    faiss_index s' = faiss_index Sample.caller_store /\
    documents s' = [Sample.doc "saved.py" "saved"].
Proof.
  assert (H1 : fs Sample.documents_only !! "store" = Some Directory)
    by (vm_compute; reflexivity).
  assert (H2 : fs Sample.documents_only !! index_file "store"
               = FaissIndexFile <$> None) by (vm_compute; reflexivity).
  assert (H3 : fs Sample.documents_only !! documents_file "store"
               = PickleFile <$> Some [Sample.doc "saved.py" "saved"])
    by (vm_compute; reflexivity).
  assert (H4 : fs Sample.documents_only !! model_info_file "store"
               = TextFile <$> None) by (vm_compute; reflexivity).
  split; [exact H1|]. split; [exact H2|]. split; [exact H3|].
  split; [exact H4|].
  destruct (proj1 (C3_load_succeeds_with_missing_artifacts Sample.offline
                     "store" Sample.caller_store Sample.documents_only
                     Directory None _ None H1 H2 H3 H4))
    as (s' & w' & Hload & Hi & Hd & _).
  exists s', w'. split; [exact Hload|]. split; [exact Hi|exact Hd].
Defined.

Lemma C6_witness :
  (forall t, Sample.offline t "primary" = false) /\
  (forall t, Sample.offline t fallback_model_name = false) /\
  exists model vectors,
    fst (_initialize_embedding_model Sample.offline "primary"
           Sample.empty_world) = Ok (Some model) /\
    encode Sample.constant_encode (Some model) ["x"; "y"] = Ok vectors /\
    length vectors = 2%nat /\
    Forall (fun v => length v = 32%nat) vectors.
Proof.
  assert (H1 : forall t, Sample.offline t "primary" = false)
    by (intros; reflexivity).
  assert (H2 : forall t, Sample.offline t fallback_model_name = false)
    by (intros; reflexivity).
  split; [exact H1|]. split; [exact H2|].
  destruct (C6_local_fallback_encode_total_and_deterministic Sample.offline
              Sample.constant_encode "primary" Sample.empty_world ["x"; "y"]
              H1 H2)
    as (model & vectors & Hinit & _ & Henc & Hlen & _ & Hdim & _).
  exists model, vectors.
  split; [exact Hinit|]. split; [exact Henc|]. split; [exact Hlen|exact Hdim].
Defined.


Lemma C8_witness :
  let docs :=
    [ {| page_content := "x";
         metadata := {| file_path := "repoA/a.py"; file_name := "a.py";
                        file_extension := ".py"; chunk_index := 0;
                        total_chunks := 1 |} |} ] in
  provider_well_shaped Sample.constant_encode /\
  true = true /\
  process_repository Sample.whole_text "repoA" Sample.two_repos
  = (Ok docs, Sample.two_repos) /\
  save_target_ok Sample.two_repos (vector_store_path "./vector_store") /\
  vector_store_path "./vector_store" = "./vector_store/code_vectors" /\
  exists self' w',
    initialize_repository Sample.online Sample.constant_encode
      Sample.whole_text "m" "./vector_store" true "repoA" true
      (CodePalManager_init, Sample.two_repos)
    = (Ok (SuccessfullyProcessed 1 "repoA"), (self', w')) /\
    fs w' !! "./vector_store/code_vectors/documents.pkl"
    = Some (PickleFile docs).
Proof.
  cbv zeta.
  pose proof constant_encode_well_shaped as H1.
  assert (H2 : true = true) by reflexivity.
  assert (H3 : process_repository Sample.whole_text "repoA" Sample.two_repos
               = (Ok [ {| page_content := "x";
                          metadata := {| file_path := "repoA/a.py";
                                         file_name := "a.py";
                                         file_extension := ".py";
                                         chunk_index := 0;
                                         total_chunks := 1 |} |} ],
                  Sample.two_repos)) by (vm_compute; reflexivity).
  assert (H4 : save_target_ok Sample.two_repos
                 (vector_store_path "./vector_store"))
    by (exact (empty_world_target_ok (vector_store_path "./vector_store"))).
  split; [exact H1|]. split; [exact H2|]. split; [exact H3|].
  split; [exact H4|]. split; [reflexivity|].
  destruct (C8_one_fixed_path_and_forced_rebuild Sample.online
              Sample.constant_encode Sample.whole_text "m" "./vector_store"
              true "repoA" CodePalManager_init Sample.two_repos _
              H1 H2 H3 H4) as (_ & Hbuild & _).
  destruct (Hbuild ltac:(discriminate))
    as (self' & vs & index & w' & Hrun & _ & _ & _ & _ & _ & _ & Hdocs & _).
  exists self', w'. split; [exact Hrun|exact Hdocs].
Defined.

Lemma clean_repo : clean_parts ["repo"].
Proof.
  intros part [<-|[]]. split; [reflexivity|].
  intros Hin.
  assert (H : bool_decide ("repo" ∈ ignore_dirs) = true)
    by (apply bool_decide_eq_true_2; exact Hin).
  vm_compute in H. discriminate.
Qed.

Lemma C9_witness :
  clean_parts ["repo"] /\
  scanned_files ["repo"]
    [File "a.py" 500 "print(1)"; File "b.png" 10 "";
     Dir ".git" [File "c.py" 20 "x = 1"]]
  = [ {| entry_path := ["repo"; "a.py"]; is_file := true;
         entry_size := 500; entry_content := "print(1)" |} ] /\
  process_repository Sample.whole_text "repo" Sample.scenario
  = (Ok [ {| page_content := "print(1)";
             metadata := {| file_path := "repo/a.py"; file_name := "a.py";
                            file_extension := ".py"; chunk_index := 0;
                            total_chunks := 1 |} |} ], Sample.scenario).
Proof.
  split; [exact clean_repo|].
  destruct (proj2 (proj2 (proj2
              (C9_scanner_yields_exactly_the_eligible_files
                 Sample.whole_text ["repo"] clean_repo)))
              "print(1)" "" "x = 1" 10 20 "repo" Sample.scenario)
    as [Hscan Hdocs].
  split; [exact Hscan|].
  rewrite (Hdocs ltac:(vm_compute; reflexivity) ltac:(vm_compute; reflexivity)).
  vm_compute. reflexivity.
Defined.

Lemma process_file_numbers_its_chunks_witness :
  let doc := {| page_content := "x";
                metadata := {| file_path := "repoA/a.py"; file_name := "a.py";
                               file_extension := ".py"; chunk_index := 0;
                               total_chunks := 1 |} |} in
  let a_py := {| entry_path := ["repoA"; "a.py"]; is_file := true;
                 entry_size := 1; entry_content := "x" |} in
  process_file Sample.whole_text a_py !! 0%nat = Some doc /\
  chunk_index (metadata doc) = 0%nat /\
  total_chunks (metadata doc)
  = length (process_file Sample.whole_text a_py).
Proof.
  cbv zeta.
  set (a_py := {| entry_path := ["repoA"; "a.py"]; is_file := true;
                  entry_size := 1; entry_content := "x" |}).
  assert (H : process_file Sample.whole_text a_py !! 0%nat
              = Some {| page_content := "x";
                        metadata := {| file_path := "repoA/a.py";
                                       file_name := "a.py";
                                       file_extension := ".py";
                                       chunk_index := 0;
                                       total_chunks := 1 |} |})
    by (vm_compute; reflexivity).
  split; [exact H|].
  destruct (process_file_numbers_its_chunks Sample.whole_text a_py
              0%nat _ H) as (_ & _ & _ & Hi & Ht & _).
  split; [exact Hi|exact Ht].
Defined.

Lemma process_repository_documents_witness :
  let doc := {| page_content := "x";
                metadata := {| file_path := "repoA/a.py"; file_name := "a.py";
                               file_extension := ".py"; chunk_index := 0;
                               total_chunks := 1 |} |} in
  process_repository Sample.whole_text "repoA" Sample.two_repos
  = (Ok [doc], Sample.two_repos) /\
  In doc [doc] /\
  file_extension (metadata doc) ∈ Config.SUPPORTED_EXTENSIONS.
Proof.
  cbv zeta.
  assert (H1 : process_repository Sample.whole_text "repoA" Sample.two_repos
               = (Ok [ {| page_content := "x";
                          metadata := {| file_path := "repoA/a.py";
                                         file_name := "a.py";
                                         file_extension := ".py";
                                         chunk_index := 0;
                                         total_chunks := 1 |} |} ],
                  Sample.two_repos)) by (vm_compute; reflexivity).
  split; [exact H1|]. split; [left; reflexivity|].
  destruct (process_repository_documents_come_from_accepted_files
              Sample.whole_text "repoA" Sample.two_repos Sample.two_repos
              _ _ H1 (or_introl eq_refl)) as (_ & Hext & _).
  exact Hext.
Defined.

Lemma refused_root_segment_witness :
  repos Sample.through_parent !! "../repoA" = Some [File "a.py" 1 "x"] /\
  _should_process_file ["a.py"] = true /\
  In ".." (Pathlib.of_string "../repoA") /\
  refused_part ".." /\
  process_repository Sample.whole_text "../repoA" Sample.through_parent
  = (Ok [], Sample.through_parent) /\
  initialize_repository Sample.online Sample.constant_encode
    Sample.whole_text "m" "./vector_store" true "../repoA" true
    (CodePalManager_init, Sample.through_parent)
  = (Ok (NoSupportedFiles "../repoA"),
     (set_processor (Some CodeProcessor_init) CodePalManager_init,
      Sample.through_parent)).
Proof.
  assert (H0 : repos Sample.through_parent !! "../repoA"
               = Some [File "a.py" 1 "x"]) by (vm_compute; reflexivity).
  assert (Ha : _should_process_file ["a.py"] = true)
    by (vm_compute; reflexivity).
  assert (H1 : In ".." (Pathlib.of_string "../repoA"))
    by (vm_compute; left; reflexivity).
  assert (H2 : refused_part "..") by (left; reflexivity).
  split; [exact H0|]. split; [exact Ha|]. split; [exact H1|].
  split; [exact H2|].
  exact (refused_root_segment_hides_the_whole_repository Sample.online
           Sample.constant_encode Sample.whole_text "m" "./vector_store"
           true "../repoA" ".." CodePalManager_init Sample.through_parent
           H1 H2).
Defined.

Lemma two_points_distances_finite :
  Forall (fun v => (Faiss.fvec_L2sqr [0%R] v < Faiss.FLT_MAX)%R)
         (Faiss.xb Sample.two_points).
Proof.
  unfold Sample.two_points, Faiss.FLT_MAX. simpl.
  repeat constructor; lra.
Qed.

Lemma k_nearest_documents_witness :
  faiss_index Sample.two_documents = Some Sample.two_points /\
  Faiss.ntotal Sample.two_points = length (documents Sample.two_documents) /\
  encode Sample.constant_encode (embedding_model Sample.two_documents) ["q"]
  = Ok [[0%R]] /\
  length [0%R] = Faiss.d Sample.two_points /\
  0 < 1 <= Z.of_nat (length (documents Sample.two_documents)) /\
  exists results,
    similarity_search Sample.constant_encode "q" 1
      (Sample.two_documents, Sample.empty_world)
    = (Ok results, (Sample.two_documents, Sample.empty_world)) /\
    length results = 1%nat.
Proof.
  assert (H1 : faiss_index Sample.two_documents = Some Sample.two_points)
    by reflexivity.
  assert (H2 : Faiss.ntotal Sample.two_points
               = length (documents Sample.two_documents)) by reflexivity.
  assert (H3 : encode Sample.constant_encode
                 (embedding_model Sample.two_documents) ["q"] = Ok [[0%R]])
    by reflexivity.
  assert (H4 : length [0%R] = Faiss.d Sample.two_points) by reflexivity.
  assert (H5 : 0 < 1 <= Z.of_nat (length (documents Sample.two_documents)))
    by (simpl; lia).
  split; [exact H1|]. split; [exact H2|]. split; [exact H3|].
  split; [exact H4|]. split; [exact H5|].
  destruct (similarity_search_returns_the_k_nearest_documents
              Sample.constant_encode Sample.two_documents Sample.empty_world
              "q" 1 Sample.two_points [0%R] H1 H2 H3 H4 H5
              two_points_distances_finite)
    as (positions & results & Hrun & Hlen & _).
  exists results. split; [exact Hrun|exact Hlen].
Defined.

Lemma beyond_the_store_witness :
  faiss_index Sample.two_documents = Some Sample.two_points /\
  documents Sample.two_documents
  = [Sample.doc "a.py" "a"] ++ [Sample.doc "b.py" "b"] /\
  Z.of_nat (length (documents Sample.two_documents)) <= 5 /\
  similarity_search Sample.constant_encode "q" 5
    (Sample.two_documents, Sample.empty_world)
  = (Ok ([Sample.doc "a.py" "a"; Sample.doc "b.py" "b"]
           ++ repeat (Sample.doc "b.py" "b") 3),
     (Sample.two_documents, Sample.empty_world)).
Proof.
  assert (H1 : faiss_index Sample.two_documents = Some Sample.two_points)
    by reflexivity.
  assert (H2 : documents Sample.two_documents
               = [Sample.doc "a.py" "a"] ++ [Sample.doc "b.py" "b"])
    by reflexivity.
  assert (H3 : Z.of_nat (length (documents Sample.two_documents)) <= 5)
    by (simpl; lia).
  split; [exact H1|]. split; [exact H2|]. split; [exact H3|].
  destruct (similarity_search_beyond_the_store_repeats_the_last_document
              Sample.constant_encode Sample.two_documents Sample.empty_world
              "q" 5 Sample.two_points [0%R] _ _ H1 H2 eq_refl eq_refl eq_refl
              H3 two_points_distances_finite)
    as (positions & ranked & Hrun & Hperm & Hat & Hsorted & _).
  assert (Hpos : positions = [0%nat; 1%nat]).
  { apply Permutation_sym, Permutation_length_2_inv in Hperm.
    destruct Hperm as [Hp|Hp]; [exact Hp|]. exfalso. rewrite Hp in Hsorted.
    inversion Hsorted as [|? ? _ Hfirst]; subst.
    inversion Hfirst as [|? ? Hle _]; subst.
    specialize (Hle [1%R] [0%R] eq_refl eq_refl). simpl in Hle. lra. }
  rewrite Hpos in Hat.
  inversion Hat as [|? a ? ranked1 Ha Hat1]; subst.
  inversion Hat1 as [|? b ? ranked2 Hb Hat2]; subst.
  inversion Hat2; subst.
  simpl in Ha, Hb. inversion Ha; inversion Hb; subst.
  exact Hrun.
Defined.

Lemma older_index_file_witness :
  faiss_index Sample.caller_store = None /\
  fs Sample.older_save !! "store" = Some Directory /\
  fs Sample.older_save !! index_file "store"
  = Some (FaissIndexFile Sample.two_points) /\
  fs Sample.older_save !! documents_file "store" <> Some Directory /\
  fs Sample.older_save !! model_info_file "store" <> Some Directory /\
  exists w',
    save "store" (Sample.caller_store, Sample.older_save)
    = (Ok tt, (Sample.caller_store, w')) /\
    fs w' !! index_file "store" = Some (FaissIndexFile Sample.two_points).
Proof.
  assert (H1 : faiss_index Sample.caller_store = None) by reflexivity.
  assert (H2 : fs Sample.older_save !! "store" = Some Directory)
    by (vm_compute; reflexivity).
  assert (H3 : fs Sample.older_save !! index_file "store"
               = Some (FaissIndexFile Sample.two_points))
    by (vm_compute; reflexivity).
  assert (H4 : fs Sample.older_save !! documents_file "store"
               <> Some Directory) by (vm_compute; discriminate).
  assert (H5 : fs Sample.older_save !! model_info_file "store"
               <> Some Directory) by (vm_compute; discriminate).
  split; [exact H1|]. split; [exact H2|]. split; [exact H3|].
  split; [exact H4|]. split; [exact H5|].
  destruct (save_without_index_leaves_the_older_index_file Sample.offline
              "store" Sample.caller_store Sample.two_points Sample.older_save
              H1 H2 H3 H4 H5) as (w' & Hsave & Hindex & _).
  exists w'. split; [exact Hsave|exact Hindex].
Defined.

Lemma constant_encode_length (name : string) (texts : list string) :
  length (Sample.constant_encode name texts) = length texts.
Proof. apply length_map. Qed.

Lemma create_embeddings_appends_witness :
  documents Sample.two_documents <> [] /\
  exists s',
    create_embeddings Sample.constant_encode
      (Sample.two_documents, Sample.empty_world)
    = (Ok tt, (s', Sample.empty_world)) /\
    _counter (docstore s') = 4%nat /\
    _dict (docstore s') !! 2%nat = Some (Sample.doc "a.py" "a").
Proof.
  assert (H1 : documents Sample.two_documents <> []) by discriminate.
  split; [exact H1|].
  destruct (create_embeddings Sample.constant_encode
              (Sample.two_documents, Sample.empty_world))
    as [[[]|e] [s' w']] eqn:Hrun; try (vm_compute in Hrun; discriminate).
  assert (Hw : w' = Sample.empty_world)
    by (vm_compute in Hrun; inversion Hrun; reflexivity).
  subst w'.
  destruct (create_embeddings_replaces_the_index_and_appends_to_the_docstore
              Sample.constant_encode Sample.two_documents s'
              Sample.empty_world Sample.empty_world constant_encode_length
              H1 Hrun) as (_ & _ & _ & Hcounter & Hnew & _).
  exists s'. split; [reflexivity|]. split; [exact Hcounter|].
  exact (Hnew 0%nat ltac:(simpl; lia)).
Defined.

Lemma empty_directory_is_loaded_witness :
  fs Sample.empty_directory !! vector_store_path "./vector_store"
  = Some Directory /\
  exists vs w',
    initialize_repository Sample.online Sample.constant_encode
      Sample.whole_text "m" "./vector_store" true "anywhere" false
      (CodePalManager_init, Sample.empty_directory)
    = (Ok (LoadedExisting "anywhere"),
       ({| vector_store := Some vs;
           agent := Some {| agent_vector_store := Some vs |};
           processor := None |}, w')) /\
    documents vs = [] /\ faiss_index vs = None.
Proof.
  assert (H1 : fs Sample.empty_directory !! vector_store_path "./vector_store"
               = Some Directory) by (vm_compute; reflexivity).
  split; [exact H1|].
  destruct (initialize_repository_loads_the_persisted_store_for_every_path
              Sample.online Sample.constant_encode Sample.whole_text "m"
              "./vector_store" true CodePalManager_init
              Sample.empty_directory Directory None None None eq_refl H1
              ltac:(vm_compute; reflexivity) ltac:(vm_compute; reflexivity)
              ltac:(vm_compute; reflexivity))
    as (vs & w' & Hrun & Hdocs & Hindex & _).
  exists vs, w'. split; [exact (Hrun "anywhere")|].
  split; [exact Hdocs|exact Hindex].
Defined.

Lemma repoA_documents :
  process_repository Sample.whole_text "repoA" Sample.two_repos
  = (Ok [ {| page_content := "x";
             metadata := {| file_path := "repoA/a.py"; file_name := "a.py";
                            file_extension := ".py"; chunk_index := 0;
                            total_chunks := 1 |} |} ], Sample.two_repos).
Proof. vm_compute. reflexivity. Qed.

Lemma fails_after_the_store_is_saved_witness :
  provider_well_shaped Sample.constant_encode /\
  false = false /\
  save_target_ok Sample.two_repos (vector_store_path "./vector_store") /\
  exists vs self' w',
    initialize_repository Sample.online Sample.constant_encode
      Sample.whole_text "m" "./vector_store" false "repoA" true
      (CodePalManager_init, Sample.two_repos)
    = (Ok (ErrorInitializing ValueError), (self', w')) /\
    vector_store self' = Some vs /\ agent self' = None /\
    get_repository_info self' = RepositoryLoaded 1 [].
Proof.
  pose proof constant_encode_well_shaped as H1.
  assert (H2 : false = false) by reflexivity.
  assert (H4 : save_target_ok Sample.two_repos
                 (vector_store_path "./vector_store"))
    by (exact (empty_world_target_ok (vector_store_path "./vector_store"))).
  split; [exact H1|]. split; [exact H2|]. split; [exact H4|].
  destruct (initialize_repository_fails_after_the_store_is_saved
              Sample.online Sample.constant_encode Sample.whole_text "m"
              "./vector_store" false "repoA" CodePalManager_init
              Sample.two_repos _ H1 H2 repoA_documents ltac:(discriminate) H4)
    as (vs & index & self' & w' & Hrun & Hvs & Hagent & _ & _ & _ & _ & _
        & Hinfo).
  exists vs, self', w'.
  split; [exact Hrun|]. split; [exact Hvs|]. split; [exact Hagent|].
  exact Hinfo.
Defined.

Lemma repository_info_witness :
  provider_well_shaped Sample.constant_encode /\
  true = true /\
  save_target_ok Sample.two_repos (vector_store_path "./vector_store") /\
  exists self' w',
    initialize_repository Sample.online Sample.constant_encode
      Sample.whole_text "m" "./vector_store" true "repoA" true
      (CodePalManager_init, Sample.two_repos)
    = (Ok (SuccessfullyProcessed 1 "repoA"), (self', w')) /\
    get_repository_info self'
    = RepositoryLoaded 1
        ["file_search_tool"; "file_reader_tool"; "ast_parser_tool";
         "directory_lister_tool"].
Proof.
  pose proof constant_encode_well_shaped as H1.
  assert (H2 : true = true) by reflexivity.
  assert (H4 : save_target_ok Sample.two_repos
                 (vector_store_path "./vector_store"))
    by (exact (empty_world_target_ok (vector_store_path "./vector_store"))).
  split; [exact H1|]. split; [exact H2|]. split; [exact H4|].
  destruct (repository_info_after_a_successful_initialization
              Sample.online Sample.constant_encode Sample.whole_text "m"
              "./vector_store" true "repoA" CodePalManager_init
              Sample.two_repos _ H1 H2 repoA_documents ltac:(discriminate) H4)
    as (self' & w' & Hrun & Hinfo).
  exists self', w'. split; [exact Hrun|exact Hinfo].
Defined.

Lemma provider_changed_witness :
  faiss_index Sample.local_store = Some Sample.one_local_vector /\
  embedding_model Sample.local_store = Some (FallbackEmbeddingModel 128) /\
  Faiss.d Sample.one_local_vector = 32%nat /\
  Sample.online (net_clock Sample.empty_world)
    (Py.strip (embedding_model_name Sample.local_store)) = true /\
  Sample.constant_encode (Py.strip (embedding_model_name Sample.local_store))
    ["q"] = [[0%R]] /\
  length [0%R] <> 32%nat /\
  exists w2 s2 w3,
    save "store" (Sample.local_store, Sample.empty_world)
    = (Ok tt, (Sample.local_store, w2)) /\
    load Sample.online "store" (Sample.caller_store, w2)
    = (Ok true, (s2, w3)) /\
    similarity_search Sample.constant_encode "q" 5 (s2, w3)
    = (Raise AssertionError, (s2, w3)).
Proof.
  assert (H1 : faiss_index Sample.local_store = Some Sample.one_local_vector)
    by reflexivity.
  assert (H2 : embedding_model Sample.local_store
               = Some (FallbackEmbeddingModel 128)) by reflexivity.
  assert (H3 : Faiss.d Sample.one_local_vector = 32%nat) by reflexivity.
  assert (H4 : Sample.online (net_clock Sample.empty_world)
                 (Py.strip (embedding_model_name Sample.local_store)) = true)
    by reflexivity.
  assert (H5 : Sample.constant_encode
                 (Py.strip (embedding_model_name Sample.local_store)) ["q"]
               = [[0%R]]) by reflexivity.
  assert (H6 : length [0%R] <> 32%nat) by (simpl; lia).
  split; [exact H1|]. split; [exact H2|]. split; [exact H3|].
  split; [exact H4|]. split; [exact H5|]. split; [exact H6|].
  destruct (reloaded_store_cannot_search_when_the_provider_changed
              Sample.online Sample.constant_encode "store" Sample.local_store
              Sample.caller_store Sample.empty_world Sample.one_local_vector
              "q" 5 [0%R] [] (Sample.doc "a.py" "x") H1 H2 H3 eq_refl
              (le_n 1) (empty_world_target_ok "store") H4 H5 H6
              ltac:(lia))
    as (_ & w2 & s2 & w3 & Hsave & Hload & _ & _ & _ & Hsearch).
  exists w2, s2, w3.
  split; [exact Hsave|]. split; [exact Hload|exact Hsearch].
Defined.

Lemma unreadable_document_list_witness :
  fs Sample.broken_documents !! vector_store_path "./vector_store"
  = Some Directory /\
  fs Sample.broken_documents
    !! index_file (vector_store_path "./vector_store")
  = Some (FaissIndexFile Sample.two_points) /\
  fs Sample.broken_documents
    !! documents_file (vector_store_path "./vector_store")
  = Some OtherFile /\
  exists e vs w',
    initialize_repository Sample.online Sample.constant_encode
      Sample.whole_text "m" "./vector_store" true "repoA" false
      (CodePalManager_init, Sample.broken_documents)
    = (Ok (ErrorInitializing e),
       ({| vector_store := Some vs; agent := None; processor := None |},
        w')) /\
    faiss_index vs = Some Sample.two_points /\ documents vs = [].
Proof.
  assert (H1 : fs Sample.broken_documents
                 !! vector_store_path "./vector_store" = Some Directory)
    by (vm_compute; reflexivity).
  assert (H2 : fs Sample.broken_documents
                 !! index_file (vector_store_path "./vector_store")
               = Some (FaissIndexFile Sample.two_points))
    by (vm_compute; reflexivity).
  assert (H3 : fs Sample.broken_documents
                 !! documents_file (vector_store_path "./vector_store")
               = Some OtherFile) by (vm_compute; reflexivity).
  split; [exact H1|]. split; [exact H2|]. split; [exact H3|].
  destruct (unreadable_document_list_blocks_every_initialization
              Sample.online Sample.constant_encode Sample.whole_text "m"
              "./vector_store" true CodePalManager_init
              Sample.broken_documents Directory OtherFile Sample.two_points
              H1 H2 H3 ltac:(discriminate))
    as (e & vs & w' & Hrun & Hindex & Hdocs & _).
  exists e, vs, w'. split; [exact (Hrun "repoA")|].
  split; [exact Hindex|exact Hdocs].
Defined.

Lemma missing_repository_witness :
  repos Sample.two_repos !! "nowhere" = None /\
  fs Sample.two_repos !! vector_store_path "./vector_store" = None /\
  initialize_repository Sample.online Sample.constant_encode
    Sample.whole_text "m" "./vector_store" true "nowhere" false
    (CodePalManager_init, Sample.two_repos)
  = (Ok (NoSupportedFiles "nowhere"),
     ({| vector_store := None; agent := None;
         processor := Some CodeProcessor_init |}, Sample.two_repos)).
Proof.
  assert (H1 : repos Sample.two_repos !! "nowhere" = None)
    by (vm_compute; reflexivity).
  assert (H2 : fs Sample.two_repos !! vector_store_path "./vector_store"
               = None) by (vm_compute; reflexivity).
  split; [exact H1|]. split; [exact H2|].
  exact (missing_repository_is_reported_as_without_supported_files
           Sample.online Sample.constant_encode Sample.whole_text "m"
           "./vector_store" true "nowhere" false CodePalManager_init
           Sample.two_repos H1 (or_intror H2)).
Defined.

Lemma initialization_round_trip_witness :
  provider_well_shaped Sample.constant_encode /\
  true = true /\
  save_target_ok Sample.two_repos (vector_store_path "./vector_store") /\
  exists self1 w1 vs2 w2,
    initialize_repository Sample.online Sample.constant_encode
      Sample.whole_text "m" "./vector_store" true "repoA" true
      (CodePalManager_init, Sample.two_repos)
    = (Ok (SuccessfullyProcessed 1 "repoA"), (self1, w1)) /\
    initialize_repository Sample.online Sample.constant_encode
      Sample.whole_text "m" "./vector_store" true "repoB" false
      (CodePalManager_init, w1)
    = (Ok (LoadedExisting "repoB"),
       ({| vector_store := Some vs2;
           agent := Some {| agent_vector_store := Some vs2 |};
           processor := None |}, w2)) /\
    map page_content (documents vs2) = ["x"].
Proof.
  pose proof constant_encode_well_shaped as H1.
  assert (H2 : true = true) by reflexivity.
  assert (H4 : save_target_ok Sample.two_repos
                 (vector_store_path "./vector_store"))
    by (exact (empty_world_target_ok (vector_store_path "./vector_store"))).
  split; [exact H1|]. split; [exact H2|]. split; [exact H4|].
  destruct (initialization_round_trip_through_the_persisted_store
              Sample.online Sample.constant_encode Sample.whole_text "m"
              "./vector_store" true "repoA" CodePalManager_init
              CodePalManager_init Sample.two_repos _ H1 H2 repoA_documents
              ltac:(discriminate) H4)
    as (self1 & w1 & vs1 & vs2 & w2 & Hfirst & _ & _ & Hlater & Hdocs & _).
  exists self1, w1, vs2, w2.
  split; [exact Hfirst|]. split; [exact (Hlater "repoB")|].
  rewrite Hdocs. reflexivity.
Defined.

Lemma nonpositive_k_witness :
  faiss_index Sample.two_documents = Some Sample.two_points /\
  embedding_model Sample.two_documents = Some (SentenceTransformer "m") /\
  0 <= 0 /\
  similarity_search Sample.constant_encode "q" 0
    (Sample.two_documents, Sample.empty_world)
  = (Raise AssertionError, (Sample.two_documents, Sample.empty_world)).
Proof.
  assert (H1 : faiss_index Sample.two_documents = Some Sample.two_points)
    by reflexivity.
  assert (H2 : embedding_model Sample.two_documents
               = Some (SentenceTransformer "m")) by reflexivity.
  assert (H3 : 0 <= 0) by lia.
  split; [exact H1|]. split; [exact H2|]. split; [exact H3|].
  exact (proj1 (similarity_search_rejects_nonpositive_k
                  Sample.constant_encode Sample.two_documents
                  Sample.empty_world "q" 0 Sample.two_points
                  (SentenceTransformer "m") H1 H2 H3)).
Defined.

Lemma added_documents_witness :
  faiss_index Sample.two_documents = Some Sample.two_points /\
  0 < 2 <= Z.of_nat (length (documents Sample.two_documents)) /\
  exists s',
    add_documents [Sample.doc "c.py" "c"]
      (Sample.two_documents, Sample.empty_world)
    = (Ok tt, (s', Sample.empty_world)) /\
    length (documents s') = 3%nat /\
    fst (similarity_search Sample.constant_encode "q" 2
           (s', Sample.empty_world))
    = fst (similarity_search Sample.constant_encode "q" 2
             (Sample.two_documents, Sample.empty_world)).
Proof.
  assert (H1 : faiss_index Sample.two_documents = Some Sample.two_points)
    by reflexivity.
  assert (H5 : 0 < 2 <= Z.of_nat (length (documents Sample.two_documents)))
    by (simpl; lia).
  split; [exact H1|]. split; [exact H5|].
  destruct (documents_added_after_the_index_was_built_are_not_searched
              Sample.constant_encode Sample.two_documents Sample.empty_world
              "q" 2 Sample.two_points [0%R] [Sample.doc "c.py" "c"]
              H1 eq_refl eq_refl eq_refl H5 two_points_distances_finite)
    as (s' & Hadd & Hdocs & _ & Hsame).
  exists s'. split; [exact Hadd|]. split; [rewrite Hdocs; reflexivity|].
  exact Hsame.
Defined.
